(** * ScanGuard backend: ingestion, daily aggregates and the alert lifecycle

    A shallow embedding of
      - [backend/src/controllers/cvController.js]
          ([postDetection], [postAlert], [postHeartbeat], [getAlerts],
          [updateAlert]),
      - [backend/src/middleware/apiKeyAuth.js] ([apiKeyAuth]),
      - [backend/src/routes/cv.js] (the three producer routes),
      - [backend/src/index.js] (the rooms of a socket),
      - [frontend/src/pages/Dashboard.jsx] (the listeners of the page),
      - [backend/migrations/run.js] ([runMigrations]),
    over the tables of [backend/migrations/001_initial_schema.sql].

    Conventions of the embedding.
      - A request body is a record of optional, typed fields: [None] is an
        absent (or JSON [null]) field; both are falsy and behave alike in
        every operator the handlers apply to them.
      - Numbers that are compared against thresholds are binary64 floats
        (the kernel's [float]); integer columns are [Z].
      - Instants are milliseconds since the epoch ([Z]), the time value of
        a JavaScript [Date].
      - [uuid_generate_v4()] is a counter of the store ([next_id]); row ids
        are only ever compared for equality.
      - The store checks what the handlers can get wrong: the foreign keys
        on [locations] and [users], the text of a [TIMESTAMPTZ] parameter,
        the [INTEGER] range of [frame_number], [detection_count],
        [track_id] and of a counter after an addition, the [REAL] range of
        [confidence] and the width of [class_name]. A uuid is a text in
        the form the store writes.
      - What a library function does beyond the cases the handlers rely on
        is a parameter of the embedding: [new Date], [parseInt],
        [String.prototype.trim], the readers of the store.
      - The handlers run in a state-and-exception monad over the store and
        the Socket.IO server: an exception leaves the state as it is at
        the throw (no query runs inside a transaction). *)

From Stdlib Require Import ZArith String Ascii List Floats Bool Lia.
From stdpp Require Import base option list gmap strings sorting.

Local Open Scope string_scope.
Local Open Scope Z_scope.

(** ** JavaScript helpers *)

Module Js.

(** [x || null] on a string field, and, read as a test, [!x]: the empty
    string is falsy. *)
Definition nonempty (x : option string) : option string :=
  match x with
  | Some s => if String.eqb s "" then None else Some s
  | None => None
  end.

(** [x || null] on an integer field: [0] is falsy. *)
Definition nonzero (x : option Z) : option Z :=
  match x with
  | Some n => if n =? 0 then None else Some n
  | None => None
  end.

(** [x || null] on a number: [0], [-0] and [NaN] are falsy. *)
Definition nonzerof (x : option float) : option float :=
  match x with
  | Some c => if PrimFloat.eqb c 0%float || PrimFloat.is_nan c then None else Some c
  | None => None
  end.

(** [x >= t] where [x] may be undefined: [undefined >= t] converts
    [undefined] to [NaN], and every comparison with [NaN] is false. *)
Definition ge (x : option float) (t : float) : bool :=
  match x with
  | Some c => PrimFloat.leb t c
  | None => false
  end.

(** [xs.includes(x)] on an array of strings. *)
Definition includes (xs : list string) (x : string) : bool :=
  existsb (String.eqb x) xs.

(** [s.split(sep)] for a one-character separator: never the empty array. *)
Fixpoint split (sep : ascii) (s : string) : list string :=
  match s with
  | EmptyString => [EmptyString]
  | String c r =>
      if Ascii.eqb c sep then EmptyString :: split sep r
      else match split sep r with
           | [] => [String c EmptyString]
           | h :: t => String c h :: t
           end
  end.

(** White space removed by [trim] (the ASCII part of it: tab, line feed,
    vertical tab, form feed, carriage return, space). *)
Definition is_space (c : ascii) : bool :=
  let n := N_of_ascii c in
  (N.leb 9 n && N.leb n 13) || N.eqb n 32.

Fixpoint trimStart (s : string) : string :=
  match s with
  | String c r => if is_space c then trimStart r else s
  | EmptyString => EmptyString
  end.

Fixpoint trimEnd (s : string) : string :=
  match s with
  | EmptyString => EmptyString
  | String c r =>
      match trimEnd r with
      | EmptyString => if is_space c then EmptyString else String c EmptyString
      | r' => String c r'
      end
  end.

(** [s.trim()] for a string whose white space is the one above.
    [String.prototype.trim] strips further characters beyond U+007F; the
    middleware below takes its [trim] as a parameter, and [Js.trim] is the
    one of the examples. *)
Definition trim (s : string) : string := trimEnd (trimStart s).

(** [.filter(Boolean)] on an array of strings. *)
Definition filterBoolean (xs : list string) : list string :=
  List.filter (fun s => negb (String.eqb s "")) xs.

(** *** Dates *)

Definition msPerDay : Z := 86400000.

(** A time value is valid within 100,000,000 days of the epoch. *)
Definition TimeClip (t : Z) : option Z :=
  if Z.abs t <=? 8640000000000000 then Some t else None.

(** Proleptic Gregorian (year, month, day) of a day number. *)
Definition civil_from_days (days : Z) : Z * Z * Z :=
  let z := days + 719468 in
  let era := z / 146097 in
  let doe := z - era * 146097 in
  let yoe := (doe - doe / 1460 + doe / 36524 - doe / 146096) / 365 in
  let doy := doe - (365 * yoe + yoe / 4 - yoe / 100) in
  let mp := (5 * doy + 2) / 153 in
  let d := doy - (153 * mp + 2) / 5 + 1 in
  let m := if mp <? 10 then mp + 3 else mp - 9 in
  let y := yoe + era * 400 + (if m <=? 2 then 1 else 0) in
  (y, m, d).

Definition days_from_civil (y m d : Z) : Z :=
  let y' := if m <=? 2 then y - 1 else y in
  let era := y' / 400 in
  let yoe := y' - era * 400 in
  let doy := (153 * (if 2 <? m then m - 3 else m + 9) + 2) / 5 + d - 1 in
  let doe := yoe * 365 + yoe / 4 - yoe / 100 + doy in
  era * 146097 + doe - 719468.

Definition digit (v : Z) : ascii := ascii_of_N (48 + Z.to_N (v mod 10)).

(** [v] in decimal, zero-padded to [w] digits. *)
Fixpoint pad (w : nat) (v : Z) : string :=
  match w with
  | O => EmptyString
  | S w' => (pad w' (v / 10) ++ String (digit v) EmptyString)%string
  end.

Definition year_string (y : Z) : string :=
  if (0 <=? y) && (y <=? 9999) then pad 4 y
  else String.append (if y <? 0 then "-" else "+") (pad 6 (Z.abs y)).

(** [d.toISOString().split("T")[0]] for a Date of time value [t]:
    the UTC calendar date; [toISOString] throws a RangeError on an
    invalid Date ([None]). *)
Definition toISOString_date (t : option Z) : option string :=
  match t with
  | Some t =>
      match TimeClip t with
      | Some t =>
          let '(y, m, d) := civil_from_days (t / msPerDay) in
          Some (year_string y ++ "-" ++ pad 2 m ++ "-" ++ pad 2 d)%string
      | None => None
      end
  | None => None
  end.

(** *** A parser for the example inputs

    [YYYY-MM-DDTHH:mm:ss.sssZ], the format [toISOString] writes and
    every engine reads; other strings are left to the engine (the
    handlers below take the engine's parser as a parameter). *)

Definition digit_val (c : ascii) : option Z :=
  let n := N_of_ascii c in
  if N.leb 48 n && N.leb n 57 then Some (Z.of_N n - 48) else None.

Fixpoint number (w : nat) (acc : Z) (s : string) : option (Z * string) :=
  match w with
  | O => Some (acc, s)
  | S w' =>
      match s with
      | String c r =>
          match digit_val c with
          | Some v => number w' (10 * acc + v) r
          | None => None
          end
      | EmptyString => None
      end
  end.

Definition expect (c : ascii) (s : string) : option string :=
  match s with
  | String c' r => if Ascii.eqb c c' then Some r else None
  | EmptyString => None
  end.

Definition parse_iso (s : string) : option Z :=
  '(y, s) ← number 4 0 s; s ← expect "-" s;
  '(mo, s) ← number 2 0 s; s ← expect "-" s;
  '(d, s) ← number 2 0 s; s ← expect "T" s;
  '(h, s) ← number 2 0 s; s ← expect ":" s;
  '(mi, s) ← number 2 0 s; s ← expect ":" s;
  '(sec, s) ← number 2 0 s; s ← expect "." s;
  '(ms, s) ← number 3 0 s; s ← expect "Z" s;
  let days := days_from_civil y mo d in
  if String.eqb s ""
     && bool_decide (civil_from_days days = (y, mo, d))
     && (h <? 24) && (mi <? 60) && (sec <? 60)
  then Some (days * msPerDay + ((h * 60 + mi) * 60 + sec) * 1000 + ms)
  else None.

End Js.

(** ** The store: tables of [001_initial_schema.sql] *)

Abbreviation Uuid := string (only parsing).

(** One element of the [detections] array of a detection payload. *)
Record Detected := {
  obj_class_id : Z;
  obj_class_name : string;
  obj_confidence : float;
  obj_bbox : list float;
  obj_track_id : option Z
}.

Record location := {
  loc_id : Uuid;
  loc_tenant_id : Uuid
}.

Record camera := {
  cam_id : Uuid;
  cam_location_id : Uuid;
  cam_camera_id : string
}.

Record cv_detection := {
  det_camera_id : option Uuid;
  det_location_id : Uuid;
  det_frame_number : Z;
  det_detections : list Detected;
  det_detection_count : Z;
  det_snapshot_b64 : option string;
  det_timestamp : Z;
  det_created_at : Z
}.

Record alert := {
  al_camera_id : option Uuid;
  al_location_id : Uuid;
  al_type : string;
  al_severity : string;
  al_track_id : option Z;
  al_class_name : option string;
  al_confidence : option float;
  al_bbox : option (list float);
  al_snapshot_b64 : option string;
  al_description : option string;
  al_status : string;
  al_reviewed_by : option Uuid;
  al_reviewed_at : option Z;
  al_created_at : Z
}.

Record daily_stat := {
  total_transactions : Z;
  total_items_scanned : Z;
  total_alerts : Z;
  alerts_reviewed : Z;
  alerts_confirmed : Z;
  estimated_loss_cents : Z;
  detection_count : Z;
  avg_confidence : float;
  ds_created_at : Z;
  ds_updated_at : Z
}.

(** [daily_stats] is keyed by its [UNIQUE(location_id, date)] pair, the
    event tables by their primary key. *)
Record Db := {
  locations : list location;
  cameras : list camera;
  users : list Uuid;
  cv_detections : gmap N cv_detection;
  alerts : gmap N alert;
  daily_stats : gmap (Uuid * string) daily_stat;
  next_id : N
}.

(** The counters the handlers write. *)
Inductive stat_field :=
  | f_detection_count
  | f_total_alerts
  | f_alerts_reviewed
  | f_alerts_confirmed.

Definition get_field (f : stat_field) (r : daily_stat) : Z :=
  match f with
  | f_detection_count => detection_count r
  | f_total_alerts => total_alerts r
  | f_alerts_reviewed => alerts_reviewed r
  | f_alerts_confirmed => alerts_confirmed r
  end.

Definition set_field (f : stat_field) (v : Z) (r : daily_stat) : daily_stat :=
  {| total_transactions := total_transactions r;
     total_items_scanned := total_items_scanned r;
     total_alerts := if f is f_total_alerts then v else total_alerts r;
     alerts_reviewed := if f is f_alerts_reviewed then v else alerts_reviewed r;
     alerts_confirmed := if f is f_alerts_confirmed then v else alerts_confirmed r;
     estimated_loss_cents := estimated_loss_cents r;
     detection_count := if f is f_detection_count then v else detection_count r;
     avg_confidence := avg_confidence r;
     ds_created_at := ds_created_at r;
     ds_updated_at := ds_updated_at r |}.

Definition set_updated_at (now : Z) (r : daily_stat) : daily_stat :=
  {| total_transactions := total_transactions r;
     total_items_scanned := total_items_scanned r;
     total_alerts := total_alerts r;
     alerts_reviewed := alerts_reviewed r;
     alerts_confirmed := alerts_confirmed r;
     estimated_loss_cents := estimated_loss_cents r;
     detection_count := detection_count r;
     avg_confidence := avg_confidence r;
     ds_created_at := ds_created_at r;
     ds_updated_at := now |}.

(** A row as [INSERT] leaves it when only the key is given: every counter
    at its [DEFAULT 0], both time stamps at [NOW()]. *)
Definition default_daily_stat (now : Z) : daily_stat :=
  {| total_transactions := 0;
     total_items_scanned := 0;
     total_alerts := 0;
     alerts_reviewed := 0;
     alerts_confirmed := 0;
     estimated_loss_cents := 0;
     detection_count := 0;
     avg_confidence := 0%float;
     ds_created_at := now;
     ds_updated_at := now |}.

Definition set_daily_stats (m : gmap (Uuid * string) daily_stat) (d : Db) : Db :=
  {| locations := locations d; cameras := cameras d; users := users d;
     cv_detections := cv_detections d; alerts := alerts d;
     daily_stats := m; next_id := next_id d |}.

Definition set_alerts (m : gmap N alert) (d : Db) : Db :=
  {| locations := locations d; cameras := cameras d; users := users d;
     cv_detections := cv_detections d; alerts := m;
     daily_stats := daily_stats d; next_id := next_id d |}.

(** A new row of an event table takes the next generated id. *)
Definition add_cv_detection (r : cv_detection) (d : Db) : Db :=
  {| locations := locations d; cameras := cameras d; users := users d;
     cv_detections := <[next_id d := r]> (cv_detections d); alerts := alerts d;
     daily_stats := daily_stats d; next_id := N.succ (next_id d) |}.

Definition add_alert (r : alert) (d : Db) : Db :=
  {| locations := locations d; cameras := cameras d; users := users d;
     cv_detections := cv_detections d; alerts := <[next_id d := r]> (alerts d);
     daily_stats := daily_stats d; next_id := N.succ (next_id d) |}.

(** [REFERENCES locations(id)] and [REFERENCES users(id)]. Ids are
    compared as texts: they are uuids in the form the store writes. *)
Definition location_exists (l : Uuid) (d : Db) : bool :=
  existsb (fun r => String.eqb (loc_id r) l) (locations d).

Definition user_exists (u : Uuid) (d : Db) : bool :=
  existsb (String.eqb u) (users d).

(** The range of an [INTEGER] column; arithmetic that leaves it makes the
    statement fail. *)
Definition int4 (v : Z) : bool := (-2147483648 <=? v) && (v <=? 2147483647).

(** *** Values that the columns take

    What the store keeps of a parameter, [None] when it refuses it. *)

(** An [INTEGER] column. *)
Definition int4_in (v : Z) : option Z := if int4 v then Some v else None.

(** A [REAL] column takes a number whose nearest binary32 is finite and
    not zero, an infinity and a NaN; a number that rounds to an infinity
    or to zero is out of range. The store keeps the binary32 and writes
    it back as its shortest decimal, which the driver reads as a number;
    the model keeps the number as it was sent. *)
Definition real_in (c : float) : option float :=
  match Prim2SF c with
  | S754_finite s m e =>
      match SpecFloat.binary_normalize 24 128 (cond_Zopp s (Zpos m)) e s with
      | S754_finite _ _ _ => Some c
      | _ => None
      end
  | _ => Some c
  end.

(** A [VARCHAR(n)] column keeps a text of at most [n] characters; of a
    longer one it keeps the first [n] when the rest is spaces, and
    refuses it otherwise. *)
Definition varchar_in (n : nat) (s : string) : option string :=
  if Nat.leb (String.length s) n then Some s
  else if forallb (Ascii.eqb " ")
            (list_ascii_of_string (String.substring n (String.length s - n) s))
       then Some (String.substring 0 n s)
       else None.

(** A parameter that may be null. *)
Definition nullable {A B} (read : A -> option B) (x : option A) : option (option B) :=
  match x with
  | Some a => Some <$> read a
  | None => Some None
  end.

(** *** Queries of [postDetection] and [postAlert]

    A statement that the store rejects returns [None] and changes nothing. *)

(** [SELECT id AS cam_uuid, location_id AS loc_uuid FROM cameras
     WHERE camera_id = $1 LIMIT 1]; without [ORDER BY] the row kept by
    [LIMIT 1] is the first one the store finds, here the first of the
    list. *)
Definition select_camera (camera_id : string) (d : Db) : list (Uuid * Uuid) :=
  take 1 (map (fun c => (cam_id c, cam_location_id c))
              (List.filter (fun c => String.eqb (cam_camera_id c) camera_id) (cameras d))).

(** [SELECT c.id AS cam_uuid, c.location_id AS loc_uuid, l.tenant_id
     FROM cameras c JOIN locations l ON c.location_id = l.id
     WHERE c.camera_id = $1 LIMIT 1] *)
Definition select_camera_tenant (camera_id : string) (d : Db)
  : list (Uuid * Uuid * Uuid) :=
  take 1 (flat_map
            (fun c => map (fun l => (cam_id c, cam_location_id c, loc_tenant_id l))
                          (List.filter (fun l => String.eqb (loc_id l) (cam_location_id c))
                                       (locations d)))
            (List.filter (fun c => String.eqb (cam_camera_id c) camera_id) (cameras d))).

(** [INSERT INTO daily_stats (location_id, date, <field>) VALUES ($1, $2, $3)
     ON CONFLICT (location_id, date) DO UPDATE
     SET <field> = daily_stats.<field> + EXCLUDED.<field>, updated_at = NOW()] *)
Definition upsert_daily_stats (now : Z) (f : stat_field) (loc : Uuid)
    (date : string) (delta : Z) (d : Db) : option Db :=
  match daily_stats d !! (loc, date) with
  | None =>
      if location_exists loc d && int4 delta
      then Some (set_daily_stats
                   (<[(loc, date) := set_field f delta (default_daily_stat now)]>
                      (daily_stats d)) d)
      else None
  | Some r =>
      let v := get_field f r + delta in
      if int4 v
      then Some (set_daily_stats
                   (<[(loc, date) := set_updated_at now (set_field f v r)]>
                      (daily_stats d)) d)
      else None
  end.

(** [INSERT INTO alerts (camera_id, location_id, type, severity, track_id,
     class_name, confidence, bbox, snapshot_b64, description, status)
     VALUES ($1, $2, 'non_scan', $3, $4, $5, $6, $7, $8, $9, 'open')
     RETURNING id, created_at]: refused when the location is not one of
    [locations] or when [track_id] ([INTEGER]), [class_name]
    ([VARCHAR(100)]) or [confidence] ([REAL]) does not fit its column. *)
Definition insert_alert (now : Z) (camUuid : option Uuid) (locUuid : Uuid)
    (severity : string) (track_id : option Z) (class_name : option string)
    (confidence : option float) (bbox : option (list float))
    (snapshot_b64 description : option string) (d : Db)
  : option ((N * Z) * Db) :=
  if location_exists locUuid d
  then
    match nullable int4_in track_id, nullable (varchar_in 100) class_name,
          nullable real_in confidence with
    | Some track_id, Some class_name, Some confidence =>
        Some ((next_id d, now),
              add_alert {| al_camera_id := camUuid;
                           al_location_id := locUuid;
                           al_type := "non_scan";
                           al_severity := severity;
                           al_track_id := track_id;
                           al_class_name := class_name;
                           al_confidence := confidence;
                           al_bbox := bbox;
                           al_snapshot_b64 := snapshot_b64;
                           al_description := description;
                           al_status := "open";
                           al_reviewed_by := None;
                           al_reviewed_at := None;
                           al_created_at := now |} d)
    | _, _, _ => None
    end
  else None.

(** *** Queries of [updateAlert] *)

Definition set_review (status : string) (reviewed_by : option Uuid)
    (reviewed_at : option Z) (a : alert) : alert :=
  {| al_camera_id := al_camera_id a;
     al_location_id := al_location_id a;
     al_type := al_type a;
     al_severity := al_severity a;
     al_track_id := al_track_id a;
     al_class_name := al_class_name a;
     al_confidence := al_confidence a;
     al_bbox := al_bbox a;
     al_snapshot_b64 := al_snapshot_b64 a;
     al_description := al_description a;
     al_status := status;
     al_reviewed_by := reviewed_by;
     al_reviewed_at := reviewed_at;
     al_created_at := al_created_at a |}.

(** [UPDATE alerts
     SET status = COALESCE($1, status),
         reviewed_by = COALESCE($2, reviewed_by),
         reviewed_at = CASE WHEN $1 IN ('reviewed','dismissed','resolved')
                       THEN NOW() ELSE reviewed_at END
     WHERE id = $3 RETURNING id, status, reviewed_at]; [p2] is a uuid in
    the form the store writes, or null. *)
Definition update_alert_row (now : Z) (p1 : option string) (p2 : option Uuid)
    (id : N) (d : Db) : option (list (N * string * option Z) * Db) :=
  match alerts d !! id with
  | None => Some ([], d)
  | Some a =>
      let a' :=
        set_review
          (default (al_status a) p1)
          (match p2 with Some u => Some u | None => al_reviewed_by a end)
          (match p1 with
           | Some s => if Js.includes ["reviewed"; "dismissed"; "resolved"] s
                       then Some now else al_reviewed_at a
           | None => al_reviewed_at a
           end)
          a in
      if match p2 with Some u => user_exists u d | None => true end
      then Some ([(id, al_status a', al_reviewed_at a')],
                 set_alerts (<[id := a']> (alerts d)) d)
      else None
  end.

(** [SELECT location_id, created_at FROM alerts WHERE id = $1] *)
Definition select_alert_key (id : N) (d : Db) : list (Uuid * Z) :=
  match alerts d !! id with
  | Some a => [(al_location_id a, al_created_at a)]
  | None => []
  end.

(** [UPDATE daily_stats SET <field> = <field> + 1, updated_at = NOW()
     WHERE location_id = $1 AND date = $2] *)
Definition update_daily_stats (now : Z) (f : stat_field) (loc : Uuid)
    (date : string) (d : Db) : option Db :=
  match daily_stats d !! (loc, date) with
  | None => Some d
  | Some r =>
      let v := get_field f r + 1 in
      if int4 v
      then Some (set_daily_stats
                   (<[(loc, date) := set_updated_at now (set_field f v r)]>
                      (daily_stats d)) d)
      else None
  end.

(** ** The Socket.IO server *)

Inductive target :=
  | to_room (room : string)   (* [io.to(room).emit(...)] *)
  | to_all.                   (* [io.emit(...)] *)

Inductive payload :=
  | detection_payload (camera_id : string) (location_id : Uuid)
      (timestamp : string) (objects : list Detected) (fps : float)
  | alert_payload (id : N) (camera_id : string) (location_id : Uuid)
      (type : string) (track_id : option Z) (class_name : option string)
      (confidence : option float) (bbox : option (list float))
      (description : option string) (snapshot_b64 : option string)
      (created_at : Z)
  | count_update_payload (location_id : Uuid).

Record emission := {
  em_target : target;
  em_event : string;
  em_payload : payload
}.

(** The server keeps what it has sent, newest first; [io_throws] tells
    which calls of [emit] raise an exception. *)
Record Io := {
  io_throws : emission -> bool;
  io_sent : list emission
}.

(** ** The state of the process and the monad of the handlers *)

Record World := {
  db : Db;
  io : option Io   (* [req.app.get("io")] *)
}.

Definition set_db (d : Db) (w : World) : World := {| db := d; io := io w |}.

(** A computation returns a value or throws ([None]); the state is kept
    either way. *)
Definition M (A : Type) : Type := World -> option A * World.

Definition ret {A} (a : A) : M A := fun w => (Some a, w).

Definition throw {A} : M A := fun w => (None, w).

Definition bind {A B} (m : M A) (k : A -> M B) : M B :=
  fun w =>
    match m w with
    | (Some a, w') => k a w'
    | (None, w') => (None, w')
    end.

Declare Scope handler_scope.
Delimit Scope handler_scope with handler.
Notation "'let*' x := m 'in' k" := (bind m (fun x => k))
  (at level 10, x pattern, m at level 100, k at level 200) : handler_scope.

(** A read-only query. *)
Definition select {A} (q : Db -> A) : M A := fun w => (Some (q (db w)), w).

(** A statement that writes and returns rows; a rejected statement
    rejects the promise. *)
Definition query {A} (q : Db -> option (A * Db)) : M A :=
  fun w =>
    match q (db w) with
    | Some (a, d) => (Some a, set_db d w)
    | None => (None, w)
    end.

(** A statement that writes and whose result is not used. *)
Definition exec (q : Db -> option Db) : M unit :=
  fun w =>
    match q (db w) with
    | Some d => (Some tt, set_db d w)
    | None => (None, w)
    end.

(** A JavaScript expression that may throw. *)
Definition eval {A} (v : option A) : M A := fun w => (v, w).

(** [io.to(room).emit(event, payload)] and [io.emit(event, payload)]: the
    emission is recorded, or the call throws. *)
Definition emit (t : target) (event : string) (p : payload) : M unit :=
  fun w =>
    match io w with
    | Some i =>
        let e := {| em_target := t; em_event := event; em_payload := p |} in
        if io_throws i e then (None, w)
        else (Some tt,
              {| db := db w;
                 io := Some {| io_throws := io_throws i; io_sent := e :: io_sent i |} |})
    | None => (None, w)
    end.

(** [try { m } catch (err) { console.error(...) }] *)
Definition try_catch (m : M unit) : M unit :=
  fun w =>
    match m w with
    | (Some _, w') => (Some tt, w')
    | (None, w') => (Some tt, w')
    end.

(** ** Responses *)

Inductive res_body :=
  | error_body (error : string)                   (* [{ error }] *)
  | id_body (id : N)                              (* [{ id }] *)
  | ack_body                                      (* [{ ack: true }] *)
  | row_body (row : N * string * option Z).       (* [{ id, status, reviewed_at }] *)

Record Response := {
  res_status : Z;
  res_json : res_body
}.

Definition respond (status : Z) (b : res_body) : Response :=
  {| res_status := status; res_json := b |}.

(** [try { m } catch (err) { return res.status(500).json(...) }] around the
    body of a handler. *)
Definition handler (m : M Response) : World -> Response * World :=
  fun w =>
    match m w with
    | (Some r, w') => (r, w')
    | (None, w') => (respond 500 (error_body "Internal server error"), w')
    end.

(** ** Request bodies *)

(** The bodies as the producer sends them: each field absent or of the
    type of its column, [detections] an array of objects, [frame_number]
    and [track_id] integers. The handlers do not check the types; a body
    with a field of another type is outside these records. *)
Record DetectionBody := {
  d_camera_id : option string;
  d_location_id : option string;
  d_timestamp : option string;
  d_frame_number : option Z;
  d_detections : option (list Detected);
  d_snapshot_b64 : option string;
  d_fps : option float
}.

Record AlertBody := {
  a_camera_id : option string;
  a_location_id : option string;
  a_timestamp : option string;
  a_track_id : option Z;
  a_class_name : option string;
  a_confidence : option float;
  a_bbox : option (list float);
  a_snapshot_b64 : option string;
  a_description : option string
}.

Record UpdateBody := {
  u_status : option string;
  u_reviewed_by : option string
}.

(** The location used when no camera matches. *)
Definition FALLBACK : Uuid := "2139ff48-35b8-423f-b4cb-64ca303ef625".

(** The binary64 values of the literals [0.8], [0.5] and [15.0]. *)
Definition c_0_8 : float := 0x1.999999999999ap-1%float.
Definition c_0_5 : float := 0x1p-1%float.
Definition c_15 : float := 0x1.ep+3%float.

Definition validStatuses : list string :=
  ["open"; "reviewed"; "dismissed"; "resolved"].

Section Controller.

(** ** The handlers of [cvController.js] *)

(** The time value of [new Date(s)] for a string [s], [None] for an
    invalid Date: the format [toISOString] writes is read by every
    engine ([Js.parse_iso]), further formats are the engine's choice. *)
Variable Date_parse : string -> option Z.

(** The instant the store reads from a [TIMESTAMPTZ] parameter, [None]
    when it rejects the text. *)
Variable timestamptz_in : string -> option Z.

Local Open Scope handler_scope.

(** [INSERT INTO cv_detections (camera_id, location_id, frame_number,
     detections, detection_count, snapshot_b64, timestamp)
     VALUES ($1, $2, $3, $4, $5, $6, $7) RETURNING id]: refused when the
    store cannot read the timestamp, when the location is not one of
    [locations], or when [frame_number] or [detection_count] is outside
    [INTEGER]. *)
Definition insert_cv_detection (now : Z) (camUuid : option Uuid) (locUuid : Uuid)
    (frame_number : Z) (detections : list Detected) (detection_count : Z)
    (snapshot_b64 : option string) (timestamp : string) (d : Db)
  : option (N * Db) :=
  match timestamptz_in timestamp with
  | Some ts =>
      if location_exists locUuid d
      then
        if int4 frame_number && int4 detection_count
        then Some (next_id d,
                   add_cv_detection {| det_camera_id := camUuid;
                                       det_location_id := locUuid;
                                       det_frame_number := frame_number;
                                       det_detections := detections;
                                       det_detection_count := detection_count;
                                       det_snapshot_b64 := snapshot_b64;
                                       det_timestamp := ts;
                                       det_created_at := now |} d)
        else None
      else None
  | None => None
  end.

(** The block "Emit real-time detection via Socket.IO" of [postDetection]:
    without a server an error is logged; with one, both emissions run
    inside their own [try]/[catch]. *)
Definition emit_detection (camera_id : string) (locUuid : Uuid)
    (timestamp : string) (detections : list Detected) (fps : option float)
  : M unit :=
  fun w =>
    match io w with
    | Some _ =>
        try_catch (
          let payload :=
            detection_payload camera_id locUuid timestamp detections
              (default c_15 (Js.nonzerof fps)) in
          let* _ := emit (to_room ("location:" ++ locUuid)) "detection" payload in
          emit to_all "detection" payload) w
    | None => ret tt w
    end.

(** [POST /api/cv/detections] *)
Definition postDetection (now : Z) (body : DetectionBody)
  : World -> Response * World :=
  match Js.nonempty (d_camera_id body), Js.nonempty (d_location_id body),
        Js.nonempty (d_timestamp body), d_detections body with
  | Some camera_id, Some _, Some timestamp, Some detections =>
      handler (
        let* camResult := select (select_camera camera_id) in
        let '(camUuid, locUuid) :=
          match camResult with
          | row :: _ => (Some (fst row), snd row)
          | [] => (None, FALLBACK)
          end in
        let* id := query (insert_cv_detection now camUuid locUuid
                            (default 0 (d_frame_number body))
                            detections
                            (Z.of_nat (length detections))
                            (Js.nonempty (d_snapshot_b64 body))
                            timestamp) in
        let* dateStr := eval (Js.toISOString_date (Date_parse timestamp)) in
        let* _ := exec (upsert_daily_stats now f_detection_count locUuid dateStr
                          (Z.of_nat (length detections))) in
        let* _ := emit_detection camera_id locUuid timestamp detections
                    (d_fps body) in
        ret (respond 201 (id_body id)))
  | _, _, _, _ =>
      fun w => (respond 400 (error_body "Missing required fields"), w)
  end.

(** The severity written by [postAlert]:
    [confidence >= 0.8 ? "high" : confidence >= 0.5 ? "medium" : "low"]. *)
Definition severity (confidence : option float) : string :=
  if Js.ge confidence c_0_8 then "high"
  else if Js.ge confidence c_0_5 then "medium"
  else "low".

(** The block "Emit real-time alert via Socket.IO" of [postAlert]: no
    [try]/[catch] of its own. *)
Definition emit_alert (body : AlertBody) (alert : N * Z) (camera_id : string)
    (locUuid : Uuid) (tenantId : option Uuid) : M unit :=
  fun w =>
    match io w with
    | Some _ =>
        (let alertPayload :=
           alert_payload (fst alert) camera_id locUuid "non_scan"
             (a_track_id body) (a_class_name body) (a_confidence body)
             (a_bbox body) (a_description body)
             (match Js.nonempty (a_snapshot_b64 body) with
              | Some s => Some (String.substring 0 100 s ++ "...")
              | None => None
              end)
             (snd alert) in
         let* _ :=
           match Js.nonempty tenantId with
           | Some t => emit (to_room ("tenant:" ++ t)) "alert:new" alertPayload
           | None => ret tt
           end in
         let* _ := emit (to_room ("location:" ++ locUuid)) "alert:new" alertPayload in
         emit to_all "alert:count_update" (count_update_payload locUuid)) w
    | None => ret tt w
    end.

(** [POST /api/cv/alerts] *)
Definition postAlert (now : Z) (body : AlertBody)
  : World -> Response * World :=
  match Js.nonempty (a_camera_id body), Js.nonempty (a_location_id body),
        Js.nonempty (a_timestamp body) with
  | Some camera_id, Some _, Some timestamp =>
      handler (
        let* camResult := select (select_camera_tenant camera_id) in
        let '(camUuid, locUuid, tenantId) :=
          match camResult with
          | row :: _ => (Some (fst (fst row)), snd (fst row), Some (snd row))
          | [] => (None, FALLBACK, None)
          end in
        let* alert :=
          query (insert_alert now camUuid locUuid
                   (severity (a_confidence body))
                   (Js.nonzero (a_track_id body))
                   (Js.nonempty (a_class_name body))
                   (Js.nonzerof (a_confidence body))
                   (a_bbox body)
                   (Js.nonempty (a_snapshot_b64 body))
                   (Js.nonempty (a_description body))) in
        let* dateStr := eval (Js.toISOString_date (Date_parse timestamp)) in
        let* _ := exec (upsert_daily_stats now f_total_alerts locUuid dateStr 1) in
        let* _ := emit_alert body alert camera_id locUuid tenantId in
        ret (respond 201 (id_body (fst alert))))
  | _, _, _ =>
      fun w => (respond 400 (error_body "Missing required fields"), w)
  end.

(** [POST /api/cv/heartbeat] *)
Definition postHeartbeat : World -> Response * World :=
  handler (ret (respond 200 ack_body)).

(** The block "Update daily stats for reviewed alerts" of [updateAlert]. *)
Definition update_stats_for (now : Z) (id : N) (status : option string) : M unit :=
  if bool_decide (status = Some "reviewed") || bool_decide (status = Some "resolved")
  then
    let* alertRow := select (select_alert_key id) in
    match alertRow with
    | row :: _ =>
        let* dateStr := eval (Js.toISOString_date (Some (snd row))) in
        let statField :=
          if bool_decide (status = Some "resolved")
          then f_alerts_confirmed else f_alerts_reviewed in
        exec (update_daily_stats now statField (fst row) dateStr)
    | [] => ret tt
    end
  else ret tt.

(** [PATCH /api/cv/alerts/:id]; a falsy [status] skips the check of line
    313 and reaches the store as [null]. *)
Definition updateAlert (now : Z) (id : N) (body : UpdateBody)
  : World -> Response * World :=
  let status := Js.nonempty (u_status body) in
  if match status with
     | Some s => negb (Js.includes validStatuses s)
     | None => false
     end
  then fun w =>
    (respond 400 (error_body
       ("Invalid status. Must be one of: " ++ String.concat ", " validStatuses)), w)
  else
    handler (
      let* result := query (update_alert_row now status
                              (Js.nonempty (u_reviewed_by body)) id) in
      match result with
      | [] => ret (respond 404 (error_body "Alert not found"))
      | row :: _ =>
          let* _ := update_stats_for now id status in
          ret (respond 200 (row_body row))
      end).

(** ** [apiKeyAuth.js] and the producer routes of [routes/cv.js] *)

Inductive middleware_result :=
  | next                      (* [next()] *)
  | reply (r : Response).     (* [return res.status(...).json(...)] *)

(** [String.prototype.trim]: the string without the white space and the
    line terminators at its two ends. *)
Variable trim : string -> string.

(** The keys read from [process.env.CV_API_KEYS]. *)
Definition validKeys (env : option string) : list string :=
  Js.filterBoolean (map trim (Js.split "," (default "" (Js.nonempty env)))).

(** [env] is [process.env.CV_API_KEYS], [header] is
    [req.headers["x-api-key"]]. *)
Definition apiKeyAuth (env header : option string) : middleware_result :=
  match Js.nonempty header with
  | None => reply (respond 401 (error_body "Missing X-API-Key header"))
  | Some apiKey =>
      if Nat.eqb (length (validKeys env)) 0
      then reply (respond 500 (error_body "API keys not configured"))
      else if negb (Js.includes (validKeys env) apiKey)
      then reply (respond 403 (error_body "Invalid API key"))
      else next
  end.

(** [router.post(path, apiKeyAuth, h)] *)
Definition with_apiKeyAuth (env header : option string)
    (h : World -> Response * World) : World -> Response * World :=
  fun w =>
    match apiKeyAuth env header with
    | next => h w
    | reply r => (r, w)
    end.

Definition route_detections (env header : option string) (now : Z)
    (body : DetectionBody) : World -> Response * World :=
  with_apiKeyAuth env header (postDetection now body).

Definition route_alerts (env header : option string) (now : Z)
    (body : AlertBody) : World -> Response * World :=
  with_apiKeyAuth env header (postAlert now body).

Definition route_heartbeat (env header : option string)
  : World -> Response * World :=
  with_apiKeyAuth env header postHeartbeat.

End Controller.

(** ** A small deployment, for the examples *)

Definition tenant_acme : Uuid := "5b1d2f0a-7c3e-4a51-9d27-0e8f6c4b1a90".
Definition store_berlin : Uuid := "8e4c6a12-03bd-4f7e-b6a1-52d9c7e0f314".
Definition user_admin : Uuid := "c2a9e7d4-5f10-4b83-a6c2-9b3d1e7f4a65".

Definition db0 : Db :=
  {| locations := [ {| loc_id := FALLBACK; loc_tenant_id := tenant_acme |};
                    {| loc_id := store_berlin; loc_tenant_id := tenant_acme |} ];
     cameras := [ {| cam_id := "1f6b3c8d-2e4a-4d9f-8a70-6c5e4d3b2a19";
                     cam_location_id := store_berlin;
                     cam_camera_id := "cam-01" |} ];
     users := [ user_admin ];
     cv_detections := ∅;
     alerts := ∅;
     daily_stats := ∅;
     next_id := 1 |}.

(** A server whose emissions all succeed, and one whose emissions all throw. *)
Definition io_up : Io := {| io_throws := fun _ => false; io_sent := [] |}.
Definition io_down : Io := {| io_throws := fun _ => true; io_sent := [] |}.

Definition w0 : World := {| db := db0; io := Some io_up |}.
Definition w0_down : World := {| db := db0; io := Some io_down |}.

Definition person : Detected :=
  {| obj_class_id := 0; obj_class_name := "person";
     obj_confidence := 0x1.ccccccccccccdp-1%float;
     obj_bbox := [10; 20; 110; 220]%float; obj_track_id := Some 7 |}.

Definition bottle : Detected :=
  {| obj_class_id := 39; obj_class_name := "bottle";
     obj_confidence := 0x1.3333333333333p-1%float;
     obj_bbox := [40; 60; 80; 120]%float; obj_track_id := None |}.

(** Two instants either side of midnight UTC. *)
Definition t_before_midnight : string := "2024-01-15T23:59:59.900Z".
Definition now_after_midnight : Z := 1705363200100.   (* 2024-01-16T00:00:00.100Z *)
Definition now_same_day : Z := 1705363199950.         (* 2024-01-15T23:59:59.950Z *)

Definition detection_cam01 : DetectionBody :=
  {| d_camera_id := Some "cam-01";
     d_location_id := Some "loc-01";
     d_timestamp := Some t_before_midnight;
     d_frame_number := Some 1042;
     d_detections := Some [person; bottle];
     d_snapshot_b64 := None;
     d_fps := None |}.

Definition detection_unknown : DetectionBody :=
  {| d_camera_id := Some "cam-99";
     d_location_id := Some "loc-01";
     d_timestamp := Some t_before_midnight;
     d_frame_number := Some 7;
     d_detections := Some [person];
     d_snapshot_b64 := None;
     d_fps := None |}.

Definition alert_cam01 (confidence : option float) : AlertBody :=
  {| a_camera_id := Some "cam-01";
     a_location_id := Some "loc-01";
     a_timestamp := Some t_before_midnight;
     a_track_id := Some 7;
     a_class_name := Some "bottle";
     a_confidence := confidence;
     a_bbox := Some [40; 60; 80; 120]%float;
     a_snapshot_b64 := None;
     a_description := Some "item passed the scan zone unscanned" |}.

Definition alert_unknown : AlertBody :=
  {| a_camera_id := Some "cam-99";
     a_location_id := Some "loc-01";
     a_timestamp := Some t_before_midnight;
     a_track_id := None;
     a_class_name := None;
     a_confidence := Some 0x1.d70a3d70a3d71p-1%float;
     a_bbox := None;
     a_snapshot_b64 := None;
     a_description := None |}.

Definition resolve : UpdateBody :=
  {| u_status := Some "resolved"; u_reviewed_by := Some user_admin |}.

(** The world after the alert of [cam-01] has been ingested at [now]. *)
Definition w_alert (now : Z) : World :=
  snd (postAlert Js.parse_iso now (alert_cam01 (Some c_0_8)) w0).

(** The row that [postAlert] stores for [alert_cam01 (Some c_0_8)]. *)
Definition alert_cam01_stored (now : Z) : alert :=
  {| al_camera_id := Some "1f6b3c8d-2e4a-4d9f-8a70-6c5e4d3b2a19";
     al_location_id := store_berlin;
     al_type := "non_scan";
     al_severity := "high";
     al_track_id := Some 7;
     al_class_name := Some "bottle";
     al_confidence := Some c_0_8;
     al_bbox := Some [40; 60; 80; 120]%float;
     al_snapshot_b64 := None;
     al_description := Some "item passed the scan zone unscanned";
     al_status := "open";
     al_reviewed_by := None;
     al_reviewed_at := None;
     al_created_at := now |}.

(** A request that keeps the status and names a reviewer. *)
Definition review_with_empty_status : UpdateBody :=
  {| u_status := Some ""; u_reviewed_by := Some user_admin |}.

(** ** Vocabulary of the statements *)

(** What lines 31-38 of [postDetection] leave in [camUuid] and [locUuid]. *)
Definition resolved (camera_id : string) (d : Db) : option Uuid * Uuid :=
  match select_camera camera_id d with
  | row :: _ => (Some (fst row), snd row)
  | [] => (None, FALLBACK)
  end.

(** What lines 133-141 of [postAlert] leave in [camUuid], [locUuid] and
    [tenantId]. *)
Definition resolved_tenant (camera_id : string) (d : Db)
  : option Uuid * Uuid * option Uuid :=
  match select_camera_tenant camera_id d with
  | row :: _ => (Some (fst (fst row)), snd (fst row), Some (snd row))
  | [] => (None, FALLBACK, None)
  end.

(** A counter of a (location, date) pair; a pair without a row counts 0. *)
Definition counter (f : stat_field) (d : Db) (key : Uuid * string) : Z :=
  default 0 (get_field f <$> daily_stats d !! key).

(** The answer of a handler whose [try] block threw. *)
Definition internal_error : Response :=
  respond 500 (error_body "Internal server error").

(** A server none of whose emissions throws, or no server at all. *)
Definition fanout_up (w : World) : Prop :=
  match io w with
  | Some i => forall e, io_throws i e = false
  | None => True
  end.

(** ** Further example inputs *)

(** A store that lacks the fallback location. *)
Definition db_no_fallback : Db :=
  {| locations := [ {| loc_id := store_berlin; loc_tenant_id := tenant_acme |} ];
     cameras := cameras db0;
     users := users db0;
     cv_detections := ∅;
     alerts := ∅;
     daily_stats := ∅;
     next_id := 1 |}.

Definition w_no_fallback : World := {| db := db_no_fallback; io := Some io_up |}.

(** A timestamp the store reads ([Js.parse_iso] stands for its reader in
    the examples) but [new Date] does not. *)
Definition Date_parse_strict (s : string) : option Z :=
  if String.eqb s t_before_midnight then None else Js.parse_iso s.

(** ** Further vocabulary *)

(** The snapshot carried by an emission, if any. *)
Definition payload_snapshot (p : payload) : option string :=
  match p with
  | alert_payload _ _ _ _ _ _ _ _ _ snapshot_b64 _ => snapshot_b64
  | _ => None
  end.

(** A property of every emission sent so far. *)
Definition sent_all (P : emission -> Prop) (w : World) : Prop :=
  match io w with
  | Some i => Forall P (io_sent i)
  | None => True
  end.

(** The emissions sent so far, newest first. *)
Definition sent (w : World) : list emission :=
  match io w with
  | Some i => io_sent i
  | None => []
  end.

(** An emission carries at most 103 characters of snapshot. *)
Definition snapshot_bounded (e : emission) : Prop :=
  forall s, payload_snapshot (em_payload e) = Some s -> (String.length s <= 103)%nat.

(** No emission sent so far carries more than 103 characters of
    snapshot. *)
Definition snapshots_bounded : World -> Prop := sent_all snapshot_bounded.

(** A computation that leaves the server as it is. *)
Definition keeps_io {A} (m : M A) : Prop := forall w, io (snd (m w)) = io w.

(** What [updateAlert] may change of a store: the alert [id] and the
    daily counters. *)
Definition same_but_alert (id : N) (d d' : Db) : Prop :=
  locations d' = locations d /\
  cameras d' = cameras d /\
  users d' = users d /\
  cv_detections d' = cv_detections d /\
  next_id d' = next_id d /\
  forall id', id' <> id -> alerts d' !! id' = alerts d !! id'.

(** The text in which the store writes a uuid, and in which the ids of
    the model are written: 32 hexadecimal digits in lower case, in groups
    of 8, 4, 4, 4 and 12 joined by hyphens. The store reads further
    spellings of a uuid (upper case, braces, no hyphens) and refuses a
    text that is none; the model compares ids as texts, so a parameter
    that is a uuid is taken in this form. *)
Definition is_hex (c : ascii) : bool :=
  let n := N_of_ascii c in
  (N.leb 48 n && N.leb n 57) || (N.leb 97 n && N.leb n 102).

Fixpoint hex_digits (n : nat) (s : string) : option string :=
  match n, s with
  | O, _ => Some s
  | S n', String c r => if is_hex c then hex_digits n' r else None
  | S _, EmptyString => None
  end.

Definition hyphen_hex_digits (n : nat) (s : option string) : option string :=
  match s with
  | Some (String c r) => if Ascii.eqb c "-" then hex_digits n r else None
  | _ => None
  end.

Definition is_uuid_text (s : string) : bool :=
  match hyphen_hex_digits 12
          (hyphen_hex_digits 4
             (hyphen_hex_digits 4 (hyphen_hex_digits 4 (hex_digits 8 s)))) with
  | Some EmptyString => true
  | _ => false
  end.

(** Whether the character [c] occurs in [s]. *)
Fixpoint has_char (c : ascii) (s : string) : bool :=
  match s with
  | EmptyString => false
  | String c' r => Ascii.eqb c' c || has_char c r
  end.

#[global] Instance stat_field_eq_dec : EqDecision stat_field.
Proof. solve_decision. Defined.

(** ** [getAlerts]: the listing of alerts *)

(** The query string of [GET /api/cv/alerts]. *)
Record AlertsQuery := {
  q_location_id : option string;
  q_status : option string;
  q_type : option string;
  q_limit : option string;
  q_offset : option string;
  q_from : option string;
  q_to : option string
}.

(** A row of the listing: the columns that [getAlerts] selects. *)
Record listed_alert := {
  li_id : N;
  li_camera_id : option Uuid;
  li_location_id : Uuid;
  li_type : string;
  li_severity : string;
  li_track_id : option Z;
  li_class_name : option string;
  li_confidence : option float;
  li_bbox : option (list float);
  li_description : option string;
  li_status : string;
  li_created_at : Z;
  li_camera_name : option string
}.

Inductive alerts_body :=
  | alerts_error (error : string)                          (* [{ error }] *)
  | alerts_page (alerts : list listed_alert) (total limit offset : Z).
                                          (* [{ alerts, total, limit, offset }] *)

Record AlertsResponse := {
  ares_status : Z;
  ares_json : alerts_body
}.

(** [ORDER BY a.created_at DESC]: the later alert comes first. *)
Definition newest_first (x y : N * alert) : Prop :=
  al_created_at (snd y) <= al_created_at (snd x).

#[global] Instance newest_first_dec x y : Decision (newest_first x y).
Proof. unfold newest_first. apply _. Defined.

(** [LEFT JOIN cameras c ON a.camera_id = c.id] and the select list:
    [camera_name] is the [camera_id] string of the alert's camera, if it
    has one ([cameras.id] is the primary key). *)
Definition listed (d : Db) (x : N * alert) : listed_alert :=
  let a := snd x in
  {| li_id := fst x;
     li_camera_id := al_camera_id a;
     li_location_id := al_location_id a;
     li_type := al_type a;
     li_severity := al_severity a;
     li_track_id := al_track_id a;
     li_class_name := al_class_name a;
     li_confidence := al_confidence a;
     li_bbox := al_bbox a;
     li_description := al_description a;
     li_status := al_status a;
     li_created_at := al_created_at a;
     li_camera_name :=
       match al_camera_id a with
       | Some id =>
           cam_camera_id <$> List.find (fun c => String.eqb (cam_id c) id) (cameras d)
       | None => None
       end |}.

(** The largest [BIGINT], the type of [LIMIT] and [OFFSET]. *)
Definition int8_max : Z := 9223372036854775807.

Section Listing.

(** The integer that [parseInt(s)] returns, [None] for [NaN]. *)
Variable parseInt : string -> option Z.

(** The uuid the store reads from a [UUID] parameter, written as the
    ids of the store are, and the instant it reads from a [TIMESTAMPTZ]
    parameter; [None] when it rejects the text. *)
Variable uuid_in : string -> option Uuid.
Variable timestamptz_in : string -> option Z.

Local Open Scope handler_scope.

(** The instant the store reads from a [TIMESTAMPTZ] parameter. A bound
    [a.created_at >= $n] or [a.created_at <= $n] is pushed when the
    parameter is truthy; [None] when the store rejects its text. *)
Definition time_bound (x : option string) : option (option Z) :=
  match Js.nonempty x with
  | Some s => Some <$> timestamptz_in s
  | None => Some None
  end.

(** [a.location_id = $n], pushed when the parameter is truthy; the column
    is a [UUID], and the store rejects a text that is none. *)
Definition uuid_param (x : option string) : option (option Uuid) :=
  match Js.nonempty x with
  | Some s => Some <$> uuid_in s
  | None => Some None
  end.

(** The conditions joined by [AND]. *)
Definition conditions (loc : option Uuid) (status type : option string)
    (from to : option Z) (a : alert) : bool :=
  match loc with
  | Some l => String.eqb (al_location_id a) l
  | None => true
  end
  && match status with
     | Some s => String.eqb (al_status a) s
     | None => true
     end
  && match type with
     | Some t => String.eqb (al_type a) t
     | None => true
     end
  && match from with
     | Some t => t <=? al_created_at a
     | None => true
     end
  && match to with
     | Some t => al_created_at a <=? t
     | None => true
     end.

(** The [WHERE] clause built from the truthy filters. *)
Definition where_clause (q : AlertsQuery) : option (alert -> bool) :=
  match uuid_param (q_location_id q), time_bound (q_from q), time_bound (q_to q) with
  | Some loc, Some from, Some to =>
      Some (conditions loc (Js.nonempty (q_status q)) (Js.nonempty (q_type q)) from to)
  | _, _, _ => None
  end.

(** The alerts that satisfy the [WHERE] clause. *)
Definition matching (cond : alert -> bool) (d : Db) : list (N * alert) :=
  List.filter (fun x => cond (snd x)) (map_to_list (alerts d)).

(** [SELECT COUNT( * ) FROM alerts a <where>] *)
Definition count_alerts (q : AlertsQuery) (d : Db) : option Z :=
  match where_clause q with
  | Some cond => Some (Z.of_nat (length (matching cond d)))
  | None => None
  end.

(** [SELECT ... FROM alerts a LEFT JOIN cameras c ON a.camera_id = c.id
     <where> ORDER BY a.created_at DESC LIMIT $n OFFSET $m]; the store
    rejects a [NaN], a negative number and one beyond [BIGINT]. The order
    among alerts of one instant is the store's; here it is the one of
    the merge sort. *)
Definition select_alerts (q : AlertsQuery) (limit offset : option Z) (d : Db)
  : option (list listed_alert) :=
  match where_clause q, limit, offset with
  | Some cond, Some l, Some o =>
      if (0 <=? l) && (l <=? int8_max) && (0 <=? o) && (o <=? int8_max)
      then Some (take (Z.to_nat l)
                   (drop (Z.to_nat o)
                      (map (listed d) (merge_sort newest_first (matching cond d)))))
      else None
  | _, _, _ => None
  end.

(** A query that reads and may be rejected. *)
Definition read {A} (q : Db -> option A) : M A := fun w => (q (db w), w).

(** [const { ..., limit = 50, offset = 0, ... } = req.query] followed by
    [parseInt]: the default applies to an absent parameter only. *)
Definition parsed (x : option string) (dflt : Z) : option Z :=
  match x with
  | Some s => parseInt s
  | None => Some dflt
  end.

(** [GET /api/cv/alerts] *)
Definition getAlerts (q : AlertsQuery) : World -> AlertsResponse * World :=
  fun w =>
    match (let* countResult := read (count_alerts q) in
           let* result :=
             read (select_alerts q (Z.min 100 <$> parsed (q_limit q) 50)
                     (parsed (q_offset q) 0)) in
           match parsed (q_limit q) 50, parsed (q_offset q) 0 with
           | Some limit, Some offset =>
               ret {| ares_status := 200;
                      ares_json := alerts_page result countResult limit offset |}
           | _, _ => throw
           end) w with
    | (Some r, w') => (r, w')
    | (None, w') =>
        ({| ares_status := 500; ares_json := alerts_error "Internal server error" |}, w')
    end.

End Listing.

(** Two requests with the same filters. *)
Definition same_filters (q1 q2 : AlertsQuery) : Prop :=
  q_location_id q1 = q_location_id q2 /\ q_status q1 = q_status q2 /\
  q_type q1 = q_type q2 /\ q_from q1 = q_from q2 /\ q_to q1 = q_to q2.


(** The readers of the examples: [parseInt] on a string of decimal
    digits gives its number; a uuid is a text of 36 characters. *)
Definition uuid_text (s : string) : option Uuid :=
  if Nat.eqb (String.length s) 36 then Some s else None.

Definition parseInt_digits (s : string) : option Z :=
  match Js.number (String.length s) 0 s with
  | Some (n, _) => if String.eqb s "" then None else Some n
  | None => None
  end.

(** ** Rooms ([backend/src/index.js]) and the dashboard
       ([frontend/src/pages/Dashboard.jsx]) *)

(** The two messages a connected client may send. *)
Inductive client_message :=
  | join_tenant (tenantId : string)       (* [join:tenant] *)
  | join_location (locationId : string).  (* [join:location] *)

(** [socket.join(...)] of the message's handler, on the rooms of the
    socket. *)
Definition on_message (m : client_message) (rooms : list string) : list string :=
  match m with
  | join_tenant tenantId => ("tenant:" ++ tenantId) :: rooms
  | join_location locationId => ("location:" ++ locationId) :: rooms
  end.

(** Whether a connected socket with these rooms gets an emission:
    [io.emit] reaches every socket, [io.to(room).emit] the sockets of the
    room. *)
Definition receives (rooms : list string) (e : emission) : bool :=
  match em_target e with
  | to_all => true
  | to_room room => existsb (String.eqb room) rooms
  end.

(** The state of the page: [stats], [alerts], [detections]. A field that
    a payload does not have is [None]. *)
Record Dashboard := {
  dash_cameras : option Z;
  dash_active : option Z;
  dash_alerts : list payload;
  dash_detections : gmap string payload
}.

Definition dashboard_init : Dashboard :=
  {| dash_cameras := Some 0; dash_active := Some 0;
     dash_alerts := []; dash_detections := ∅ |}.

(** [det.camera_id] as a property key. *)
Definition payload_camera_id (p : payload) : string :=
  match p with
  | detection_payload camera_id _ _ _ _ => camera_id
  | alert_payload _ camera_id _ _ _ _ _ _ _ _ _ => camera_id
  | count_update_payload _ => "undefined"
  end.

(** The listeners of the page, [stats], [alert] and [detection]; none of
    the payloads of the backend has [cameras] or [active]. *)
Definition dashboard_on (e : emission) (s : Dashboard) : Dashboard :=
  if String.eqb (em_event e) "stats" then
    {| dash_cameras := None; dash_active := None;
       dash_alerts := dash_alerts s; dash_detections := dash_detections s |}
  else if String.eqb (em_event e) "alert" then
    {| dash_cameras := dash_cameras s; dash_active := dash_active s;
       dash_alerts := take 50 (em_payload e :: dash_alerts s);
       dash_detections := dash_detections s |}
  else if String.eqb (em_event e) "detection" then
    {| dash_cameras := Some 1; dash_active := Some 1;
       dash_alerts := dash_alerts s;
       dash_detections :=
         <[payload_camera_id (em_payload e) := em_payload e]> (dash_detections s) |}
  else s.

(** The rooms of the page: it sends [join:location] with the id that is
    the fallback location of the backend. *)
Definition dashboard_rooms : list string :=
  on_message (join_location "2139ff48-35b8-423f-b4cb-64ca303ef625") [].

(** The page after the emissions [sent] (newest first, as the server
    keeps them), for a socket with the rooms [rooms]. *)
Definition dashboard_after (rooms : list string) (sent : list emission) : Dashboard :=
  fold_right (fun e s => if receives rooms e then dashboard_on e s else s)
             dashboard_init sent.

(** ** A sequence of requests *)

Inductive request :=
  | req_detection (body : DetectionBody)
  | req_alert (body : AlertBody)
  | req_update (id : N) (body : UpdateBody)
  | req_heartbeat.

(** The state after the requests, each handled at its own instant. *)
Fixpoint serve (Date_parse timestamptz_in : string -> option Z)
    (rs : list (Z * request)) (w : World) : World :=
  match rs with
  | [] => w
  | (now, r) :: rs' =>
      serve Date_parse timestamptz_in rs'
        (snd (match r with
              | req_detection body => postDetection Date_parse timestamptz_in now body w
              | req_alert body => postAlert Date_parse now body w
              | req_update id body => updateAlert now id body w
              | req_heartbeat => postHeartbeat w
              end))
  end.

(** The three event names of the backend. *)
Definition event_of_backend (e : emission) : Prop :=
  In (em_event e) ["detection"; "alert:new"; "alert:count_update"].

(** ** The migration runner ([backend/migrations/run.js]) *)

(** [s.endsWith(suffix)] *)
Definition endsWith (suffix s : string) : bool :=
  Nat.leb (String.length suffix) (String.length s)
  && String.eqb (String.substring (String.length s - String.length suffix)
                   (String.length suffix) s) suffix.

(** The order of [Array.prototype.sort] on file names. *)
Definition file_le (x y : string * string) : Prop := String.leb (fst x) (fst y) = true.

#[global] Instance file_le_dec x y : Decision (file_le x y).
Proof. unfold file_le. apply _. Defined.

Section Migrations.

(** The tables of the store, and [client.query(sql)] on the text of a
    file: [None] when a statement of it fails. *)
Variable Store : Type.
Variable run_sql : string -> Store -> option Store.

(** The store and the names in [_migrations]. *)
Record Migrated := {
  m_store : Store;
  m_applied : list string
}.

Inductive migration_outcome :=
  | all_applied (s : Migrated)                    (* "All migrations applied." *)
  | exited_1 (file : string) (s : Migrated).      (* [process.exit(1)] *)

(** The loop over the files: a recorded file is skipped; the others run
    inside [BEGIN] ... [COMMIT] together with their record, and a failure
    rolls the transaction back and ends the process. *)
Fixpoint apply_files (files : list (string * string)) (s : Migrated)
  : migration_outcome :=
  match files with
  | [] => all_applied s
  | (file, sql) :: rest =>
      if existsb (String.eqb file) (m_applied s) then apply_files rest s
      else match run_sql sql (m_store s) with
           | Some store' =>
               apply_files rest {| m_store := store'; m_applied := file :: m_applied s |}
           | None => exited_1 file s
           end
  end.

(** [dir] is the directory: its file names with their texts. *)
Definition runMigrations (dir : list (string * string)) (s : Migrated)
  : migration_outcome :=
  apply_files
    (merge_sort file_le (List.filter (fun f => endsWith ".sql" (fst f)) dir)) s.

End Migrations.

Arguments m_store {Store} _.
Arguments m_applied {Store} _.
Arguments all_applied {Store} _.
Arguments exited_1 {Store} _ _.
Arguments apply_files {Store} _ _ _.
Arguments runMigrations {Store} _ _ _.

(** ** Further requests and a directory of migrations, for the examples *)

Definition detection_without_camera : DetectionBody :=
  {| d_camera_id := Some "";
     d_location_id := Some "loc-01";
     d_timestamp := Some t_before_midnight;
     d_frame_number := Some 3;
     d_detections := Some [];
     d_snapshot_b64 := None;
     d_fps := None |}.

Definition alert_without_timestamp : AlertBody :=
  {| a_camera_id := Some "cam-01";
     a_location_id := Some "loc-01";
     a_timestamp := None;
     a_track_id := Some 7;
     a_class_name := Some "bottle";
     a_confidence := Some c_0_8;
     a_bbox := None;
     a_snapshot_b64 := None;
     a_description := None |}.

Definition dismiss : UpdateBody :=
  {| u_status := Some "dismissed"; u_reviewed_by := None |}.

Definition review_by_stranger : UpdateBody :=
  {| u_status := Some "reviewed";
     u_reviewed_by := Some "e91b6c3a-58d2-4c07-b1f4-7a2d0c9e8b36" |}.

Definition no_filter (limit offset : option string) : AlertsQuery :=
  {| q_location_id := None; q_status := None; q_type := None;
     q_limit := limit; q_offset := offset; q_from := None; q_to := None |}.

Definition example_keys : list string := ["cv-engine-key"; " edge-key "].

(** A directory with the runner itself and two migrations, and a store
    that keeps the texts it has run and refuses a text a second time, as
    a [CREATE INDEX] without [IF NOT EXISTS] is. *)
Definition example_dir : list (string * string) :=
  [ ("run.js", "const fs = require(fs)");
    ("002_cameras.sql", "CREATE INDEX idx_cameras ON cameras(camera_id)");
    ("001_initial_schema.sql", "CREATE INDEX idx_alerts_status ON alerts(status)") ].

Definition run_once (sql : string) (store : list string) : option (list string) :=
  if existsb (String.eqb sql) store then None else Some (sql :: store).

Definition migrated_none : Migrated (list string) :=
  {| m_store := []; m_applied := [] |}.

Definition migrated_all : Migrated (list string) :=
  {| m_store := [ "CREATE INDEX idx_cameras ON cameras(camera_id)";
                  "CREATE INDEX idx_alerts_status ON alerts(status)" ];
     m_applied := [ "002_cameras.sql"; "001_initial_schema.sql" ] |}.

(** The schema is there, its record is not. *)
Definition migrated_unrecorded : Migrated (list string) :=
  {| m_store := [ "CREATE INDEX idx_alerts_status ON alerts(status)" ];
     m_applied := [] |}.

(** * Properties *)

(** ** The helpers on examples *)

Example ex_date_epoch : Js.toISOString_date (Some 0) = Some "1970-01-01".
Proof. reflexivity. Qed.
Example ex_date_2023 : Js.toISOString_date (Some 1700000000000) = Some "2023-11-14".
Proof. reflexivity. Qed.
Example ex_date_neg : Js.toISOString_date (Some (-1)) = Some "1969-12-31".
Proof. reflexivity. Qed.
Example ex_parse : Js.parse_iso "2023-11-14T22:13:20.000Z" = Some 1700000000000.
Proof. vm_compute. reflexivity. Qed.
Example ex_parse_leap : Js.parse_iso "2024-02-29T00:00:00.000Z" = Some 1709164800000.
Proof. vm_compute. reflexivity. Qed.
Example ex_parse_bad : Js.parse_iso "2023-02-29T00:00:00.000Z" = None.
Proof. vm_compute. reflexivity. Qed.
Example ex_split : Js.split "," "a, b,,c " = ["a"; " b"; ""; "c "].
Proof. reflexivity. Qed.
Example ex_keys : Js.filterBoolean (map Js.trim (Js.split "," "a, b,,c ")) = ["a"; "b"; "c"].
Proof. reflexivity. Qed.

(** ** Emissions never touch the store *)

Lemma emit_db t e p w r w' : emit t e p w = (r, w') -> db w' = db w.
Proof.
  unfold emit. destruct (io w) as [i|]; [|by intros [= _ <-]].
  destruct (io_throws i _); by intros [= _ <-].
Qed.

Lemma emit_detection_ok camera_id locUuid timestamp detections fps w :
  exists w', emit_detection camera_id locUuid timestamp detections fps w = (Some tt, w')
             /\ db w' = db w.
Proof.
  unfold emit_detection, try_catch, bind, ret.
  destruct (io w) as [i|]; [|eauto].
  destruct (emit _ _ _ w) as [[[]|] w1] eqn:E1.
  - apply emit_db in E1.
    destruct (emit _ _ _ w1) as [[[]|] w2] eqn:E2; apply emit_db in E2;
      eexists; split; eauto; congruence.
  - apply emit_db in E1. eauto.
Qed.

Lemma emit_alert_db body alert camera_id locUuid tenantId w o w' :
  emit_alert body alert camera_id locUuid tenantId w = (o, w') -> db w' = db w.
Proof.
  unfold emit_alert, bind, ret.
  destruct (io w) as [i|]; [|by intros [= _ <-]].
  destruct (Js.nonempty tenantId) as [t|].
  - destruct (emit _ _ _ w) as [[[]|] w1] eqn:E1; apply emit_db in E1;
      [|intros [= _ <-]; done].
    destruct (emit _ _ _ w1) as [[[]|] w2] eqn:E2; apply emit_db in E2;
      [|intros [= _ <-]; congruence].
    intros E3. apply emit_db in E3. congruence.
  - destruct (emit _ _ _ w) as [[[]|] w1] eqn:E1; apply emit_db in E1;
      [|intros [= _ <-]; done].
    intros E3. apply emit_db in E3. congruence.
Qed.


(** ** The handlers as equations

    Once the required fields are there, a handler is a cascade over the
    results of its statements. *)

Lemma postDetection_eq Date_parse timestamptz_in now body w camera_id l timestamp detections :
  Js.nonempty (d_camera_id body) = Some camera_id ->
  Js.nonempty (d_location_id body) = Some l ->
  Js.nonempty (d_timestamp body) = Some timestamp ->
  d_detections body = Some detections ->
  postDetection Date_parse timestamptz_in now body w =
    match insert_cv_detection timestamptz_in now
            (fst (resolved camera_id (db w))) (snd (resolved camera_id (db w)))
            (default 0 (d_frame_number body)) detections
            (Z.of_nat (length detections))
            (Js.nonempty (d_snapshot_b64 body)) timestamp (db w) with
    | None => (internal_error, w)
    | Some (id, d1) =>
        match Js.toISOString_date (Date_parse timestamp) with
        | None => (internal_error, set_db d1 w)
        | Some dateStr =>
            match upsert_daily_stats now f_detection_count
                    (snd (resolved camera_id (db w))) dateStr
                    (Z.of_nat (length detections)) d1 with
            | None => (internal_error, set_db d1 w)
            | Some d2 =>
                (respond 201 (id_body id),
                 snd (emit_detection camera_id (snd (resolved camera_id (db w)))
                        timestamp detections (d_fps body) (set_db d2 w)))
            end
        end
    end.
Proof.
  intros H1 H2 H3 H4. unfold postDetection. rewrite H1, H2, H3, H4.
  unfold handler, bind, select, query, exec, eval, ret, resolved.
  destruct (select_camera camera_id (db w)) as [|row rows]; simpl.
  all: destruct (insert_cv_detection _ _ _ _ _ _ _ _ _ _) as [[id d1]|]; simpl; [|done].
  all: destruct (Js.toISOString_date _) as [dateStr|]; simpl; [|done].
  all: destruct (upsert_daily_stats _ _ _ _ _ _) as [d2|]; simpl; [|done].
  all: change (set_db d2 (set_db d1 w)) with (set_db d2 w).
  all: match goal with |- context [emit_detection ?a ?b ?c ?d ?e ?w] =>
         destruct (emit_detection_ok a b c d e w) as (w' & -> & _) end; done.
Qed.

Lemma postAlert_eq Date_parse now body w camera_id l timestamp :
  Js.nonempty (a_camera_id body) = Some camera_id ->
  Js.nonempty (a_location_id body) = Some l ->
  Js.nonempty (a_timestamp body) = Some timestamp ->
  postAlert Date_parse now body w =
    let camUuid := fst (fst (resolved_tenant camera_id (db w))) in
    let locUuid := snd (fst (resolved_tenant camera_id (db w))) in
    let tenantId := snd (resolved_tenant camera_id (db w)) in
    match insert_alert now camUuid locUuid
            (severity (a_confidence body))
            (Js.nonzero (a_track_id body)) (Js.nonempty (a_class_name body))
            (Js.nonzerof (a_confidence body)) (a_bbox body)
            (Js.nonempty (a_snapshot_b64 body))
            (Js.nonempty (a_description body)) (db w) with
    | None => (internal_error, w)
    | Some (alert, d1) =>
        match Js.toISOString_date (Date_parse timestamp) with
        | None => (internal_error, set_db d1 w)
        | Some dateStr =>
            match upsert_daily_stats now f_total_alerts locUuid dateStr 1 d1 with
            | None => (internal_error, set_db d1 w)
            | Some d2 =>
                match emit_alert body alert camera_id locUuid tenantId (set_db d2 w) with
                | (Some _, w') => (respond 201 (id_body (fst alert)), w')
                | (None, w') => (internal_error, w')
                end
            end
        end
    end.
Proof.
  intros H1 H2 H3. unfold postAlert. rewrite H1, H2, H3.
  unfold handler, bind, select, query, exec, eval, ret, resolved_tenant.
  destruct (select_camera_tenant camera_id (db w)) as [|row rows]; simpl.
  all: destruct (insert_alert _ _ _ _ _ _ _ _ _ _ _) as [[alert d1]|]; simpl; [|done].
  all: destruct (Js.toISOString_date _) as [dateStr|]; simpl; [|done].
  all: destruct (upsert_daily_stats _ _ _ _ _ _) as [d2|]; simpl; [|done].
  all: change (set_db d2 (set_db d1 w)) with (set_db d2 w).
  all: destruct (emit_alert _ _ _ _ _ _) as [[[]|] w']; done.
Qed.

(** ** The store after an upsert *)

Lemma get_set_field f v r : get_field f (set_field f v r) = v.
Proof. by destruct f. Qed.

Lemma get_set_field_ne f g v r : f <> g -> get_field g (set_field f v r) = get_field g r.
Proof. by destruct f, g. Qed.

Lemma get_field_updated_at f now r : get_field f (set_updated_at now r) = get_field f r.
Proof. by destruct f. Qed.

Lemma upsert_daily_stats_eq now f loc date delta d d' :
  upsert_daily_stats now f loc date delta d = Some d' ->
  d' = set_daily_stats
         (<[(loc, date) :=
              match daily_stats d !! (loc, date) with
              | Some r => set_updated_at now (set_field f (get_field f r + delta) r)
              | None => set_field f delta (default_daily_stat now)
              end]> (daily_stats d)) d.
Proof.
  unfold upsert_daily_stats. destruct (daily_stats d !! (loc, date)) as [r|].
  - destruct (int4 _); by intros [= <-].
  - destruct (_ && _); by intros [= <-].
Qed.

Lemma upsert_counter now f loc date delta d d' :
  upsert_daily_stats now f loc date delta d = Some d' ->
  counter f d' (loc, date) = counter f d (loc, date) + delta.
Proof.
  intros ->%upsert_daily_stats_eq. unfold counter. simpl.
  rewrite lookup_insert_eq. simpl.
  destruct (daily_stats d !! (loc, date)) as [r|]; simpl.
  - by rewrite get_field_updated_at, get_set_field.
  - by rewrite get_set_field.
Qed.

Lemma upsert_other_rows now f loc date delta d d' k :
  upsert_daily_stats now f loc date delta d = Some d' ->
  k <> (loc, date) -> daily_stats d' !! k = daily_stats d !! k.
Proof.
  intros ->%upsert_daily_stats_eq Hk. simpl. by rewrite lookup_insert_ne.
Qed.

(** ** What a created record went through *)

(** The run [H] ended in an answer other than the one assumed. *)
Ltac not_created H := injection H as <- _; discriminate.

Lemma nullable_Some {A B} (read : A -> option B) (x : option A) (y : option B) :
  nullable read x = Some y -> y = x ≫= read.
Proof.
  destruct x as [a|]; simpl; [|by intros [= <-]].
  destruct (read a); simpl; [by intros [= <-]|done].
Qed.

Lemma postDetection_created Date_parse timestamptz_in now body w r w' :
  postDetection Date_parse timestamptz_in now body w = (r, w') ->
  res_status r = 201 ->
  exists camera_id l timestamp detections ts dateStr,
    Js.nonempty (d_camera_id body) = Some camera_id /\
    Js.nonempty (d_location_id body) = Some l /\
    Js.nonempty (d_timestamp body) = Some timestamp /\
    d_detections body = Some detections /\
    timestamptz_in timestamp = Some ts /\
    Js.toISOString_date (Date_parse timestamp) = Some dateStr /\
    upsert_daily_stats now f_detection_count
      (snd (resolved camera_id (db w))) dateStr (Z.of_nat (length detections))
      (add_cv_detection
         {| det_camera_id := fst (resolved camera_id (db w));
            det_location_id := snd (resolved camera_id (db w));
            det_frame_number := default 0 (d_frame_number body);
            det_detections := detections;
            det_detection_count := Z.of_nat (length detections);
            det_snapshot_b64 := Js.nonempty (d_snapshot_b64 body);
            det_timestamp := ts;
            det_created_at := now |} (db w)) = Some (db w') /\
    r = respond 201 (id_body (next_id (db w))).
Proof.
  intros Hrun Hok.
  destruct (Js.nonempty (d_camera_id body)) as [camera_id|] eqn:H1;
    [|unfold postDetection in Hrun; rewrite H1 in Hrun;
      not_created Hrun].
  destruct (Js.nonempty (d_location_id body)) as [l|] eqn:H2;
    [|unfold postDetection in Hrun; rewrite H1, H2 in Hrun;
      not_created Hrun].
  destruct (Js.nonempty (d_timestamp body)) as [timestamp|] eqn:H3;
    [|unfold postDetection in Hrun; rewrite H1, H2, H3 in Hrun;
      not_created Hrun].
  destruct (d_detections body) as [detections|] eqn:H4;
    [|unfold postDetection in Hrun; rewrite H1, H2, H3, H4 in Hrun;
      not_created Hrun].
  rewrite (postDetection_eq _ _ _ _ _ _ _ _ _ H1 H2 H3 H4) in Hrun.
  unfold insert_cv_detection in Hrun.
  destruct (timestamptz_in timestamp) as [ts|] eqn:Hts; [|not_created Hrun].
  destruct (location_exists _ _); [|not_created Hrun].
  destruct (int4 _ && int4 _); [|not_created Hrun].
  destruct (Js.toISOString_date _) as [dateStr|] eqn:Hdate; [|not_created Hrun].
  destruct (upsert_daily_stats _ _ _ _ _ _) as [d2|] eqn:Hup;
    [|not_created Hrun].
  injection Hrun as <- <-.
  destruct (emit_detection_ok camera_id (snd (resolved camera_id (db w))) timestamp
              detections (d_fps body) (set_db d2 w)) as (w2 & -> & Hdb).
  exists camera_id, l, timestamp, detections, ts, dateStr. simpl. rewrite Hdb. simpl.
  by repeat split.
Qed.

Lemma postAlert_created Date_parse now body w r w' :
  postAlert Date_parse now body w = (r, w') ->
  res_status r = 201 ->
  exists camera_id l timestamp dateStr,
    Js.nonempty (a_camera_id body) = Some camera_id /\
    Js.nonempty (a_location_id body) = Some l /\
    Js.nonempty (a_timestamp body) = Some timestamp /\
    Js.toISOString_date (Date_parse timestamp) = Some dateStr /\
    upsert_daily_stats now f_total_alerts
      (snd (fst (resolved_tenant camera_id (db w)))) dateStr 1
      (add_alert
         {| al_camera_id := fst (fst (resolved_tenant camera_id (db w)));
            al_location_id := snd (fst (resolved_tenant camera_id (db w)));
            al_type := "non_scan";
            al_severity := severity (a_confidence body);
            al_track_id := Js.nonzero (a_track_id body) ≫= int4_in;
            al_class_name := Js.nonempty (a_class_name body) ≫= varchar_in 100;
            al_confidence := Js.nonzerof (a_confidence body) ≫= real_in;
            al_bbox := a_bbox body;
            al_snapshot_b64 := Js.nonempty (a_snapshot_b64 body);
            al_description := Js.nonempty (a_description body);
            al_status := "open";
            al_reviewed_by := None;
            al_reviewed_at := None;
            al_created_at := now |} (db w)) = Some (db w') /\
    r = respond 201 (id_body (next_id (db w))).
Proof.
  intros Hrun Hok.
  destruct (Js.nonempty (a_camera_id body)) as [camera_id|] eqn:H1;
    [|unfold postAlert in Hrun; rewrite H1 in Hrun;
      not_created Hrun].
  destruct (Js.nonempty (a_location_id body)) as [l|] eqn:H2;
    [|unfold postAlert in Hrun; rewrite H1, H2 in Hrun;
      not_created Hrun].
  destruct (Js.nonempty (a_timestamp body)) as [timestamp|] eqn:H3;
    [|unfold postAlert in Hrun; rewrite H1, H2, H3 in Hrun;
      not_created Hrun].
  rewrite (postAlert_eq _ _ _ _ _ _ _ H1 H2 H3) in Hrun.
  cbv zeta in Hrun.
  unfold insert_alert in Hrun.
  destruct (location_exists _ _); [|not_created Hrun].
  destruct (nullable int4_in _) as [tr|] eqn:Htr; [|not_created Hrun].
  destruct (nullable (varchar_in 100) _) as [cl|] eqn:Hcl; [|not_created Hrun].
  destruct (nullable real_in _) as [co|] eqn:Hco; [|not_created Hrun].
  apply nullable_Some in Htr, Hcl, Hco. subst tr cl co.
  destruct (Js.toISOString_date _) as [dateStr|] eqn:Hdate; [|not_created Hrun].
  destruct (upsert_daily_stats _ _ _ _ _ _) as [d2|] eqn:Hup;
    [|not_created Hrun].
  destruct (emit_alert _ _ _ _ _ _) as [[[]|] w2] eqn:Hemit;
    [|not_created Hrun].
  injection Hrun as <- <-. apply emit_alert_db in Hemit.
  exists camera_id, l, timestamp, dateStr. simpl. rewrite Hemit. simpl.
  by repeat split.
Qed.

Lemma alert_kept_by_upsert now f loc date delta a d d' :
  upsert_daily_stats now f loc date delta (add_alert a d) = Some d' ->
  alerts d' !! next_id d = Some a.
Proof.
  intros ->%upsert_daily_stats_eq. simpl. apply lookup_insert_eq.
Qed.

Lemma detection_kept_by_upsert now f loc date delta r d d' :
  upsert_daily_stats now f loc date delta (add_cv_detection r d) = Some d' ->
  cv_detections d' !! next_id d = Some r.
Proof.
  intros ->%upsert_daily_stats_eq. simpl. apply lookup_insert_eq.
Qed.

(** ** Order of binary64 values *)

Lemma SFcompare_antisym x y :
  SFcompare y x = option_map CompOpp (SFcompare x y).
Proof.
  destruct x as [sx|sx| |sx mx ex], y as [sy|sy| |sy my ey]; simpl;
    try reflexivity; try (destruct sx; reflexivity); try (destruct sy; reflexivity);
    try (destruct sx, sy; reflexivity).
  destruct sx, sy; simpl; try reflexivity; f_equal;
    rewrite (Z.compare_antisym ex ey);
    destruct (ex ?= ey)%Z; simpl; try reflexivity;
    change (PosDef.Pos.compare_cont Eq my mx) with (Pos.compare_cont (CompOpp Eq) my mx);
    rewrite <- (Pos.compare_cont_antisym mx my Eq);
    destruct (Pos.compare_cont Eq mx my); reflexivity.
Qed.

Lemma ltb_not_leb (c t : float) :
  PrimFloat.ltb c t = true -> PrimFloat.leb t c = false.
Proof.
  rewrite ltb_spec, leb_spec. unfold SFltb, SFleb.
  rewrite (SFcompare_antisym (Prim2SF c) (Prim2SF t)).
  destruct (SFcompare (Prim2SF c) (Prim2SF t)) as [[]|]; simpl; congruence.
Qed.

(** Two numbers (neither is NaN) are comparable. *)
Lemma leb_or_ltb (c t : float) :
  PrimFloat.leb t t = true -> PrimFloat.leb c c = true ->
  PrimFloat.leb t c = true \/ PrimFloat.ltb c t = true.
Proof.
  rewrite ltb_spec, !leb_spec. unfold SFltb, SFleb.
  rewrite (SFcompare_antisym (Prim2SF c) (Prim2SF t)).
  destruct (Prim2SF c) as [sx|sx| |sx mx ex], (Prim2SF t) as [sy|sy| |sy my ey]; simpl;
    try discriminate; try (destruct sx; simpl; auto; fail);
    try (destruct sy; simpl; auto; fail);
    try (destruct sx, sy; simpl; auto; fail).
  intros _ _.
  destruct sx, sy; simpl; auto; destruct (ex ?= ey)%Z; simpl; auto;
    destruct (Pos.compare_cont Eq mx my); simpl; auto.
Qed.

Lemma leb_right_number (a c : float) :
  PrimFloat.leb a c = true -> PrimFloat.leb c c = true.
Proof.
  rewrite !leb_spec. unfold SFleb.
  destruct (Prim2SF c) as [sx|sx| |sx mx ex], (Prim2SF a) as [sy|sy| |sy my ey]; simpl;
    try discriminate; auto; try (destruct sx; reflexivity).
  all: intros _; destruct sx; simpl; rewrite Z.compare_refl;
    change (PosDef.Pos.compare_cont Eq mx mx) with (Pos.compare mx mx);
    rewrite Pos.compare_refl; reflexivity.
Qed.

Lemma severity_high c : PrimFloat.leb c_0_8 c = true -> severity (Some c) = "high".
Proof. unfold severity. simpl. by intros ->. Qed.

Lemma severity_medium c :
  PrimFloat.leb c_0_5 c = true -> PrimFloat.ltb c c_0_8 = true ->
  severity (Some c) = "medium".
Proof.
  unfold severity. simpl. intros -> Hlt. by rewrite (ltb_not_leb _ _ Hlt).
Qed.

Lemma severity_low c :
  PrimFloat.leb c_0_8 c = false ->
  PrimFloat.leb c_0_5 c && PrimFloat.ltb c c_0_8 = false ->
  severity (Some c) = "low".
Proof.
  unfold severity. simpl. intros H8 Hmid. rewrite H8.
  destruct (PrimFloat.leb c_0_5 c) eqn:H5; [|done]. exfalso.
  destruct (leb_or_ltb c c_0_8) as [H|H].
  - reflexivity.
  - by apply leb_right_number with c_0_5.
  - congruence.
  - rewrite H in Hmid. discriminate.
Qed.

(** ** Stored severity *)

(** C4. An alert that was created carries the severity of its confidence:
    [high] from 0.8 on, [medium] from 0.5 up to 0.8, [low] otherwise; the
    values 0.8 and 0.5 themselves give [high] and [medium]. *)
Theorem postAlert_severity_by_thresholds Date_parse now body w r w' c :
  a_confidence body = Some c ->
  postAlert Date_parse now body w = (r, w') ->
  res_status r = 201 ->
  exists id a,
    res_json r = id_body id /\
    alerts (db w') !! id = Some a /\
    (PrimFloat.leb c_0_8 c = true -> al_severity a = "high") /\
    (PrimFloat.leb c_0_5 c = true -> PrimFloat.ltb c c_0_8 = true ->
       al_severity a = "medium") /\
    (PrimFloat.leb c_0_8 c = false ->
     PrimFloat.leb c_0_5 c && PrimFloat.ltb c c_0_8 = false ->
       al_severity a = "low") /\
    (c = c_0_8 -> al_severity a = "high") /\
    (c = c_0_5 -> al_severity a = "medium").
Proof.
  intros Hc Hrun Hok.
  destruct (postAlert_created _ _ _ _ _ _ Hrun Hok)
    as (camera_id & l & timestamp & dateStr & _ & _ & _ & _ & Hup & ->).
  apply alert_kept_by_upsert in Hup.
  eexists _, _. split; [reflexivity|]. split; [exact Hup|]. simpl. rewrite Hc.
  split; [apply severity_high|]. split; [apply severity_medium|].
  split; [apply severity_low|]. split; intros ->; reflexivity.
Qed.

(** C10. An alert created from a payload without [confidence] is stored
    with severity [low] and a null confidence. *)
Theorem postAlert_absent_confidence Date_parse now body w r w' :
  a_confidence body = None ->
  postAlert Date_parse now body w = (r, w') ->
  res_status r = 201 ->
  exists id a,
    res_json r = id_body id /\
    alerts (db w') !! id = Some a /\
    al_severity a = "low" /\
    al_confidence a = None.
Proof.
  intros Hc Hrun Hok.
  destruct (postAlert_created _ _ _ _ _ _ Hrun Hok)
    as (camera_id & l & timestamp & dateStr & _ & _ & _ & _ & Hup & ->).
  apply alert_kept_by_upsert in Hup.
  eexists _, _. split; [reflexivity|]. split; [exact Hup|]. simpl. by rewrite Hc.
Qed.

(** ** The location hint *)

(** C9. Two detection payloads, or two alert payloads, that differ only
    in a non-empty [location_id] get the same response and leave the same
    store and the same emissions. *)
Theorem location_hint_is_not_used Date_parse timestamptz_in now w :
  (forall (b1 b2 : DetectionBody) (l1 l2 : string),
     d_location_id b1 = Some l1 -> l1 <> "" ->
     d_location_id b2 = Some l2 -> l2 <> "" ->
     d_camera_id b1 = d_camera_id b2 ->
     d_timestamp b1 = d_timestamp b2 ->
     d_frame_number b1 = d_frame_number b2 ->
     d_detections b1 = d_detections b2 ->
     d_snapshot_b64 b1 = d_snapshot_b64 b2 ->
     d_fps b1 = d_fps b2 ->
     postDetection Date_parse timestamptz_in now b1 w
     = postDetection Date_parse timestamptz_in now b2 w) /\
  (forall (b1 b2 : AlertBody) (l1 l2 : string),
     a_location_id b1 = Some l1 -> l1 <> "" ->
     a_location_id b2 = Some l2 -> l2 <> "" ->
     a_camera_id b1 = a_camera_id b2 ->
     a_timestamp b1 = a_timestamp b2 ->
     a_track_id b1 = a_track_id b2 ->
     a_class_name b1 = a_class_name b2 ->
     a_confidence b1 = a_confidence b2 ->
     a_bbox b1 = a_bbox b2 ->
     a_snapshot_b64 b1 = a_snapshot_b64 b2 ->
     a_description b1 = a_description b2 ->
     postAlert Date_parse now b1 w = postAlert Date_parse now b2 w).
Proof.
  split.
  - intros [c1 o1 t1 f1 d1 s1 p1] [c2 o2 t2 f2 d2 s2 p2] l1 l2; simpl.
    intros -> Hl1 -> Hl2 -> -> -> -> -> ->.
    unfold postDetection; simpl.
    apply String.eqb_neq in Hl1, Hl2. rewrite Hl1, Hl2. reflexivity.
  - intros [c1 o1 t1 k1 n1 f1 x1 s1 e1] [c2 o2 t2 k2 n2 f2 x2 s2 e2] l1 l2; simpl.
    intros -> Hl1 -> Hl2 -> -> -> -> -> -> -> ->.
    unfold postAlert, emit_alert; simpl.
    apply String.eqb_neq in Hl1, Hl2. rewrite Hl1, Hl2. reflexivity.
Qed.

(** ** The detection counter *)

(** C1 (amended). A detection that was created adds the number of its
    objects to [detection_count] of the resolved location on the UTC date
    of the payload's [timestamp]; a missing row is created with every
    other counter at zero, an existing row keeps its other counters, and
    no other row changes. *)
Theorem postDetection_counts_on_timestamp_date
    Date_parse timestamptz_in now body w r w' :
  postDetection Date_parse timestamptz_in now body w = (r, w') ->
  res_status r = 201 ->
  exists camera_id timestamp detections dateStr,
    Js.nonempty (d_camera_id body) = Some camera_id /\
    Js.nonempty (d_timestamp body) = Some timestamp /\
    d_detections body = Some detections /\
    Js.toISOString_date (Date_parse timestamp) = Some dateStr /\
    let key := (snd (resolved camera_id (db w)), dateStr) in
    let n := Z.of_nat (length detections) in
    counter f_detection_count (db w') key
      = counter f_detection_count (db w) key + n /\
    (daily_stats (db w) !! key = None ->
       daily_stats (db w') !! key
       = Some (set_field f_detection_count n (default_daily_stat now))) /\
    (forall row, daily_stats (db w) !! key = Some row ->
       daily_stats (db w') !! key
       = Some (set_updated_at now
                 (set_field f_detection_count (detection_count row + n) row))) /\
    (forall k, k <> key -> daily_stats (db w') !! k = daily_stats (db w) !! k).
Proof.
  intros Hrun Hok.
  destruct (postDetection_created _ _ _ _ _ _ _ Hrun Hok)
    as (camera_id & l & timestamp & detections & ts & dateStr
        & H1 & _ & H3 & H4 & _ & Hdate & Hup & _).
  exists camera_id, timestamp, detections, dateStr.
  repeat (split; [assumption|]). cbv zeta.
  split; [exact (upsert_counter _ _ _ _ _ _ _ Hup)|].
  pose proof (upsert_daily_stats_eq _ _ _ _ _ _ _ Hup) as Heq.
  rewrite Heq. simpl. rewrite !lookup_insert_eq.
  split; [by intros ->|]. split; [by intros row ->|].
  intros k Hk. by rewrite lookup_insert_ne.
Qed.

(** ** Unknown cameras *)

Lemma insert_cv_detection_Some timestamptz_in now camUuid locUuid frame_number
    detections detection_count snapshot_b64 timestamp d id d1 :
  insert_cv_detection timestamptz_in now camUuid locUuid frame_number detections
    detection_count snapshot_b64 timestamp d = Some (id, d1) ->
  id = next_id d /\ location_exists locUuid d = true /\
  exists row, d1 = add_cv_detection row d.
Proof.
  unfold insert_cv_detection.
  destruct (timestamptz_in timestamp); [|done].
  destruct (location_exists _ _); [|done].
  destruct (_ && _); [|done].
  intros [= <- <-]. eauto.
Qed.

Lemma insert_alert_Some now camUuid locUuid severity track_id class_name confidence
    bbox snapshot_b64 description d alert d1 :
  insert_alert now camUuid locUuid severity track_id class_name confidence bbox
    snapshot_b64 description d = Some (alert, d1) ->
  alert = (next_id d, now) /\ location_exists locUuid d = true /\
  exists row, d1 = add_alert row d.
Proof.
  unfold insert_alert.
  destruct (location_exists _ _); [|done].
  destruct (nullable int4_in _); [|done].
  destruct (nullable (varchar_in 100) _); [|done].
  destruct (nullable real_in _); [|done].
  intros [= <- <-]. eauto.
Qed.






(** ** The alert lifecycle *)

Lemma update_daily_stats_eq now f loc date row d d' :
  daily_stats d !! (loc, date) = Some row ->
  update_daily_stats now f loc date d = Some d' ->
  d' = set_daily_stats
         (<[(loc, date) := set_updated_at now (set_field f (get_field f row + 1) row)]>
            (daily_stats d)) d.
Proof.
  unfold update_daily_stats. intros ->. destruct (int4 _); by intros [= <-].
Qed.

(** [updateAlert] with status [resolved] or [reviewed] on an alert that
    exists: the alert is rewritten, then the counter of its location and
    creation date is updated. *)
Lemma updateAlert_eq now id w s reviewer a date :
  s = "resolved" \/ s = "reviewed" ->
  alerts (db w) !! id = Some a ->
  Js.toISOString_date (Some (al_created_at a)) = Some date ->
  updateAlert now id {| u_status := Some s; u_reviewed_by := reviewer |} w
  = let a' :=
      set_review s
        (match Js.nonempty reviewer with
         | Some u => Some u
         | None => al_reviewed_by a
         end)
        (Some now) a in
    let d1 := set_alerts (<[id := a']> (alerts (db w))) (db w) in
    if match Js.nonempty reviewer with
       | Some u => user_exists u (db w)
       | None => true
       end
    then
      match update_daily_stats now
              (if bool_decide (s = "resolved")
               then f_alerts_confirmed else f_alerts_reviewed)
              (al_location_id a) date d1 with
      | Some d2 => (respond 200 (row_body (id, s, Some now)), set_db d2 w)
      | None => (internal_error, set_db d1 w)
      end
    else (internal_error, w).
Proof.
  intros Hs Ha Hdate. cbv zeta.
  assert (updateAlert now id {| u_status := Some s; u_reviewed_by := reviewer |} w
          = handler (bind (query (update_alert_row now (Some s)
                                    (Js.nonempty reviewer) id))
                       (fun result =>
                          match result with
                          | [] => ret (respond 404 (error_body "Alert not found"))
                          | row :: _ =>
                              bind (update_stats_for now id (Some s))
                                (fun _ => ret (respond 200 (row_body row)))
                          end)) w) as ->.
  { by destruct Hs as [-> | ->]. }
  unfold handler, bind, query, update_alert_row. rewrite Ha.
  assert (Js.includes ["reviewed"; "dismissed"; "resolved"] s = true) as ->
    by (by destruct Hs as [-> | ->]).
  destruct (match Js.nonempty reviewer with
            | Some u => user_exists u (db w) | None => true end); [|done].
  cbn [fst snd default al_status al_reviewed_at set_review].
  set (a' := set_review _ _ _ a).
  set (w1 := set_db _ w).
  assert (update_stats_for now id (Some s) w1
          = exec (update_daily_stats now
                    (if bool_decide (s = "resolved")
                     then f_alerts_confirmed else f_alerts_reviewed)
                    (al_location_id a) date) w1) as ->.
  { unfold update_stats_for, bind, select, select_alert_key, eval.
    replace (bool_decide (Some s = Some "reviewed") || bool_decide (Some s = Some "resolved"))
      with true by (by destruct Hs as [-> | ->]).
    replace (bool_decide (Some s = Some "resolved")) with (bool_decide (s = "resolved"))
      by (by destruct Hs as [-> | ->]).
    subst w1. cbn -[Js.toISOString_date]. rewrite lookup_insert_eq.
    cbn -[Js.toISOString_date]. by rewrite Hdate. }
  unfold exec. subst w1. cbn [db set_db].
  by destruct (update_daily_stats _ _ _ _ _).
Qed.

(** Without a row for the alert's location and creation date the
    statement of lines 342-346 matches nothing. *)
Lemma updateAlert_without_row now id w s reviewer a date :
  s = "resolved" \/ s = "reviewed" ->
  alerts (db w) !! id = Some a ->
  Js.toISOString_date (Some (al_created_at a)) = Some date ->
  daily_stats (db w) !! (al_location_id a, date) = None ->
  daily_stats (db (snd (updateAlert now id
                          {| u_status := Some s; u_reviewed_by := reviewer |} w)))
  = daily_stats (db w).
Proof.
  intros Hs Ha Hdate Hrow. rewrite (updateAlert_eq _ _ _ _ _ _ _ Hs Ha Hdate).
  cbv zeta. unfold update_daily_stats. cbn [daily_stats set_alerts]. rewrite Hrow.
  by destruct (match Js.nonempty reviewer with
               | Some u => user_exists u (db w) | None => true end).
Qed.

(** C2 (amended). Every successful [updateAlert] with status [resolved]
    (resp. [reviewed]) adds exactly one to [alerts_confirmed] (resp.
    [alerts_reviewed]) of the row of the alert's location and creation
    date, when that row exists, and changes no other counter and no other
    row. The alert's current status plays no part: a second call with the
    same status counts once more. *)
Theorem updateAlert_counts_every_call now id w s reviewer a date row r w' :
  s = "resolved" \/ s = "reviewed" ->
  alerts (db w) !! id = Some a ->
  Js.toISOString_date (Some (al_created_at a)) = Some date ->
  daily_stats (db w) !! (al_location_id a, date) = Some row ->
  updateAlert now id {| u_status := Some s; u_reviewed_by := reviewer |} w = (r, w') ->
  res_status r = 200 ->
  let key := (al_location_id a, date) in
  let f := if bool_decide (s = "resolved") then f_alerts_confirmed else f_alerts_reviewed in
  counter f (db w') key = counter f (db w) key + 1 /\
  (forall g, g <> f -> counter g (db w') key = counter g (db w) key) /\
  (forall k, k <> key -> daily_stats (db w') !! k = daily_stats (db w) !! k) /\
  (exists a', alerts (db w') !! id = Some a' /\ al_status a' = s /\
              al_created_at a' = al_created_at a).
Proof.
  intros Hs Ha Hdate Hrow Hrun Hok. cbv zeta.
  rewrite (updateAlert_eq _ _ _ _ _ _ _ Hs Ha Hdate) in Hrun. cbv zeta in Hrun.
  destruct (match Js.nonempty reviewer with
            | Some u => user_exists u (db w) | None => true end);
    [|not_created Hrun].
  destruct (update_daily_stats _ _ _ _ _) as [d2|] eqn:Hup;
    [|not_created Hrun].
  injection Hrun as _ <-.
  apply (update_daily_stats_eq _ _ _ _ row) in Hup; [|exact Hrow].
  subst d2. unfold counter. simpl. rewrite !lookup_insert_eq, Hrow. simpl.
  split; [by rewrite get_field_updated_at, get_set_field|].
  split; [intros g Hg; by rewrite get_field_updated_at, get_set_field_ne|].
  split; [intros k Hk; by rewrite lookup_insert_ne|].
  eauto.
Qed.

(** C7 (amended). [updateAlert] with a non-empty status outside
    [open, reviewed, dismissed, resolved] answers 400 and changes
    nothing. *)
Theorem updateAlert_rejects_unknown_status now id body w s :
  u_status body = Some s ->
  s <> "" ->
  Js.includes validStatuses s = false ->
  updateAlert now id body w
  = (respond 400
       (error_body
          "Invalid status. Must be one of: open, reviewed, dismissed, resolved"),
     w).
Proof.
  intros Hs Hne Hout. unfold updateAlert, Js.nonempty. rewrite Hs.
  apply String.eqb_neq in Hne. rewrite Hne, Hout. reflexivity.
Qed.

(** ** Producer credentials *)

Lemma with_apiKeyAuth_rejects trim env header h w :
  match Js.nonempty header with
  | Some apiKey => Js.includes (validKeys trim env) apiKey = false
  | None => True
  end ->
  with_apiKeyAuth trim env header h w
  = (match Js.nonempty header with
     | None => respond 401 (error_body "Missing X-API-Key header")
     | Some _ =>
         match validKeys trim env with
         | [] => respond 500 (error_body "API keys not configured")
         | _ :: _ => respond 403 (error_body "Invalid API key")
         end
     end, w).
Proof.
  unfold with_apiKeyAuth, apiKeyAuth.
  destruct (Js.nonempty header) as [apiKey|]; [|done].
  intros ->. by destruct (validKeys trim env).
Qed.

(** C8 (amended). On the three producer routes a request without a
    credential is answered 401, and one whose credential is not among the
    configured keys is answered 403, or 500 when no key is configured; in
    each case the handler does not run: store and emissions stay as they
    are. The keys are the trimmed, non-empty pieces of [CV_API_KEYS],
    whatever [trim] strips. *)
Theorem producer_routes_reject_bad_key
    Date_parse timestamptz_in trim env header now dbody abody w :
  match Js.nonempty header with
  | Some apiKey => Js.includes (validKeys trim env) apiKey = false
  | None => True
  end ->
  let r :=
    match Js.nonempty header with
    | None => respond 401 (error_body "Missing X-API-Key header")
    | Some _ =>
        match validKeys trim env with
        | [] => respond 500 (error_body "API keys not configured")
        | _ :: _ => respond 403 (error_body "Invalid API key")
        end
    end in
  route_detections Date_parse timestamptz_in trim env header now dbody w = (r, w) /\
  route_alerts Date_parse trim env header now abody w = (r, w) /\
  route_heartbeat trim env header w = (r, w).
Proof.
  intros Hbad. cbv zeta. unfold route_detections, route_alerts, route_heartbeat.
  by rewrite !with_apiKeyAuth_rejects.
Qed.

(** ** Emissions that throw *)

(** What [postDetection] answers and stores does not depend on the
    Socket.IO server: its emissions run inside their own [try]/[catch]. *)
Lemma postDetection_ignores_fanout Date_parse timestamptz_in now body d i1 i2 :
  fst (postDetection Date_parse timestamptz_in now body {| db := d; io := i1 |})
  = fst (postDetection Date_parse timestamptz_in now body {| db := d; io := i2 |}) /\
  db (snd (postDetection Date_parse timestamptz_in now body {| db := d; io := i1 |}))
  = db (snd (postDetection Date_parse timestamptz_in now body {| db := d; io := i2 |})).
Proof.
  destruct (Js.nonempty (d_camera_id body)) as [camera_id|] eqn:H1;
    [|unfold postDetection; by rewrite H1].
  destruct (Js.nonempty (d_location_id body)) as [l|] eqn:H2;
    [|unfold postDetection; by rewrite H1, H2].
  destruct (Js.nonempty (d_timestamp body)) as [timestamp|] eqn:H3;
    [|unfold postDetection; by rewrite H1, H2, H3].
  destruct (d_detections body) as [detections|] eqn:H4;
    [|unfold postDetection; by rewrite H1, H2, H3, H4].
  rewrite !(postDetection_eq _ _ _ _ _ _ _ _ _ H1 H2 H3 H4). simpl.
  destruct (insert_cv_detection _ _ _ _ _ _ _ _ _ _) as [[id d1]|]; [|done].
  destruct (Js.toISOString_date _) as [dateStr|]; [|done].
  destruct (upsert_daily_stats _ _ _ _ _ _) as [d2|]; [|done].
  split; [done|]. simpl.
  destruct (emit_detection_ok camera_id (snd (resolved camera_id d)) timestamp
              detections (d_fps body) (set_db d2 {| db := d; io := i1 |}))
    as (w1 & -> & Hw1).
  destruct (emit_detection_ok camera_id (snd (resolved camera_id d)) timestamp
              detections (d_fps body) (set_db d2 {| db := d; io := i2 |}))
    as (w2 & -> & Hw2).
  simpl. by rewrite Hw1, Hw2.
Qed.

(** ** Runs of the handlers on the example deployment *)

(** C1, as stated, fails: a detection stamped 23:59:59.900 and handled just
    after midnight UTC is created (201) with two objects, yet the row of
    the current date does not exist afterwards; the two objects are
    counted on the date of the timestamp. *)
Lemma postDetection_skips_current_date :
  let r := fst (postDetection Js.parse_iso Js.parse_iso now_after_midnight
                  detection_cam01 w0) in
  let w' := snd (postDetection Js.parse_iso Js.parse_iso now_after_midnight
                   detection_cam01 w0) in
  r = respond 201 (id_body 1) /\
  Js.toISOString_date (Some now_after_midnight) = Some "2024-01-16" /\
  daily_stats (db w') !! (store_berlin, "2024-01-16") = None /\
  counter f_detection_count (db w') (store_berlin, "2024-01-16")
    <> counter f_detection_count (db w0) (store_berlin, "2024-01-16") + 2 /\
  counter f_detection_count (db w') (store_berlin, "2024-01-15") = 2.
Proof.
  cbv zeta. split; [vm_compute; reflexivity|]. split; [vm_compute; reflexivity|].
  split; [vm_compute; reflexivity|]. split; [vm_compute; discriminate|].
  vm_compute; reflexivity.
Qed.

Lemma postDetection_counts_on_timestamp_date_witness :
  res_status (fst (postDetection Js.parse_iso Js.parse_iso now_after_midnight
                     detection_cam01 w0)) = 201 /\
  exists dateStr,
    Js.toISOString_date (Js.parse_iso t_before_midnight) = Some dateStr /\
    counter f_detection_count
      (db (snd (postDetection Js.parse_iso Js.parse_iso now_after_midnight
                  detection_cam01 w0)))
      (snd (resolved "cam-01" (db w0)), dateStr)
    = counter f_detection_count (db w0) (snd (resolved "cam-01" (db w0)), dateStr)
      + Z.of_nat (length [person; bottle]).
Proof.
  assert (res_status (fst (postDetection Js.parse_iso Js.parse_iso now_after_midnight
                             detection_cam01 w0)) = 201) as Hok
    by (vm_compute; reflexivity).
  split; [exact Hok|].
  destruct (postDetection_counts_on_timestamp_date Js.parse_iso Js.parse_iso
              now_after_midnight detection_cam01 w0 _ _
              (surjective_pairing _) Hok)
    as (camera_id & timestamp & detections & dateStr & H1 & H2 & H3 & H4 & H5 & _).
  injection H1 as <-. injection H2 as <-. injection H3 as <-.
  exists dateStr. split; [exact H4|exact H5].
Defined.

(** C2, as stated, fails: resolving the same alert twice counts it twice. *)
Lemma updateAlert_resolved_twice_counts_twice :
  let w1 := w_alert now_same_day in
  let w2 := snd (updateAlert (now_same_day + 10) 1 resolve w1) in
  let w3 := snd (updateAlert (now_same_day + 20) 1 resolve w2) in
  let key := (store_berlin, "2024-01-15") in
  alerts (db w1) !! 1%N = Some (alert_cam01_stored now_same_day) /\
  res_status (fst (updateAlert (now_same_day + 10) 1 resolve w1)) = 200 /\
  res_status (fst (updateAlert (now_same_day + 20) 1 resolve w2)) = 200 /\
  counter f_alerts_confirmed (db w1) key = 0 /\
  counter f_alerts_confirmed (db w2) key = 1 /\
  counter f_alerts_confirmed (db w3) key = 2 /\
  counter f_alerts_confirmed (db w3) key <> counter f_alerts_confirmed (db w2) key.
Proof.
  cbv zeta. split; [vm_compute; reflexivity|]. split; [vm_compute; reflexivity|].
  split; [vm_compute; reflexivity|]. split; [vm_compute; reflexivity|].
  split; [vm_compute; reflexivity|]. split; [vm_compute; reflexivity|].
  vm_compute; discriminate.
Qed.

Lemma updateAlert_counts_every_call_witness :
  let w1 := w_alert now_same_day in
  let w2 := snd (updateAlert (now_same_day + 10) 1 resolve w1) in
  let key := (store_berlin, "2024-01-15") in
  alerts (db w1) !! 1%N = Some (alert_cam01_stored now_same_day) /\
  res_status (fst (updateAlert (now_same_day + 10) 1 resolve w1)) = 200 /\
  counter f_alerts_confirmed (db w2) key
    = counter f_alerts_confirmed (db w1) key + 1.
Proof.
  cbv zeta.
  assert (alerts (db (w_alert now_same_day)) !! 1%N
          = Some (alert_cam01_stored now_same_day)) as Ha
    by (vm_compute; reflexivity).
  assert (res_status (fst (updateAlert (now_same_day + 10) 1 resolve
                             (w_alert now_same_day))) = 200) as Hok
    by (vm_compute; reflexivity).
  split; [exact Ha|]. split; [exact Hok|].
  refine (proj1 (updateAlert_counts_every_call (now_same_day + 10) 1
                   (w_alert now_same_day) "resolved" (Some user_admin)
                   (alert_cam01_stored now_same_day) "2024-01-15"
                   (set_field f_total_alerts 1 (default_daily_stat now_same_day))
                   _ _ _ Ha _ _ (surjective_pairing _) Hok)).
  - left; reflexivity.
  - vm_compute; reflexivity.
  - vm_compute; reflexivity.
Defined.

(** C3 at its failing input: the alert is stamped 23:59:59.900 and created
    just after midnight UTC, so [postAlert] counted it on 2024-01-15 while
    its creation date is 2024-01-16. Resolving it succeeds, and no row of
    the creation date is created: the aggregate stays as it was. *)
Lemma updateAlert_leaves_missing_row_missing :
  let w1 := w_alert now_after_midnight in
  let w2 := snd (updateAlert (now_after_midnight + 60000) 1 resolve w1) in
  alerts (db w1) !! 1%N = Some (alert_cam01_stored now_after_midnight) /\
  Js.toISOString_date (Some now_after_midnight) = Some "2024-01-16" /\
  fst (updateAlert (now_after_midnight + 60000) 1 resolve w1)
    = respond 200 (row_body (1%N, "resolved", Some (now_after_midnight + 60000))) /\
  daily_stats (db w1) !! (store_berlin, "2024-01-16") = None /\
  daily_stats (db w2) !! (store_berlin, "2024-01-16") = None /\
  counter f_alerts_confirmed (db w2) (store_berlin, "2024-01-15") = 0 /\
  daily_stats (db w2) = daily_stats (db w1).
Proof.
  cbv zeta.
  assert (alerts (db (w_alert now_after_midnight)) !! 1%N
          = Some (alert_cam01_stored now_after_midnight)) as Ha
    by (vm_compute; reflexivity).
  assert (daily_stats (db (w_alert now_after_midnight))
            !! (store_berlin, "2024-01-16") = None) as Hrow
    by (vm_compute; reflexivity).
  split; [exact Ha|]. split; [vm_compute; reflexivity|].
  split; [vm_compute; reflexivity|]. split; [exact Hrow|].
  split; [vm_compute; reflexivity|]. split; [vm_compute; reflexivity|].
  apply (updateAlert_without_row _ _ _ "resolved" _
           (alert_cam01_stored now_after_midnight) "2024-01-16");
    [by left|exact Ha|vm_compute; reflexivity|exact Hrow].
Qed.

(** C6 at its failing input: with a server whose emissions throw,
    [postAlert] has stored the alert and counted it, and answers 500;
    [postDetection] in the same state answers 201. *)
Lemma postAlert_emit_failure_is_not_swallowed :
  let r := fst (postAlert Js.parse_iso now_same_day (alert_cam01 (Some c_0_8)) w0_down) in
  let w' := snd (postAlert Js.parse_iso now_same_day (alert_cam01 (Some c_0_8)) w0_down) in
  r = internal_error /\
  alerts (db w') !! 1%N = Some (alert_cam01_stored now_same_day) /\
  counter f_total_alerts (db w') (store_berlin, "2024-01-15") = 1 /\
  fst (postDetection Js.parse_iso Js.parse_iso now_same_day detection_cam01 w0_down)
    = respond 201 (id_body 1).
Proof.
  cbv zeta. split; [vm_compute; reflexivity|]. split; [vm_compute; reflexivity|].
  split; vm_compute; reflexivity.
Qed.

(** C7, as stated, fails: the empty string is not one of the four
    statuses, yet the call is answered 200 and sets the reviewer. *)
Lemma updateAlert_empty_status_is_accepted :
  let w1 := w_alert now_same_day in
  let w2 := snd (updateAlert (now_same_day + 10) 1 review_with_empty_status w1) in
  Js.includes validStatuses "" = false /\
  fst (updateAlert (now_same_day + 10) 1 review_with_empty_status w1)
    = respond 200 (row_body (1%N, "open", None)) /\
  al_reviewed_by <$> alerts (db w1) !! 1%N = Some None /\
  al_reviewed_by <$> alerts (db w2) !! 1%N = Some (Some user_admin).
Proof.
  cbv zeta. split; [vm_compute; reflexivity|]. split; [vm_compute; reflexivity|].
  split; vm_compute; reflexivity.
Qed.

Lemma updateAlert_rejects_unknown_status_witness :
  "closed" <> "" /\
  Js.includes validStatuses "closed" = false /\
  res_status
    (fst (updateAlert now_same_day 1
            {| u_status := Some "closed"; u_reviewed_by := Some user_admin |}
            (w_alert now_same_day))) = 400 /\
  snd (updateAlert now_same_day 1
         {| u_status := Some "closed"; u_reviewed_by := Some user_admin |}
         (w_alert now_same_day)) = w_alert now_same_day.
Proof.
  split; [discriminate|]. split; [reflexivity|].
  rewrite (updateAlert_rejects_unknown_status now_same_day 1
             {| u_status := Some "closed"; u_reviewed_by := Some user_admin |}
             (w_alert now_same_day) "closed" eq_refl); [|discriminate|reflexivity].
  split; reflexivity.
Defined.

(** C8, as stated, fails: with no key configured, a request that carries
    a credential is answered 500, the server's own fault, on each of the
    three routes. *)
Lemma producer_routes_without_keys_answer_500 :
  let r := respond 500 (error_body "API keys not configured") in
  route_detections Js.parse_iso Js.parse_iso Js.trim None (Some "cv-engine-key")
    now_same_day detection_cam01 w0 = (r, w0) /\
  route_alerts Js.parse_iso Js.trim None (Some "cv-engine-key")
    now_same_day (alert_cam01 (Some c_0_8)) w0 = (r, w0) /\
  route_heartbeat Js.trim None (Some "cv-engine-key") w0 = (r, w0).
Proof. repeat split; reflexivity. Qed.

Lemma producer_routes_reject_bad_key_witness :
  Js.includes (validKeys Js.trim (Some "key-a, key-b")) "key-c" = false /\
  route_detections Js.parse_iso Js.parse_iso Js.trim (Some "key-a, key-b")
    (Some "key-c") now_same_day detection_cam01 w0
  = (respond 403 (error_body "Invalid API key"), w0) /\
  route_alerts Js.parse_iso Js.trim (Some "key-a, key-b") None
    now_same_day (alert_cam01 (Some c_0_8)) w0
  = (respond 401 (error_body "Missing X-API-Key header"), w0).
Proof.
  split; [reflexivity|]. split.
  - exact (proj1 (producer_routes_reject_bad_key Js.parse_iso Js.parse_iso Js.trim
                    (Some "key-a, key-b") (Some "key-c") now_same_day
                    detection_cam01 (alert_cam01 (Some c_0_8)) w0 eq_refl)).
  - exact (proj1 (proj2 (producer_routes_reject_bad_key Js.parse_iso Js.parse_iso
                    Js.trim (Some "key-a, key-b") None now_same_day
                    detection_cam01 (alert_cam01 (Some c_0_8)) w0 I))).
Defined.

Lemma postAlert_severity_by_thresholds_witness :
  a_confidence (alert_cam01 (Some c_0_8)) = Some c_0_8 /\
  res_status (fst (postAlert Js.parse_iso now_same_day (alert_cam01 (Some c_0_8)) w0))
    = 201 /\
  exists id a,
    alerts (db (w_alert now_same_day)) !! id = Some a /\ al_severity a = "high".
Proof.
  assert (res_status (fst (postAlert Js.parse_iso now_same_day
                             (alert_cam01 (Some c_0_8)) w0)) = 201) as Hok
    by (vm_compute; reflexivity).
  split; [reflexivity|]. split; [exact Hok|].
  destruct (postAlert_severity_by_thresholds Js.parse_iso now_same_day
              (alert_cam01 (Some c_0_8)) w0 _ _ c_0_8 eq_refl
              (surjective_pairing _) Hok)
    as (id & a & _ & Ha & _ & _ & _ & Hhigh & _).
  exists id, a. split; [exact Ha|exact (Hhigh eq_refl)].
Defined.

Lemma postAlert_absent_confidence_witness :
  a_confidence (alert_cam01 None) = None /\
  res_status (fst (postAlert Js.parse_iso now_same_day (alert_cam01 None) w0)) = 201 /\
  exists id a,
    alerts (db (snd (postAlert Js.parse_iso now_same_day (alert_cam01 None) w0)))
      !! id = Some a /\
    al_severity a = "low" /\ al_confidence a = None.
Proof.
  assert (res_status (fst (postAlert Js.parse_iso now_same_day
                             (alert_cam01 None) w0)) = 201) as Hok
    by (vm_compute; reflexivity).
  split; [reflexivity|]. split; [exact Hok|].
  destruct (postAlert_absent_confidence Js.parse_iso now_same_day
              (alert_cam01 None) w0 _ _ eq_refl (surjective_pairing _) Hok)
    as (id & a & _ & Ha & Hlow & Hnull).
  exists id, a. auto.
Defined.

Lemma location_hint_is_not_used_witness :
  postDetection Js.parse_iso Js.parse_iso now_same_day detection_cam01 w0
  = postDetection Js.parse_iso Js.parse_iso now_same_day
      {| d_camera_id := Some "cam-01";
         d_location_id := Some "some-other-place";
         d_timestamp := Some t_before_midnight;
         d_frame_number := Some 1042;
         d_detections := Some [person; bottle];
         d_snapshot_b64 := None;
         d_fps := None |} w0.
Proof.
  apply (proj1 (location_hint_is_not_used Js.parse_iso Js.parse_iso now_same_day w0))
    with (l1 := "loc-01") (l2 := "some-other-place");
    try reflexivity; discriminate.
Defined.



(** * Further properties of the handlers *)

(** ** Payload validation *)

(** X1. [postDetection] answers 400 exactly when [camera_id],
    [location_id] or [timestamp] is absent or empty, or [detections] is
    absent (an empty array is not), and then changes nothing. *)
Theorem postDetection_400_iff_missing_field Date_parse timestamptz_in now body w :
  (Js.nonempty (d_camera_id body) = None \/
   Js.nonempty (d_location_id body) = None \/
   Js.nonempty (d_timestamp body) = None \/
   d_detections body = None ->
   postDetection Date_parse timestamptz_in now body w
   = (respond 400 (error_body "Missing required fields"), w)) /\
  (res_status (fst (postDetection Date_parse timestamptz_in now body w)) = 400 ->
   Js.nonempty (d_camera_id body) = None \/
   Js.nonempty (d_location_id body) = None \/
   Js.nonempty (d_timestamp body) = None \/
   d_detections body = None).
Proof.
  destruct (Js.nonempty (d_camera_id body)) as [camera_id|] eqn:H1;
    [|split; [unfold postDetection; by rewrite H1|auto]].
  destruct (Js.nonempty (d_location_id body)) as [l|] eqn:H2;
    [|split; [unfold postDetection; by rewrite H1, H2|auto]].
  destruct (Js.nonempty (d_timestamp body)) as [timestamp|] eqn:H3;
    [|split; [unfold postDetection; by rewrite H1, H2, H3|auto]].
  destruct (d_detections body) as [detections|] eqn:H4;
    [|split; [unfold postDetection; by rewrite H1, H2, H3, H4|auto]].
  split; [intros [?|[?|[?|?]]]; discriminate|].
  rewrite (postDetection_eq _ _ _ _ _ _ _ _ _ H1 H2 H3 H4).
  destruct (insert_cv_detection _ _ _ _ _ _ _ _ _ _) as [[id d1]|]; [|discriminate].
  destruct (Js.toISOString_date _); [|discriminate].
  destruct (upsert_daily_stats _ _ _ _ _ _); discriminate.
Qed.

(** X2. [postAlert] answers 400 exactly when [camera_id], [location_id]
    or [timestamp] is absent or empty, and then changes nothing. *)
Theorem postAlert_400_iff_missing_field Date_parse now body w :
  (Js.nonempty (a_camera_id body) = None \/
   Js.nonempty (a_location_id body) = None \/
   Js.nonempty (a_timestamp body) = None ->
   postAlert Date_parse now body w
   = (respond 400 (error_body "Missing required fields"), w)) /\
  (res_status (fst (postAlert Date_parse now body w)) = 400 ->
   Js.nonempty (a_camera_id body) = None \/
   Js.nonempty (a_location_id body) = None \/
   Js.nonempty (a_timestamp body) = None).
Proof.
  destruct (Js.nonempty (a_camera_id body)) as [camera_id|] eqn:H1;
    [|split; [unfold postAlert; by rewrite H1|auto]].
  destruct (Js.nonempty (a_location_id body)) as [l|] eqn:H2;
    [|split; [unfold postAlert; by rewrite H1, H2|auto]].
  destruct (Js.nonempty (a_timestamp body)) as [timestamp|] eqn:H3;
    [|split; [unfold postAlert; by rewrite H1, H2, H3|auto]].
  split; [intros [?|[?|?]]; discriminate|].
  rewrite (postAlert_eq _ _ _ _ _ _ _ H1 H2 H3). cbv zeta.
  destruct (insert_alert _ _ _ _ _ _ _ _ _ _ _) as [[alert d1]|]; [|discriminate].
  destruct (Js.toISOString_date _); [|discriminate].
  destruct (upsert_daily_stats _ _ _ _ _ _); [|discriminate].
  destruct (emit_alert _ _ _ _ _ _) as [[[]|] w2]; discriminate.
Qed.

(** ** A write that the store rejects *)

(** X3. When the store rejects the row (it cannot read the timestamp of
    a detection, or the resolved location is not in [locations], as for
    an unknown camera in a store without the fallback location), the
    handler answers 500 and nothing is stored, counted or emitted. *)
Theorem rejected_write_changes_nothing Date_parse timestamptz_in now w :
  (forall body camera_id l timestamp detections,
     Js.nonempty (d_camera_id body) = Some camera_id ->
     Js.nonempty (d_location_id body) = Some l ->
     Js.nonempty (d_timestamp body) = Some timestamp ->
     d_detections body = Some detections ->
     timestamptz_in timestamp = None \/
     location_exists (snd (resolved camera_id (db w))) (db w) = false ->
     postDetection Date_parse timestamptz_in now body w = (internal_error, w)) /\
  (forall body camera_id l timestamp,
     Js.nonempty (a_camera_id body) = Some camera_id ->
     Js.nonempty (a_location_id body) = Some l ->
     Js.nonempty (a_timestamp body) = Some timestamp ->
     location_exists (snd (fst (resolved_tenant camera_id (db w)))) (db w) = false ->
     postAlert Date_parse now body w = (internal_error, w)).
Proof.
  split.
  - intros body camera_id l timestamp detections H1 H2 H3 H4 Hrej.
    rewrite (postDetection_eq _ _ _ _ _ _ _ _ _ H1 H2 H3 H4).
    unfold insert_cv_detection.
    destruct Hrej as [-> | Hloc]; [done|].
    rewrite Hloc. by destruct (timestamptz_in timestamp).
  - intros body camera_id l timestamp H1 H2 H3 Hloc.
    rewrite (postAlert_eq _ _ _ _ _ _ _ H1 H2 H3).
    cbv zeta. unfold insert_alert. by rewrite Hloc.
Qed.

(** ** A timestamp that is no Date *)

(** X4. A timestamp that [new Date] cannot read is never counted: with
    the required fields present the answer is 500 and nothing is emitted;
    [daily_stats] is unchanged, and the store is as it was or holds one
    record more, the row of the request: the handlers run outside a
    transaction and do not take an inserted row back. *)
Theorem invalid_date_is_never_counted Date_parse timestamptz_in now w :
  (forall body camera_id l timestamp detections,
     Js.nonempty (d_camera_id body) = Some camera_id ->
     Js.nonempty (d_location_id body) = Some l ->
     Js.nonempty (d_timestamp body) = Some timestamp ->
     d_detections body = Some detections ->
     Js.toISOString_date (Date_parse timestamp) = None ->
     let w' := snd (postDetection Date_parse timestamptz_in now body w) in
     fst (postDetection Date_parse timestamptz_in now body w) = internal_error /\
     io w' = io w /\
     daily_stats (db w') = daily_stats (db w) /\
     (db w' = db w \/ exists row, db w' = add_cv_detection row (db w))) /\
  (forall body camera_id l timestamp,
     Js.nonempty (a_camera_id body) = Some camera_id ->
     Js.nonempty (a_location_id body) = Some l ->
     Js.nonempty (a_timestamp body) = Some timestamp ->
     Js.toISOString_date (Date_parse timestamp) = None ->
     let w' := snd (postAlert Date_parse now body w) in
     fst (postAlert Date_parse now body w) = internal_error /\
     io w' = io w /\
     daily_stats (db w') = daily_stats (db w) /\
     (db w' = db w \/ exists row, db w' = add_alert row (db w))).
Proof.
  split.
  - intros body camera_id l timestamp detections H1 H2 H3 H4 Hdate. cbv zeta.
    rewrite (postDetection_eq _ _ _ _ _ _ _ _ _ H1 H2 H3 H4).
    destruct (insert_cv_detection _ _ _ _ _ _ _ _ _ _) as [[id d1]|] eqn:Hins;
      [|by auto].
    apply insert_cv_detection_Some in Hins as (_ & _ & row & ->).
    rewrite Hdate. simpl. eauto 6.
  - intros body camera_id l timestamp H1 H2 H3 Hdate. cbv zeta.
    rewrite (postAlert_eq _ _ _ _ _ _ _ H1 H2 H3). cbv zeta.
    destruct (insert_alert _ _ _ _ _ _ _ _ _ _ _) as [[alert d1]|] eqn:Hins;
      [|by auto].
    apply insert_alert_Some in Hins as (_ & _ & row & ->).
    rewrite Hdate. simpl. eauto 6.
Qed.

(** ** The alert counter *)

(** X5. An alert that was created adds exactly one to [total_alerts] of
    the resolved location on the UTC date of the payload's [timestamp]; a
    missing row is created with every other counter at zero, and no other
    counter and no other row changes. *)
Theorem postAlert_counts_on_timestamp_date Date_parse now body w r w' :
  postAlert Date_parse now body w = (r, w') ->
  res_status r = 201 ->
  exists camera_id timestamp dateStr,
    Js.nonempty (a_camera_id body) = Some camera_id /\
    Js.nonempty (a_timestamp body) = Some timestamp /\
    Js.toISOString_date (Date_parse timestamp) = Some dateStr /\
    let key := (snd (fst (resolved_tenant camera_id (db w))), dateStr) in
    counter f_total_alerts (db w') key = counter f_total_alerts (db w) key + 1 /\
    (forall g, g <> f_total_alerts -> counter g (db w') key = counter g (db w) key) /\
    (daily_stats (db w) !! key = None ->
       daily_stats (db w') !! key
       = Some (set_field f_total_alerts 1 (default_daily_stat now))) /\
    (forall k, k <> key -> daily_stats (db w') !! k = daily_stats (db w) !! k).
Proof.
  intros Hrun Hok.
  destruct (postAlert_created _ _ _ _ _ _ Hrun Hok)
    as (camera_id & l & timestamp & dateStr & H1 & _ & H3 & Hdate & Hup & _).
  exists camera_id, timestamp, dateStr.
  repeat (split; [assumption|]). cbv zeta.
  split; [exact (upsert_counter _ _ _ _ _ _ _ Hup)|].
  pose proof (upsert_daily_stats_eq _ _ _ _ _ _ _ Hup) as Heq.
  rewrite Heq. unfold counter. simpl. rewrite !lookup_insert_eq.
  split.
  { intros g Hg. destruct (daily_stats (db w) !! _) as [row|]; simpl.
    - by rewrite get_field_updated_at, get_set_field_ne.
    - rewrite get_set_field_ne by done. by destruct g. }
  split; [by intros ->|].
  intros k Hk. by rewrite lookup_insert_ne.
Qed.

(** ** The stored detection *)

Lemma select_camera_find camera_id d :
  select_camera camera_id d
  = match List.find (fun c => String.eqb (cam_camera_id c) camera_id) (cameras d) with
    | Some c => [(cam_id c, cam_location_id c)]
    | None => []
    end.
Proof.
  unfold select_camera. induction (cameras d) as [|c cs IH]; [done|].
  simpl. by destruct (String.eqb (cam_camera_id c) camera_id).
Qed.

(** X6. A created detection is stored under the returned id with the id
    and location of the first camera registered under its [camera_id]
    (no camera and the fallback location when there is none), its objects
    as sent, their number as [detection_count], and frame number 0 when
    none is given. *)
Theorem postDetection_stored_record Date_parse timestamptz_in now body w r w' :
  postDetection Date_parse timestamptz_in now body w = (r, w') ->
  res_status r = 201 ->
  exists camera_id detections row,
    Js.nonempty (d_camera_id body) = Some camera_id /\
    d_detections body = Some detections /\
    r = respond 201 (id_body (next_id (db w))) /\
    cv_detections (db w') !! next_id (db w) = Some row /\
    det_detections row = detections /\
    det_detection_count row = Z.of_nat (length detections) /\
    det_frame_number row = default 0 (d_frame_number body) /\
    det_created_at row = now /\
    match List.find (fun c => String.eqb (cam_camera_id c) camera_id)
            (cameras (db w)) with
    | Some c => det_camera_id row = Some (cam_id c) /\
                det_location_id row = cam_location_id c
    | None => det_camera_id row = None /\ det_location_id row = FALLBACK
    end.
Proof.
  intros Hrun Hok.
  destruct (postDetection_created _ _ _ _ _ _ _ Hrun Hok)
    as (camera_id & l & timestamp & detections & ts & dateStr
        & H1 & _ & _ & H4 & _ & _ & Hup & ->).
  apply detection_kept_by_upsert in Hup.
  eexists camera_id, detections, _.
  split; [done|]. split; [done|]. split; [done|]. split; [exact Hup|]. simpl.
  split; [done|]. split; [done|]. split; [done|]. split; [done|].
  unfold resolved. rewrite select_camera_find.
  by destruct (List.find _ _).
Qed.

(** ** What is emitted *)

Lemma emit_sent t e p w i :
  io w = Some i ->
  io_throws i {| em_target := t; em_event := e; em_payload := p |} = false ->
  emit t e p w
  = (Some tt,
     {| db := db w;
        io := Some {| io_throws := io_throws i;
                      io_sent := {| em_target := t; em_event := e; em_payload := p |}
                                   :: io_sent i |} |}).
Proof. unfold emit. by intros -> ->. Qed.

Lemma emit_thrown t e p w i :
  io w = Some i ->
  io_throws i {| em_target := t; em_event := e; em_payload := p |} = true ->
  emit t e p w = (None, w).
Proof. unfold emit. by intros -> ->. Qed.

Lemma postDetection_created_world Date_parse timestamptz_in now body w r w' :
  postDetection Date_parse timestamptz_in now body w = (r, w') ->
  res_status r = 201 ->
  exists camera_id timestamp detections d2,
    Js.nonempty (d_camera_id body) = Some camera_id /\
    Js.nonempty (d_timestamp body) = Some timestamp /\
    d_detections body = Some detections /\
    w' = snd (emit_detection camera_id (snd (resolved camera_id (db w))) timestamp
                detections (d_fps body) (set_db d2 w)).
Proof.
  intros Hrun Hok.
  destruct (postDetection_created _ _ _ _ _ _ _ Hrun Hok)
    as (camera_id & l & timestamp & detections & ts & dateStr
        & H1 & H2 & H3 & H4 & Hts & Hdate & Hup & _).
  rewrite (postDetection_eq _ _ _ _ _ _ _ _ _ H1 H2 H3 H4) in Hrun.
  destruct (insert_cv_detection _ _ _ _ _ _ _ _ _ _) as [[id d1]|];
    [|not_created Hrun].
  rewrite Hdate in Hrun.
  destruct (upsert_daily_stats _ _ _ _ _ _) as [d2|]; [|not_created Hrun].
  injection Hrun as _ <-. by exists camera_id, timestamp, detections, d2.
Qed.

Lemma postAlert_created_world Date_parse now body w r w' :
  postAlert Date_parse now body w = (r, w') ->
  res_status r = 201 ->
  exists camera_id timestamp d2,
    Js.nonempty (a_camera_id body) = Some camera_id /\
    Js.nonempty (a_timestamp body) = Some timestamp /\
    emit_alert body (next_id (db w), now) camera_id
      (snd (fst (resolved_tenant camera_id (db w))))
      (snd (resolved_tenant camera_id (db w))) (set_db d2 w) = (Some tt, w').
Proof.
  intros Hrun Hok.
  destruct (postAlert_created _ _ _ _ _ _ Hrun Hok)
    as (camera_id & l & timestamp & dateStr & H1 & H2 & H3 & Hdate & Hup & _).
  rewrite (postAlert_eq _ _ _ _ _ _ _ H1 H2 H3) in Hrun. cbv zeta in Hrun.
  destruct (insert_alert _ _ _ _ _ _ _ _ _ _ _) as [[alert d1]|] eqn:Hins;
    [|not_created Hrun].
  apply insert_alert_Some in Hins as (-> & _).
  rewrite Hdate in Hrun.
  destruct (upsert_daily_stats _ _ _ _ _ _) as [d2|]; [|not_created Hrun].
  destruct (emit_alert _ _ _ _ _ _) as [[[]|] w2] eqn:Hemit; [|not_created Hrun].
  injection Hrun as _ <-. by exists camera_id, timestamp, d2.
Qed.

(** X7. With a server whose emissions go through, a created detection
    is emitted exactly twice with one payload (the request's
    [camera_id], [timestamp] and objects, the resolved location, [fps] or
    15.0): first to the room of the resolved location, then to every
    client. Without a server nothing is emitted and the detection is
    created all the same. *)
Theorem postDetection_emits_room_then_all Date_parse timestamptz_in now body w r w' :
  postDetection Date_parse timestamptz_in now body w = (r, w') ->
  res_status r = 201 ->
  fanout_up w ->
  exists camera_id timestamp detections,
    Js.nonempty (d_camera_id body) = Some camera_id /\
    Js.nonempty (d_timestamp body) = Some timestamp /\
    d_detections body = Some detections /\
    let locUuid := snd (resolved camera_id (db w)) in
    let p := detection_payload camera_id locUuid timestamp detections
               (default c_15 (Js.nonzerof (d_fps body))) in
    match io w with
    | Some i =>
        io w' = Some {| io_throws := io_throws i;
                        io_sent :=
                          {| em_target := to_all; em_event := "detection";
                             em_payload := p |}
                          :: {| em_target := to_room ("location:" ++ locUuid);
                                em_event := "detection"; em_payload := p |}
                          :: io_sent i |}
    | None => io w' = None
    end.
Proof.
  intros Hrun Hok Hup.
  destruct (postDetection_created_world _ _ _ _ _ _ _ Hrun Hok)
    as (camera_id & timestamp & detections & d2 & H1 & H3 & H4 & ->).
  exists camera_id, timestamp, detections. repeat (split; [done|]). cbv zeta.
  unfold fanout_up in Hup. unfold emit_detection, try_catch, bind.
  change (io (set_db d2 w)) with (io w).
  destruct (io w) as [i|] eqn:Hio; [|done].
  rewrite (emit_sent _ _ _ _ i) by (done || apply Hup).
  rewrite (emit_sent _ _ _ _ {| io_throws := io_throws i; io_sent := _ |})
    by (done || apply Hup).
  done.
Qed.

(** X8. A created alert has been emitted as [alert:new] to the room of
    the camera's tenant (only when the camera is registered), then as
    [alert:new] to the room of the resolved location, then as
    [alert:count_update] to every client with nothing but the location
    id. The [alert:new] payload carries the request's fields as sent, the
    new id and creation time, and at most the first 100 characters of the
    snapshot followed by three dots. *)
Theorem postAlert_emits_tenant_location_count Date_parse now body w r w' i :
  postAlert Date_parse now body w = (r, w') ->
  res_status r = 201 ->
  io w = Some i ->
  exists camera_id,
    Js.nonempty (a_camera_id body) = Some camera_id /\
    let locUuid := snd (fst (resolved_tenant camera_id (db w))) in
    let p := alert_payload (next_id (db w)) camera_id locUuid "non_scan"
               (a_track_id body) (a_class_name body) (a_confidence body)
               (a_bbox body) (a_description body)
               ((fun s => String.substring 0 100 s ++ "...")
                  <$> Js.nonempty (a_snapshot_b64 body))
               now in
    io w' = Some {| io_throws := io_throws i;
                    io_sent :=
                      {| em_target := to_all; em_event := "alert:count_update";
                         em_payload := count_update_payload locUuid |}
                      :: {| em_target := to_room ("location:" ++ locUuid);
                            em_event := "alert:new"; em_payload := p |}
                      :: match Js.nonempty (snd (resolved_tenant camera_id (db w))) with
                         | Some t => [ {| em_target := to_room ("tenant:" ++ t);
                                          em_event := "alert:new";
                                          em_payload := p |} ]
                         | None => []
                         end
                      ++ io_sent i |}.
Proof.
  intros Hrun Hok Hio.
  destruct (postAlert_created_world _ _ _ _ _ _ Hrun Hok)
    as (camera_id & timestamp & d2 & H1 & _ & Hemit).
  exists camera_id. split; [done|]. cbv zeta.
  unfold emit_alert, bind, ret in Hemit.
  change (io (set_db d2 w)) with (io w) in Hemit. rewrite Hio in Hemit.
  cbn [fst snd] in Hemit.
  assert (forall t e p w1 o w2,
            emit t e p w1 = (o, w2) -> o = Some tt ->
            forall j, io w1 = Some j ->
            w2 = {| db := db w1;
                    io := Some {| io_throws := io_throws j;
                                  io_sent := {| em_target := t; em_event := e;
                                                em_payload := p |} :: io_sent j |} |})
    as Hstep.
  { intros t e p w1 o w2 He -> j Hj. unfold emit in He. rewrite Hj in He.
    destruct (io_throws j _); [done|by injection He as <-]. }
  destruct (Js.nonempty (snd (resolved_tenant camera_id (db w)))) as [t|].
  - destruct (emit (to_room _) _ _ (set_db d2 w)) as [[[]|] w1] eqn:E1; [|done].
    apply (Hstep _ _ _ _ _ _) with (j := i) in E1; [|done|done]. subst w1.
    destruct (emit (to_room _) _ _ _) as [[[]|] w2] eqn:E2; [|done].
    eapply Hstep in E2; [|done|reflexivity]. subst w2.
    eapply Hstep in Hemit; [|done|reflexivity]. by subst w'.
  - destruct (emit (to_room _) _ _ (set_db d2 w)) as [[[]|] w1] eqn:E1; [|done].
    apply (Hstep _ _ _ _ _ _) with (j := i) in E1; [|done|done]. subst w1.
    eapply Hstep in Hemit; [|done|reflexivity]. by subst w'.
Qed.

(** ** What the handlers emit *)

Lemma string_length_append (s1 s2 : string) :
  String.length (s1 ++ s2) = (String.length s1 + String.length s2)%nat.
Proof. induction s1 as [|c s1 IH]; simpl; [done|by rewrite IH]. Qed.

Lemma string_length_substring_0 (m : nat) (s : string) :
  (String.length (String.substring 0 m s) <= m)%nat.
Proof.
  revert s. induction m as [|m IH]; intros [|c s]; simpl; try lia.
  specialize (IH s). lia.
Qed.

(** [updateAlert] runs statements only; the server is out of its reach. *)

Lemma bind_io {A B} (m : M A) (k : A -> M B) :
  keeps_io m -> (forall a, keeps_io (k a)) -> keeps_io (bind m k).
Proof.
  intros Hm Hk w. unfold bind. specialize (Hm w).
  destruct (m w) as [[a|] w1]; simpl in *; [|done]. by rewrite Hk.
Qed.

Lemma query_io {A} (q : Db -> option (A * Db)) : keeps_io (query q).
Proof. intros w. unfold query. by destruct (q (db w)) as [[a d]|]. Qed.

Lemma exec_io (q : Db -> option Db) : keeps_io (exec q).
Proof. intros w. unfold exec. by destruct (q (db w)). Qed.

Lemma select_io {A} (q : Db -> A) : keeps_io (select q).
Proof. done. Qed.

Lemma eval_io {A} (v : option A) : keeps_io (eval v).
Proof. done. Qed.

Lemma ret_io {A} (a : A) : keeps_io (ret a).
Proof. done. Qed.

Lemma handler_io (m : M Response) w : keeps_io m -> io (snd (handler m w)) = io w.
Proof.
  intros Hm. unfold handler. specialize (Hm w). by destruct (m w) as [[r|] w1].
Qed.

Lemma update_stats_for_io now id status : keeps_io (update_stats_for now id status).
Proof.
  unfold update_stats_for. destruct (_ || _); [|apply ret_io].
  apply bind_io; [apply select_io|]. intros [|row rows]; [apply ret_io|].
  apply bind_io; [apply eval_io|]. intros dateStr. apply exec_io.
Qed.

Lemma updateAlert_io now id body w : io (snd (updateAlert now id body w)) = io w.
Proof.
  unfold updateAlert.
  destruct (match Js.nonempty (u_status body) with
            | Some s => negb (Js.includes validStatuses s) | None => false end);
    [done|].
  apply handler_io. apply bind_io; [apply query_io|].
  intros [|row rows]; [apply ret_io|].
  apply bind_io; [apply update_stats_for_io|]. intros _. apply ret_io.
Qed.

Section Emitted.

(** A property [P] that the three kinds of emission of the handlers
    have. *)
Variable P : emission -> Prop.
Hypothesis P_detection : forall t c l ts o f,
  P {| em_target := t; em_event := "detection";
       em_payload := detection_payload c l ts o f |}.
Hypothesis P_alert : forall t id c l ty tr cl co bb de s ca,
  (forall s', s = Some s' -> (String.length s' <= 103)%nat) ->
  P {| em_target := t; em_event := "alert:new";
       em_payload := alert_payload id c l ty tr cl co bb de s ca |}.
Hypothesis P_count : forall t l,
  P {| em_target := t; em_event := "alert:count_update";
       em_payload := count_update_payload l |}.

Lemma emit_sent_all t e p w :
  P {| em_target := t; em_event := e; em_payload := p |} ->
  sent_all P w -> sent_all P (snd (emit t e p w)).
Proof.
  unfold sent_all, emit. intros Hp Hw.
  destruct (io w) as [i|] eqn:Hio; simpl; [|by rewrite Hio].
  destruct (io_throws i _); simpl; [by rewrite Hio|].
  constructor; done.
Qed.

Lemma bind_sent_all {A B} (m : M A) (k : A -> M B) w :
  sent_all P (snd (m w)) ->
  (forall a w1, sent_all P w1 -> sent_all P (snd (k a w1))) ->
  sent_all P (snd (bind m k w)).
Proof.
  unfold bind. intros Hm Hk. destruct (m w) as [[a|] w1]; simpl in *; auto.
Qed.

Lemma emit_alert_sent_all body alert camera_id locUuid tenantId w :
  sent_all P w ->
  sent_all P (snd (emit_alert body alert camera_id locUuid tenantId w)).
Proof.
  intros Hw. unfold emit_alert. destruct (io w) as [i|] eqn:Hio; [|done].
  assert (forall s',
            match Js.nonempty (a_snapshot_b64 body) with
            | Some s => Some (String.substring 0 100 s ++ "...")
            | None => None
            end = Some s' -> (String.length s' <= 103)%nat) as Hs.
  { destruct (Js.nonempty (a_snapshot_b64 body)) as [s0|]; [|done].
    intros s [= <-]. rewrite string_length_append. simpl.
    pose proof (string_length_substring_0 100 s0). lia. }
  apply bind_sent_all.
  - destruct (Js.nonempty tenantId); [apply emit_sent_all; auto|done].
  - intros _ w1 Hw1. apply bind_sent_all; [apply emit_sent_all; auto|].
    intros _ w2 Hw2. apply emit_sent_all; auto.
Qed.

Lemma emit_detection_sent_all camera_id locUuid timestamp detections fps w :
  sent_all P w ->
  sent_all P (snd (emit_detection camera_id locUuid timestamp detections fps w)).
Proof.
  intros Hw. unfold emit_detection. destruct (io w) as [i|] eqn:Hio; [|done].
  unfold try_catch.
  match goal with |- context [bind ?m ?k w] =>
    pose proof (bind_sent_all m k w) as Hb; destruct (bind m k w) as [[[]|] w1] end;
    simpl in *; apply Hb; try (apply emit_sent_all; auto);
    intros _ w2 Hw2; apply emit_sent_all; auto.
Qed.

Lemma postDetection_sent_all Date_parse timestamptz_in now body w :
  sent_all P w ->
  sent_all P (snd (postDetection Date_parse timestamptz_in now body w)).
Proof.
  intros Hw.
  destruct (Js.nonempty (d_camera_id body)) as [camera_id|] eqn:H1;
    [|unfold postDetection; by rewrite H1].
  destruct (Js.nonempty (d_location_id body)) as [l|] eqn:H2;
    [|unfold postDetection; by rewrite H1, H2].
  destruct (Js.nonempty (d_timestamp body)) as [timestamp|] eqn:H3;
    [|unfold postDetection; by rewrite H1, H2, H3].
  destruct (d_detections body) as [detections|] eqn:H4;
    [|unfold postDetection; by rewrite H1, H2, H3, H4].
  rewrite (postDetection_eq _ _ _ _ _ _ _ _ _ H1 H2 H3 H4).
  destruct (insert_cv_detection _ _ _ _ _ _ _ _ _ _) as [[id d1]|]; [|done].
  destruct (Js.toISOString_date _); [|done].
  destruct (upsert_daily_stats _ _ _ _ _ _); [|done].
  simpl. by apply emit_detection_sent_all.
Qed.

Lemma postAlert_sent_all Date_parse now body w :
  sent_all P w -> sent_all P (snd (postAlert Date_parse now body w)).
Proof.
  intros Hw.
  destruct (Js.nonempty (a_camera_id body)) as [camera_id|] eqn:H1;
    [|unfold postAlert; by rewrite H1].
  destruct (Js.nonempty (a_location_id body)) as [l|] eqn:H2;
    [|unfold postAlert; by rewrite H1, H2].
  destruct (Js.nonempty (a_timestamp body)) as [timestamp|] eqn:H3;
    [|unfold postAlert; by rewrite H1, H2, H3].
  rewrite (postAlert_eq _ _ _ _ _ _ _ H1 H2 H3). cbv zeta.
  destruct (insert_alert _ _ _ _ _ _ _ _ _ _ _) as [[alert d1]|]; [|done].
  destruct (Js.toISOString_date _); [|done].
  destruct (upsert_daily_stats _ _ _ _ _ _) as [d2|]; [|done].
  match goal with |- context [emit_alert ?b ?a ?c ?l ?t ?w0] =>
    pose proof (emit_alert_sent_all b a c l t w0 Hw) as Hb;
    destruct (emit_alert b a c l t w0) as [[[]|] w2] end; done.
Qed.

Lemma updateAlert_sent_all now id body w :
  sent_all P w -> sent_all P (snd (updateAlert now id body w)).
Proof. unfold sent_all. by rewrite updateAlert_io. Qed.

Lemma serve_sent_all Date_parse timestamptz_in rs w :
  sent_all P w -> sent_all P (serve Date_parse timestamptz_in rs w).
Proof.
  revert w. induction rs as [|[now r] rs IH]; intros w Hw; [done|].
  simpl. apply IH. destruct r as [body|body|id body|].
  - by apply postDetection_sent_all.
  - by apply postAlert_sent_all.
  - by apply updateAlert_sent_all.
  - done.
Qed.

End Emitted.

(** X9. Whatever the size of a snapshot and however a request ends, no
    emission of [postDetection], [postAlert] or [updateAlert] carries
    more than 103 characters of it: the bound holds after each handler
    when it held before. *)
Theorem handlers_keep_snapshots_bounded Date_parse timestamptz_in now w :
  snapshots_bounded w ->
  (forall body,
     snapshots_bounded (snd (postDetection Date_parse timestamptz_in now body w))) /\
  (forall body, snapshots_bounded (snd (postAlert Date_parse now body w))) /\
  (forall id body, snapshots_bounded (snd (updateAlert now id body w))).
Proof.
  assert (forall t c l ts o f,
    snapshot_bounded {| em_target := t; em_event := "detection";
                        em_payload := detection_payload c l ts o f |}) as Hd
    by (intros; intros s; discriminate).
  assert (forall t id c l ty tr cl co bb de s ca,
    (forall s', s = Some s' -> (String.length s' <= 103)%nat) ->
    snapshot_bounded {| em_target := t; em_event := "alert:new";
       em_payload := alert_payload id c l ty tr cl co bb de s ca |}) as Ha
    by (intros; intros s'; simpl; auto).
  assert (forall t l,
    snapshot_bounded {| em_target := t; em_event := "alert:count_update";
                        em_payload := count_update_payload l |}) as Hc
    by (intros; intros s; discriminate).
  intros Hw. split; [|split]; intros.
  - by apply postDetection_sent_all.
  - by apply postAlert_sent_all.
  - by apply updateAlert_sent_all.
Qed.

(** ** More of the alert lifecycle *)

(** [updateAlert] on an alert that exists, once the status has passed
    the check of line 313. *)
Lemma updateAlert_run now id body w a :
  match Js.nonempty (u_status body) with
  | Some s => Js.includes validStatuses s = true
  | None => True
  end ->
  alerts (db w) !! id = Some a ->
  updateAlert now id body w
  = let status := Js.nonempty (u_status body) in
    let a' :=
      set_review
        (default (al_status a) status)
        (match Js.nonempty (u_reviewed_by body) with
         | Some u => Some u
         | None => al_reviewed_by a
         end)
        (match status with
         | Some s => if Js.includes ["reviewed"; "dismissed"; "resolved"] s
                     then Some now else al_reviewed_at a
         | None => al_reviewed_at a
         end) a in
    let d1 := set_alerts (<[id := a']> (alerts (db w))) (db w) in
    let row := (id, al_status a', al_reviewed_at a') in
    if match Js.nonempty (u_reviewed_by body) with
       | Some u => user_exists u (db w)
       | None => true
       end
    then
      if bool_decide (status = Some "reviewed") || bool_decide (status = Some "resolved")
      then
        match Js.toISOString_date (Some (al_created_at a)) with
        | Some date =>
            match update_daily_stats now
                    (if bool_decide (status = Some "resolved")
                     then f_alerts_confirmed else f_alerts_reviewed)
                    (al_location_id a) date d1 with
            | Some d2 => (respond 200 (row_body row), set_db d2 w)
            | None => (internal_error, set_db d1 w)
            end
        | None => (internal_error, set_db d1 w)
        end
      else (respond 200 (row_body row), set_db d1 w)
    else (internal_error, w).
Proof.
  intros Hs Ha. cbv zeta. unfold updateAlert.
  destruct (Js.nonempty (u_status body)) as [s|] eqn:Hst.
  - rewrite Hs. cbn [negb]. unfold handler, bind, query, update_alert_row.
    rewrite Ha.
    destruct (match Js.nonempty (u_reviewed_by body) with
              | Some u => user_exists u (db w) | None => true end); [|done].
    cbn [fst snd]. unfold update_stats_for, bind, select, select_alert_key, eval, exec, ret.
    destruct (_ || _); [|done].
    cbn [db set_db alerts set_alerts]. rewrite lookup_insert_eq.
    cbn [fst snd al_location_id al_created_at set_review].
    destruct (Js.toISOString_date _) as [date|]; [|done].
    by destruct (update_daily_stats _ _ _ _ _).
  - unfold handler, bind, query, update_alert_row. rewrite Ha.
    destruct (match Js.nonempty (u_reviewed_by body) with
              | Some u => user_exists u (db w) | None => true end); [|done].
    done.
Qed.

Lemma updateAlert_no_row now id body w :
  alerts (db w) !! id = None ->
  match Js.nonempty (u_status body) with
  | Some s => Js.includes validStatuses s = true
  | None => True
  end ->
  updateAlert now id body w = (respond 404 (error_body "Alert not found"), w).
Proof.
  intros Ha Hs. unfold updateAlert.
  destruct (Js.nonempty (u_status body)) as [s|].
  - rewrite Hs. cbn [negb]. unfold handler, bind, query, update_alert_row, ret.
    rewrite Ha. by destruct w.
  - unfold handler, bind, query, update_alert_row, ret. rewrite Ha. by destruct w.
Qed.

(** X10. With a status that passes the check (one of the four, an empty
    one or none) and a [reviewed_by] that is absent, empty or a uuid as
    the store writes it, [updateAlert] answers 404 exactly when no alert
    carries the id, and then it changes nothing. (A [reviewed_by] that is
    no uuid makes the statement fail before any row is looked for; the
    id of the request is a well-formed one, as every [N] is.) *)
Theorem updateAlert_404_iff_unknown_id now id body w :
  match Js.nonempty (u_status body) with
  | Some s => Js.includes validStatuses s = true
  | None => True
  end ->
  match Js.nonempty (u_reviewed_by body) with
  | Some u => is_uuid_text u = true
  | None => True
  end ->
  (res_status (fst (updateAlert now id body w)) = 404 <-> alerts (db w) !! id = None) /\
  (alerts (db w) !! id = None ->
   updateAlert now id body w = (respond 404 (error_body "Alert not found"), w)).
Proof.
  intros Hs _. destruct (alerts (db w) !! id) as [a|] eqn:Ha.
  - split; [|done]. split; [|done].
    rewrite (updateAlert_run _ _ _ _ _ Hs Ha). cbv zeta.
    destruct (match Js.nonempty (u_reviewed_by body) with
              | Some u => user_exists u (db w) | None => true end); [|done].
    destruct (_ || _); [|done].
    destruct (Js.toISOString_date _) as [date|]; [|done].
    by destruct (update_daily_stats _ _ _ _ _).
  - rewrite (updateAlert_no_row _ _ _ _ Ha Hs). done.
Qed.

(** X11. Only [reviewed] and [resolved] reach the daily counters: with
    any other status ([dismissed], [open], none, an empty or an unknown
    one) [updateAlert] leaves [daily_stats] as it is, whatever it
    answers. *)
Theorem updateAlert_other_status_keeps_counters now id body w :
  Js.nonempty (u_status body) <> Some "reviewed" ->
  Js.nonempty (u_status body) <> Some "resolved" ->
  daily_stats (db (snd (updateAlert now id body w))) = daily_stats (db w).
Proof.
  intros Hrev Hres. unfold updateAlert.
  destruct (match Js.nonempty (u_status body) with
            | Some s => negb (Js.includes validStatuses s) | None => false end);
    [done|].
  unfold handler, bind, query, update_alert_row.
  destruct (alerts (db w) !! id) as [a|]; [|done].
  destruct (match Js.nonempty (u_reviewed_by body) with
            | Some u => user_exists u (db w) | None => true end); [|done].
  cbn [fst snd]. unfold update_stats_for.
  rewrite !bool_decide_eq_false_2 by done. done.
Qed.

(** X12. A successful [updateAlert] rewrites three columns of the alert
    and nothing else of it: the status when one is given, the reviewer
    when one is given, and the review time, set to now exactly when the
    given status is [reviewed], [dismissed] or [resolved] ([open] or no
    status keep the old one). The answer carries the id, the new status
    and the new review time. *)
Theorem updateAlert_rewrites_review_columns now id body w r w' :
  updateAlert now id body w = (r, w') ->
  res_status r = 200 ->
  exists a a',
    alerts (db w) !! id = Some a /\
    alerts (db w') !! id = Some a' /\
    r = respond 200 (row_body (id, al_status a', al_reviewed_at a')) /\
    al_status a' = default (al_status a) (Js.nonempty (u_status body)) /\
    al_reviewed_by a'
      = match Js.nonempty (u_reviewed_by body) with
        | Some u => Some u
        | None => al_reviewed_by a
        end /\
    al_reviewed_at a'
      = match Js.nonempty (u_status body) with
        | Some s => if bool_decide (s = "open") then al_reviewed_at a else Some now
        | None => al_reviewed_at a
        end /\
    set_review (al_status a) (al_reviewed_by a) (al_reviewed_at a) a' = a.
Proof.
  intros Hrun Hok.
  assert (match Js.nonempty (u_status body) with
          | Some s => Js.includes validStatuses s = true
          | None => True
          end) as Hs.
  { unfold updateAlert in Hrun.
    destruct (Js.nonempty (u_status body)) as [s|]; [|done].
    destruct (Js.includes validStatuses s); [done|].
    injection Hrun as <- _. discriminate. }
  destruct (alerts (db w) !! id) as [a|] eqn:Ha;
    [|rewrite (updateAlert_no_row _ _ _ _ Ha Hs) in Hrun;
      injection Hrun as <- _; discriminate].
  rewrite (updateAlert_run _ _ _ _ _ Hs Ha) in Hrun. cbv zeta in Hrun.
  destruct (match Js.nonempty (u_reviewed_by body) with
            | Some u => user_exists u (db w) | None => true end);
    [|not_created Hrun].
  set (a' := set_review _ _ _ a) in Hrun.
  assert (alerts (db w') !! id = Some a'
          /\ r = respond 200 (row_body (id, al_status a', al_reviewed_at a')))
    as [Ha' ->].
  { destruct (_ || _).
    - destruct (Js.toISOString_date _) as [date|]; [|not_created Hrun].
      destruct (update_daily_stats _ _ _ _ _) as [d2|] eqn:Hup; [|not_created Hrun].
      injection Hrun as <- <-. split; [|done].
      unfold update_daily_stats in Hup. cbn [daily_stats set_alerts] in Hup.
      destruct (daily_stats (db w) !! _) as [row|].
      + destruct (int4 _); [|done]. injection Hup as <-. simpl.
        apply lookup_insert_eq.
      + injection Hup as <-. simpl. apply lookup_insert_eq.
    - injection Hrun as <- <-. split; [|done]. simpl. apply lookup_insert_eq. }
  exists a, a'. repeat (split; [done|]). subst a'.
  split; [|by destruct a].
  cbn [al_reviewed_at set_review].
  destruct (Js.nonempty (u_status body)) as [s|]; [|done].
  unfold validStatuses, Js.includes in *. simpl in *.
  destruct (String.eqb_spec s "reviewed") as [->|]; [done|].
  destruct (String.eqb_spec s "dismissed") as [->|]; [done|].
  destruct (String.eqb_spec s "resolved") as [->|]; [done|].
  destruct (String.eqb_spec s "open") as [->|]; [done|].
  simpl in Hs. discriminate.
Qed.

Lemma same_but_alert_refl id d : same_but_alert id d d.
Proof. by repeat split. Qed.

Lemma same_but_alert_set id a d :
  same_but_alert id d (set_alerts (<[id := a]> (alerts d)) d).
Proof.
  repeat split; try done. intros id' Hne. simpl. by rewrite lookup_insert_ne.
Qed.

Lemma same_but_alert_stats id now f loc date d1 d2 d :
  same_but_alert id d d1 ->
  update_daily_stats now f loc date d1 = Some d2 ->
  same_but_alert id d d2.
Proof.
  unfold update_daily_stats. intros Hd Hup.
  destruct (daily_stats d1 !! (loc, date)) as [row|]; [|by injection Hup as <-].
  destruct (int4 _); [|done]. by injection Hup as <-.
Qed.

(** X13. [updateAlert] emits nothing and reaches no row but its own:
    however it ends, the server, the cameras, locations, users and
    detections, the id counter and every other alert are as before. *)
Theorem updateAlert_touches_one_alert now id body w :
  io (snd (updateAlert now id body w)) = io w /\
  same_but_alert id (db w) (db (snd (updateAlert now id body w))).
Proof.
  split; [apply updateAlert_io|].
  destruct (match Js.nonempty (u_status body) with
            | Some s => negb (Js.includes validStatuses s) | None => false end) eqn:Hs.
  { unfold updateAlert. rewrite Hs. apply same_but_alert_refl. }
  assert (match Js.nonempty (u_status body) with
          | Some s => Js.includes validStatuses s = true
          | None => True
          end) as Hs'.
  { destruct (Js.nonempty (u_status body)); [|done]. by apply negb_false_iff. }
  destruct (alerts (db w) !! id) as [a|] eqn:Ha;
    [|rewrite (updateAlert_no_row _ _ _ _ Ha Hs');
      apply same_but_alert_refl].
  rewrite (updateAlert_run _ _ _ _ _ Hs' Ha). cbv zeta.
  destruct (match Js.nonempty (u_reviewed_by body) with
            | Some u => user_exists u (db w) | None => true end);
    [|apply same_but_alert_refl].
  destruct (_ || _); [|apply same_but_alert_set].
  destruct (Js.toISOString_date _) as [date|]; [|apply same_but_alert_set].
  destruct (update_daily_stats _ _ _ _ _) as [d2|] eqn:Hup; [|apply same_but_alert_set].
  simpl. eapply same_but_alert_stats; [apply same_but_alert_set|exact Hup].
Qed.

(** X14. A [reviewed_by] that is a uuid, written as the store writes
    it, and the id of none of [users] makes the statement on an existing
    alert fail on its foreign key: [updateAlert] answers 500 and the
    alert keeps its status, reviewer and review time. *)
Theorem updateAlert_unknown_reviewer_changes_nothing now id body w a u :
  alerts (db w) !! id = Some a ->
  match Js.nonempty (u_status body) with
  | Some s => Js.includes validStatuses s = true
  | None => True
  end ->
  Js.nonempty (u_reviewed_by body) = Some u ->
  is_uuid_text u = true ->
  user_exists u (db w) = false ->
  updateAlert now id body w = (internal_error, w).
Proof.
  intros Ha Hs Hu _ Hex. rewrite (updateAlert_run _ _ _ _ _ Hs Ha). cbv zeta.
  by rewrite Hu, Hex.
Qed.

(** ** Records that are already there *)

(** X15. Ingestion only appends: [postDetection] and [postAlert] leave
    the cameras, locations and users as they are, and every detection and
    alert stored under another id than the next one to be generated is
    unchanged, however the request ends. *)
Theorem ingestion_only_appends Date_parse timestamptz_in now w :
  (forall body,
     let d' := db (snd (postDetection Date_parse timestamptz_in now body w)) in
     locations d' = locations (db w) /\ cameras d' = cameras (db w) /\
     users d' = users (db w) /\ alerts d' = alerts (db w) /\
     forall id, id <> next_id (db w) ->
                cv_detections d' !! id = cv_detections (db w) !! id) /\
  (forall body,
     let d' := db (snd (postAlert Date_parse now body w)) in
     locations d' = locations (db w) /\ cameras d' = cameras (db w) /\
     users d' = users (db w) /\ cv_detections d' = cv_detections (db w) /\
     forall id, id <> next_id (db w) -> alerts d' !! id = alerts (db w) !! id).
Proof.
  split; intros body; cbv zeta.
  - destruct (Js.nonempty (d_camera_id body)) as [camera_id|] eqn:H1;
      [|unfold postDetection; by rewrite H1].
    destruct (Js.nonempty (d_location_id body)) as [l|] eqn:H2;
      [|unfold postDetection; by rewrite H1, H2].
    destruct (Js.nonempty (d_timestamp body)) as [timestamp|] eqn:H3;
      [|unfold postDetection; by rewrite H1, H2, H3].
    destruct (d_detections body) as [detections|] eqn:H4;
      [|unfold postDetection; by rewrite H1, H2, H3, H4].
    rewrite (postDetection_eq _ _ _ _ _ _ _ _ _ H1 H2 H3 H4).
    destruct (insert_cv_detection _ _ _ _ _ _ _ _ _ _) as [[id0 d1]|] eqn:Hins;
      [|done].
    apply insert_cv_detection_Some in Hins as (-> & _ & row & ->).
    destruct (Js.toISOString_date _) as [dateStr|];
      [|simpl; repeat (split; [done|]); intros id Hid; by rewrite lookup_insert_ne].
    destruct (upsert_daily_stats _ _ _ _ _ _) as [d2|] eqn:Hup;
      [|simpl; repeat (split; [done|]); intros id Hid; by rewrite lookup_insert_ne].
    match goal with |- context [emit_detection ?a ?b ?c ?d ?e ?w0] =>
      destruct (emit_detection_ok a b c d e w0) as (w2 & -> & Hdb) end.
    apply upsert_daily_stats_eq in Hup. subst d2. simpl. rewrite Hdb. simpl.
    repeat (split; [done|]). intros id Hid. by rewrite lookup_insert_ne.
  - destruct (Js.nonempty (a_camera_id body)) as [camera_id|] eqn:H1;
      [|unfold postAlert; by rewrite H1].
    destruct (Js.nonempty (a_location_id body)) as [l|] eqn:H2;
      [|unfold postAlert; by rewrite H1, H2].
    destruct (Js.nonempty (a_timestamp body)) as [timestamp|] eqn:H3;
      [|unfold postAlert; by rewrite H1, H2, H3].
    rewrite (postAlert_eq _ _ _ _ _ _ _ H1 H2 H3). cbv zeta.
    destruct (insert_alert _ _ _ _ _ _ _ _ _ _ _) as [[alert d1]|] eqn:Hins;
      [|done].
    apply insert_alert_Some in Hins as (-> & _ & row & ->).
    destruct (Js.toISOString_date _) as [dateStr|];
      [|simpl; repeat (split; [done|]); intros id Hid; by rewrite lookup_insert_ne].
    destruct (upsert_daily_stats _ _ _ _ _ _) as [d2|] eqn:Hup;
      [|simpl; repeat (split; [done|]); intros id Hid; by rewrite lookup_insert_ne].
    destruct (emit_alert _ _ _ _ _ _) as [o w2] eqn:Hemit.
    apply emit_alert_db in Hemit.
    apply upsert_daily_stats_eq in Hup. subst d2.
    destruct o as [[]|]; simpl; rewrite Hemit; simpl;
      (repeat (split; [done|])); intros id Hid; by rewrite lookup_insert_ne.
Qed.

(** ** The keys of [CV_API_KEYS] *)

Lemma split_without_sep sep s : has_char sep s = false -> Js.split sep s = [s].
Proof.
  induction s as [|c r IH]; simpl; [done|].
  intros [Hc Hr]%orb_false_iff. rewrite Hc, (IH Hr). done.
Qed.

Lemma split_app_sep sep s1 s2 :
  has_char sep s1 = false ->
  Js.split sep (s1 ++ String sep s2) = s1 :: Js.split sep s2.
Proof.
  induction s1 as [|c r IH]; simpl.
  - intros _. by rewrite Ascii.eqb_refl.
  - intros [Hc Hr]%orb_false_iff. by rewrite Hc, (IH Hr).
Qed.

(** Joining with commas and splitting on commas gives the entries back. *)
Lemma split_concat (es : list string) :
  es <> [] ->
  Forall (fun e => has_char "," e = false) es ->
  Js.split "," (String.concat "," es) = es.
Proof.
  intros Hne Hes. induction Hes as [|e es He Hes IH]; [done|].
  destruct es as [|e' es'].
  - simpl. by apply split_without_sep.
  - change (String.concat "," (e :: e' :: es'))
      with (e ++ String "," (String.concat "," (e' :: es'))).
    rewrite (split_app_sep _ _ _ He). by rewrite IH.
Qed.

Lemma split_pieces_without_sep sep s :
  Forall (fun e => has_char sep e = false) (Js.split sep s).
Proof.
  induction s as [|c r IH]; simpl; [by repeat constructor|].
  destruct (Ascii.eqb c sep) eqn:Hc; [by constructor|].
  destruct (Js.split sep r) as [|h t]; [by repeat constructor; simpl; rewrite Hc|].
  apply Forall_cons in IH as [Hh Ht]. constructor; [|done]. simpl. by rewrite Hc.
Qed.

Lemma trimStart_shape s :
  Js.trimStart s = "" \/
  exists c r, Js.trimStart s = String c r /\ Js.is_space c = false.
Proof.
  induction s as [|c r IH]; simpl; [by left|].
  destruct (Js.is_space c) eqn:Hc; [done|]. right. eauto.
Qed.

Lemma trimEnd_cons c r :
  Js.is_space c = false -> Js.trimEnd (String c r) = String c (Js.trimEnd r).
Proof. simpl. intros ->. by destruct (Js.trimEnd r). Qed.

Lemma trimEnd_idem s : Js.trimEnd (Js.trimEnd s) = Js.trimEnd s.
Proof.
  induction s as [|c r IH]; [done|]. simpl.
  destruct (Js.trimEnd r) as [|c' r'] eqn:Hr.
  - destruct (Js.is_space c) eqn:Hc; [done|]. simpl. by rewrite Hc.
  - change (Js.trimEnd (String c (String c' r'))) with
      (match Js.trimEnd (String c' r') with
       | EmptyString => if Js.is_space c then EmptyString else String c EmptyString
       | r0 => String c r0
       end).
    by rewrite IH.
Qed.

Lemma trim_idem s : Js.trim (Js.trim s) = Js.trim s.
Proof.
  unfold Js.trim. destruct (trimStart_shape s) as [-> | (c & r & -> & Hc)]; [done|].
  rewrite (trimEnd_cons _ _ Hc). simpl. rewrite Hc.
  rewrite (trimEnd_cons _ _ Hc). by rewrite trimEnd_idem.
Qed.

Lemma has_char_trimStart c s : has_char c (Js.trimStart s) = true -> has_char c s = true.
Proof.
  induction s as [|c' r IH]; simpl; [done|].
  destruct (Js.is_space c'); [|done]. intros H. rewrite (IH H). apply orb_true_r.
Qed.

Lemma has_char_trimEnd c s : has_char c (Js.trimEnd s) = true -> has_char c s = true.
Proof.
  induction s as [|c' r IH]; simpl; [done|].
  destruct (Js.trimEnd r) as [|c'' r'] eqn:Hr.
  - destruct (Js.is_space c'); simpl; [done|]. rewrite orb_false_r. by intros ->.
  - simpl. intros [->|H]%orb_true_iff; [done|]. rewrite IH; [apply orb_true_r|done].
Qed.

Lemma has_char_trim c s : has_char c s = false -> has_char c (Js.trim s) = false.
Proof.
  intros Hs. destruct (has_char c (Js.trim s)) eqn:Ht; [|done].
  apply has_char_trimEnd, has_char_trimStart in Ht. congruence.
Qed.

Lemma includes_In xs x : Js.includes xs x = true <-> In x xs.
Proof.
  unfold Js.includes. rewrite existsb_exists. split.
  - intros (y & Hy & Heq). apply String.eqb_eq in Heq. by subst.
  - intros Hx. exists x. split; [done|apply String.eqb_refl].
Qed.

Lemma In_filterBoolean xs x : In x (Js.filterBoolean xs) <-> In x xs /\ x <> "".
Proof.
  unfold Js.filterBoolean. rewrite filter_In, negb_true_iff, String.eqb_neq. done.
Qed.

Lemma apiKeyAuth_next trim env header :
  apiKeyAuth trim env header = next <->
  exists k, Js.nonempty header = Some k /\ In k (validKeys trim env).
Proof.
  unfold apiKeyAuth. destruct (Js.nonempty header) as [k|]; [|split; [done|by intros (k & ? & _)]].
  destruct (validKeys trim env) as [|k0 ks] eqn:Hkeys; cbn [length Nat.eqb].
  { split; [done|]. by intros (k' & _ & []). }
  destruct (Js.includes (k0 :: ks) k) eqn:Hin; cbn [negb].
  - split; [|done]. intros _. exists k. split; [done|]. by apply includes_In.
  - split; [done|]. intros (k' & [= <-] & Hk). apply includes_In in Hk. congruence.
Qed.

(** X16. With [CV_API_KEYS] made of entries joined by commas, a request
    reaches its handler exactly when its [X-API-Key] is non-empty and
    equals one of the entries trimmed, whatever white space [trim]
    strips; and then the route is the handler. *)
Theorem apiKeyAuth_accepts_listed_keys (trim : string -> string)
    (es : list string) (header : option string) :
  es <> [] ->
  Forall (fun e => has_char "," e = false) es ->
  (apiKeyAuth trim (Some (String.concat "," es)) header = next <->
   exists k e, header = Some k /\ k <> "" /\ In e es /\ trim e = k) /\
  (apiKeyAuth trim (Some (String.concat "," es)) header = next ->
   forall h w, with_apiKeyAuth trim (Some (String.concat "," es)) header h w = h w).
Proof.
  intros Hne Hes.
  assert (validKeys trim (Some (String.concat "," es))
          = Js.filterBoolean (map trim es))
    as Hkeys.
  { unfold validKeys. replace (default "" (Js.nonempty (Some (String.concat "," es))))
      with (String.concat "," es).
    - by rewrite split_concat.
    - unfold Js.nonempty. destruct (String.eqb_spec (String.concat "," es) ""); [|done].
      simpl. congruence. }
  split.
  - rewrite apiKeyAuth_next, Hkeys. split.
    + intros (k & Hk & Hin). apply In_filterBoolean in Hin as [Hin Hk0].
      apply in_map_iff in Hin as (e & He & Hin). exists k, e.
      unfold Js.nonempty in Hk. destruct header as [s|]; [|done].
      destruct (String.eqb s ""); [done|]. by injection Hk as ->.
    + intros (k & e & -> & Hk & Hin & He). exists k. split.
      * unfold Js.nonempty. by apply String.eqb_neq in Hk as ->.
      * apply In_filterBoolean. split; [|done]. apply in_map_iff. eauto.
  - intros Hnext h w. unfold with_apiKeyAuth. by rewrite Hnext.
Qed.

(** X17. Whatever [CV_API_KEYS] holds, a credential that is let through
    is non-empty, has no comma, and neither starts nor ends with white
    space: no other [X-API-Key] can ever be accepted. This holds for
    every [trim] that leaves none of the white space of [Js.trim] at the
    ends and brings in no comma, as [String.prototype.trim] and [Js.trim]
    itself do. *)
Theorem apiKeyAuth_accepted_key_shape (trim : string -> string)
    (env header : option string) :
  (forall s, Js.trim (trim s) = trim s) ->
  (forall s, has_char "," s = false -> has_char "," (trim s) = false) ->
  apiKeyAuth trim env header = next ->
  exists k,
    header = Some k /\ k <> "" /\ has_char "," k = false /\ Js.trim k = k.
Proof.
  intros Htrim Hcomma (k & Hk & Hin)%apiKeyAuth_next. exists k.
  assert (header = Some k /\ k <> "") as [-> Hne].
  { unfold Js.nonempty in Hk. destruct header as [s|]; [|done].
    destruct (String.eqb_spec s ""); [done|]. by injection Hk as ->. }
  repeat (split; [done|]).
  unfold validKeys in Hin. apply In_filterBoolean in Hin as [Hin _].
  apply in_map_iff in Hin as (e & <- & Hin).
  split; [|apply Htrim].
  apply Hcomma.
  pose proof (split_pieces_without_sep "," (default "" (Js.nonempty env))) as Hall.
  rewrite Forall_forall in Hall. apply Hall. by apply list_elem_of_In.
Qed.

(** ** The listing of alerts *)

#[global] Instance newest_first_total : Total newest_first.
Proof. intros x y. unfold newest_first. lia. Qed.

#[global] Instance newest_first_trans : Transitive newest_first.
Proof. intros x y z. unfold newest_first. lia. Qed.

Section ListingFacts.

Context (parseInt : string -> option Z) (uuid_in : string -> option Uuid)
  (timestamptz_in : string -> option Z).

(** A parameter that the store has read. *)
Lemma time_bound_Some x r :
  time_bound timestamptz_in x = Some r ->
  r = (Js.nonempty x ≫= timestamptz_in) /\
  forall s, Js.nonempty x = Some s -> exists t, timestamptz_in s = Some t /\ r = Some t.
Proof.
  unfold time_bound. destruct (Js.nonempty x) as [s|]; simpl.
  - destruct (timestamptz_in s) as [t|] eqn:Ht; simpl; [|done]. intros [= <-].
    split; [done|]. intros s' [= <-]. exists t. done.
  - intros [= <-]. done.
Qed.

Lemma uuid_param_Some x r :
  uuid_param uuid_in x = Some r ->
  r = (Js.nonempty x ≫= uuid_in) /\
  forall s, Js.nonempty x = Some s -> exists u, uuid_in s = Some u /\ r = Some u.
Proof.
  unfold uuid_param. destruct (Js.nonempty x) as [s|]; simpl.
  - destruct (uuid_in s) as [t|] eqn:Ht; simpl; [|done]. intros [= <-].
    split; [done|]. intros s' [= <-]. exists t. done.
  - intros [= <-]. done.
Qed.



Lemma where_clause_Some q cond :
  where_clause uuid_in timestamptz_in q = Some cond ->
  cond = conditions (Js.nonempty (q_location_id q) ≫= uuid_in)
           (Js.nonempty (q_status q)) (Js.nonempty (q_type q))
           (Js.nonempty (q_from q) ≫= timestamptz_in)
           (Js.nonempty (q_to q) ≫= timestamptz_in) /\
  (forall s, Js.nonempty (q_location_id q) = Some s -> is_Some (uuid_in s)) /\
  (forall s, Js.nonempty (q_from q) = Some s -> is_Some (timestamptz_in s)) /\
  (forall s, Js.nonempty (q_to q) = Some s -> is_Some (timestamptz_in s)).
Proof.
  unfold where_clause.
  destruct (uuid_param uuid_in (q_location_id q)) as [loc|] eqn:H1; [|done].
  destruct (time_bound timestamptz_in (q_from q)) as [from|] eqn:H2; [|done].
  destruct (time_bound timestamptz_in (q_to q)) as [to|] eqn:H3; [|done].
  intros [= <-].
  apply uuid_param_Some in H1 as [-> H1].
  apply time_bound_Some in H2 as [-> H2]. apply time_bound_Some in H3 as [-> H3].
  repeat split; try done.
  - intros s Hs. destruct (H1 s Hs) as (u & -> & _). eauto.
  - intros s Hs. destruct (H2 s Hs) as (u & -> & _). eauto.
  - intros s Hs. destruct (H3 s Hs) as (u & -> & _). eauto.
Qed.


Lemma where_clause_same q1 q2 :
  same_filters q1 q2 -> where_clause uuid_in timestamptz_in q1 = where_clause uuid_in timestamptz_in q2.
Proof.
  intros (E1 & E2 & E3 & E4 & E5). unfold where_clause.
  by rewrite E1, E2, E3, E4, E5.
Qed.

(** The answer 200 of [getAlerts], spelled out. *)
Lemma getAlerts_ok q w r w' :
  getAlerts parseInt uuid_in timestamptz_in q w = (r, w') ->
  ares_status r = 200 ->
  exists cond l o,
    where_clause uuid_in timestamptz_in q = Some cond /\
    parsed parseInt (q_limit q) 50 = Some l /\
    parsed parseInt (q_offset q) 0 = Some o /\
    0 <= l /\ 0 <= o <= int8_max /\
    w' = w /\
    r = {| ares_status := 200;
           ares_json :=
             alerts_page
               (take (Z.to_nat (Z.min 100 l))
                  (drop (Z.to_nat o)
                     (map (listed (db w))
                        (merge_sort newest_first (matching cond (db w))))))
               (Z.of_nat (length (matching cond (db w)))) l o |}.
Proof.
  unfold getAlerts, bind, read, ret, throw, count_alerts, select_alerts.
  destruct (where_clause uuid_in timestamptz_in q) as [cond|]; [|intros [= <- _]; done].
  destruct (parsed parseInt (q_limit q) 50) as [l|]; [|intros [= <- _]; done].
  destruct (parsed parseInt (q_offset q) 0) as [o|]; [|intros [= <- _]; done].
  cbn [fmap option_fmap option_map].
  destruct (_ && _) eqn:Hrange; [|intros [= <- _]; done].
  intros [= <- <-] _. exists cond, l, o.
  apply andb_prop in Hrange as [Hrange Ho2]. apply andb_prop in Hrange as [Hrange Ho1].
  apply andb_prop in Hrange as [Hl1 Hl2].
  repeat split; try done; lia.
Qed.

Lemma In_matching cond d id a :
  In (id, a) (matching cond d) <-> alerts d !! id = Some a /\ cond a = true.
Proof.
  unfold matching. rewrite filter_In, <- list_elem_of_In, elem_of_map_to_list. done.
Qed.

Lemma length_sorted cond d :
  length (merge_sort newest_first (matching cond d)) = length (matching cond d).
Proof. apply Permutation_length, merge_sort_Permutation. Qed.

Lemma length_listing (d : Db) cond l o :
  0 <= l -> 0 <= o ->
  Z.of_nat (length (take (Z.to_nat (Z.min 100 l))
                      (drop (Z.to_nat o)
                         (map (listed d) (merge_sort newest_first (matching cond d))))))
  = Z.min (Z.min l 100) (Z.max 0 (Z.of_nat (length (matching cond d)) - o)).
Proof.
  intros Hl Ho. rewrite length_take, length_drop, length_map, length_sorted. lia.
Qed.

(** X18. A listing has exactly min(limit, 100, total - offset) rows (none
    when the offset is past the total): never more than 100, while the
    [limit] of the answer is the requested one, capped or not. The
    request changes nothing. *)
Theorem getAlerts_page_size q w rows total limit offset w' :
  getAlerts parseInt uuid_in timestamptz_in q w
  = ({| ares_status := 200; ares_json := alerts_page rows total limit offset |}, w') ->
  parsed parseInt (q_limit q) 50 = Some limit /\
  parsed parseInt (q_offset q) 0 = Some offset /\
  Z.of_nat (length rows) = Z.min (Z.min limit 100) (Z.max 0 (total - offset)) /\
  w' = w.
Proof.
  intros Hrun.
  destruct (getAlerts_ok _ _ _ _ Hrun eq_refl)
    as (cond & l & o & _ & Hl & Ho & Hl0 & Ho0 & -> & [= -> -> -> ->]).
  repeat (split; [done|]). split; [|done]. apply length_listing; lia.
Qed.

Lemma In_listing (d : Db) cond n o row :
  In row (take n (drop o (map (listed d) (merge_sort newest_first (matching cond d))))) ->
  exists a, alerts d !! li_id row = Some a /\ cond a = true /\
            row = listed d (li_id row, a).
Proof.
  intros Hin.
  assert (In row (map (listed d) (merge_sort newest_first (matching cond d)))) as Hin'.
  { apply list_elem_of_In. apply list_elem_of_In in Hin.
    eapply elem_of_sublist; [exact Hin|].
    etrans; [apply sublist_take|apply sublist_drop]. }
  apply in_map_iff in Hin' as ([id a] & <- & Hx).
  apply list_elem_of_In in Hx. rewrite merge_sort_Permutation in Hx.
  apply list_elem_of_In, In_matching in Hx as [Ha Hc]. exists a. done.
Qed.

(** X19. Every row of a listing is a stored alert, shown with its own
    columns, that satisfies each filter of the request: the location,
    status and type that are given (an empty one is no filter), and the
    bounds [from] and [to] on its creation time; no alert is listed
    twice. *)
Theorem getAlerts_rows_satisfy_filters q w rows total limit offset w' :
  getAlerts parseInt uuid_in timestamptz_in q w
  = ({| ares_status := 200; ares_json := alerts_page rows total limit offset |}, w') ->
  NoDup (map li_id rows) /\
  forall row, In row rows ->
    exists a,
      alerts (db w) !! li_id row = Some a /\
      row = listed (db w) (li_id row, a) /\
      (forall l, Js.nonempty (q_location_id q) = Some l ->
         uuid_in l = Some (al_location_id a)) /\
      (forall s, Js.nonempty (q_status q) = Some s -> al_status a = s) /\
      (forall t, Js.nonempty (q_type q) = Some t -> al_type a = t) /\
      (forall s, Js.nonempty (q_from q) = Some s ->
         exists t, timestamptz_in s = Some t /\ t <= al_created_at a) /\
      (forall s, Js.nonempty (q_to q) = Some s ->
         exists t, timestamptz_in s = Some t /\ al_created_at a <= t).
Proof.
  intros Hrun.
  destruct (getAlerts_ok _ _ _ _ Hrun eq_refl)
    as (cond & l & o & Hcond & _ & _ & _ & _ & -> & [= -> _ _ _]).
  split.
  - assert (NoDup (map fst (merge_sort newest_first (matching cond (db w))))) as Hnd.
    { rewrite merge_sort_Permutation. unfold matching.
      eapply sublist_NoDup; [apply (NoDup_fst_map_to_list (alerts (db w)))|].
      apply fmap_sublist. induction (map_to_list (alerts (db w))) as [|x xs IH];
        simpl; [done|]. destruct (cond (snd x)); by constructor. }
    assert (forall L, map li_id (map (listed (db w)) L) = map fst L) as Hids.
    { intros L. rewrite map_map. done. }
    eapply sublist_NoDup; [rewrite <- Hids in Hnd; exact Hnd|].
    apply fmap_sublist. etrans; [apply sublist_take|apply sublist_drop].
  - intros row Hin. apply In_listing in Hin as (a & Ha & Hc & Hrow).
    exists a. split; [done|]. split; [done|].
    apply where_clause_Some in Hcond as (-> & Hq1 & Hq4 & Hq5).
    unfold conditions in Hc.
    apply andb_prop in Hc as [Hc H5]. apply andb_prop in Hc as [Hc H4].
    apply andb_prop in Hc as [Hc H3]. apply andb_prop in Hc as [H1 H2].
    repeat split.
    + intros s Hs. rewrite Hs in H1. simpl in H1.
      destruct (Hq1 s Hs) as [u Hu]. rewrite Hu in H1 |- *.
      apply String.eqb_eq in H1. by rewrite H1.
    + intros s Hs. rewrite Hs in H2. by apply String.eqb_eq.
    + intros t Ht0. rewrite Ht0 in H3. by apply String.eqb_eq.
    + intros s Hs. rewrite Hs in H4. simpl in H4.
      destruct (Hq4 s Hs) as [t Ht]. rewrite Ht in H4. exists t. split; [done|lia].
    + intros s Hs. rewrite Hs in H5. simpl in H5.
      destruct (Hq5 s Hs) as [t Ht]. rewrite Ht in H5. exists t. split; [done|lia].
Qed.

Lemma StronglySorted_sub {A} (R : relation A) (l l' : list A) :
  StronglySorted R l -> l' `sublist_of` l -> StronglySorted R l'.
Proof.
  intros Hl Hsub. induction Hsub as [|x l1 l2 Hsub IH|x l1 l2 Hsub IH].
  - constructor.
  - apply StronglySorted_inv in Hl as [Hl Hx]. constructor; [by apply IH|].
    apply Forall_forall. intros y Hy. rewrite Forall_forall in Hx.
    apply Hx. by eapply elem_of_sublist.
  - apply StronglySorted_inv in Hl as [Hl _]. by apply IH.
Qed.

Lemma listed_sorted d (l : list (N * alert)) :
  StronglySorted newest_first l ->
  StronglySorted (fun x y => li_created_at y <= li_created_at x) (map (listed d) l).
Proof.
  induction 1 as [|x xs Hxs IH Hx]; simpl; constructor; [done|].
  apply Forall_forall. intros y Hy.
  apply list_elem_of_In, in_map_iff in Hy as (z & <- & Hz).
  rewrite Forall_forall in Hx. apply Hx. by apply list_elem_of_In.
Qed.

(** X20. The rows of a listing come latest first: each row was created no
    earlier than every row after it. *)
Theorem getAlerts_latest_first q w rows total limit offset w' :
  getAlerts parseInt uuid_in timestamptz_in q w
  = ({| ares_status := 200; ares_json := alerts_page rows total limit offset |}, w') ->
  StronglySorted (fun x y => li_created_at y <= li_created_at x) rows.
Proof.
  intros Hrun.
  destruct (getAlerts_ok _ _ _ _ Hrun eq_refl)
    as (cond & l & o & _ & _ & _ & _ & _ & -> & [= -> _ _ _]).
  assert (StronglySorted (fun x y => li_created_at y <= li_created_at x)
            (map (listed (db w)) (merge_sort newest_first (matching cond (db w)))))
    as Hs.
  { apply listed_sorted, StronglySorted_merge_sort; apply _. }
  eapply StronglySorted_sub; [exact Hs|].
  etrans; [apply sublist_take|apply sublist_drop].
Qed.

(** X21. [total] counts the stored alerts that satisfy the filters, not
    the rows of the page: two listings with the same filters report the
    same total whatever their [limit] and [offset], and with no filter at
    all it is the number of stored alerts. *)
Theorem getAlerts_total_ignores_paging w
    q1 q2 rows1 rows2 total1 total2 limit1 limit2 offset1 offset2 w1 w2 :
  same_filters q1 q2 ->
  getAlerts parseInt uuid_in timestamptz_in q1 w
  = ({| ares_status := 200; ares_json := alerts_page rows1 total1 limit1 offset1 |}, w1) ->
  getAlerts parseInt uuid_in timestamptz_in q2 w
  = ({| ares_status := 200; ares_json := alerts_page rows2 total2 limit2 offset2 |}, w2) ->
  total1 = total2 /\
  Z.of_nat (length rows1) <= total1 /\
  (Js.nonempty (q_location_id q1) = None -> Js.nonempty (q_status q1) = None ->
   Js.nonempty (q_type q1) = None -> Js.nonempty (q_from q1) = None ->
   Js.nonempty (q_to q1) = None ->
   total1 = Z.of_nat (size (alerts (db w)))).
Proof.
  intros E Hrun1 Hrun2.
  destruct (getAlerts_ok _ _ _ _ Hrun1 eq_refl)
    as (cond1 & l1 & o1 & Hc1 & _ & _ & Hl1 & Ho1 & _ & [= -> -> _ ->]).
  destruct (getAlerts_ok _ _ _ _ Hrun2 eq_refl)
    as (cond2 & l2 & o2 & Hc2 & _ & _ & _ & _ & _ & [= _ -> _ _]).
  assert (cond1 = cond2) as -> by (rewrite (where_clause_same _ _ E) in Hc1; congruence).
  split; [done|]. split; [rewrite length_listing; lia|].
  intros H1 H2 H3 H4 H5.
  destruct E as (E1 & E2 & E3 & E4 & E5).
  apply where_clause_Some in Hc2 as (-> & _).
  rewrite <- E1, <- E2, <- E3, <- E4, <- E5, H1, H2, H3, H4, H5.
  unfold matching. simpl.
  f_equal. rewrite <- (length_map_to_list (alerts (db w))).
  induction (map_to_list (alerts (db w))) as [|x xs IH]; simpl; [done|]. by rewrite IH.
Qed.


(** X23. A first page is the whole answer when it has room: at offset 0
    and with a total of at most min(limit, 100), every stored alert that
    satisfies the filters is among the rows. *)
Theorem getAlerts_first_page_complete q w rows total limit w' cond id a :
  getAlerts parseInt uuid_in timestamptz_in q w
  = ({| ares_status := 200; ares_json := alerts_page rows total limit 0 |}, w') ->
  total <= Z.min limit 100 ->
  where_clause uuid_in timestamptz_in q = Some cond ->
  alerts (db w) !! id = Some a ->
  cond a = true ->
  In (listed (db w) (id, a)) rows /\ Z.of_nat (length rows) = total.
Proof.
  intros Hrun Htotal Hcond Ha Hc.
  destruct (getAlerts_ok _ _ _ _ Hrun eq_refl)
    as (c & l & o & Hc' & _ & _ & Hl & Ho & _ & [= -> -> -> <-]).
  assert (c = cond) as -> by congruence.
  split; [|rewrite length_listing; lia].
  rewrite take_ge by (rewrite length_drop, length_map, length_sorted; lia).
  simpl. apply in_map. apply list_elem_of_In. rewrite merge_sort_Permutation.
  apply list_elem_of_In, In_matching. done.
Qed.

End ListingFacts.

(** ** Counters only grow *)

Lemma upsert_daily_stats_grows now f loc date delta d d' k g :
  0 <= delta ->
  upsert_daily_stats now f loc date delta d = Some d' ->
  counter g d k <= counter g d' k /\
  (is_Some (daily_stats d !! k) -> is_Some (daily_stats d' !! k)).
Proof.
  intros Hdelta ->%upsert_daily_stats_eq. unfold counter. simpl.
  destruct (decide (k = (loc, date))) as [->|Hk].
  - rewrite lookup_insert_eq. split; [|eauto].
    destruct (daily_stats d !! (loc, date)) as [row|]; simpl.
    + rewrite get_field_updated_at.
      destruct (decide (f = g)) as [->|Hfg];
        [rewrite get_set_field; lia|by rewrite get_set_field_ne].
    + destruct (decide (f = g)) as [->|Hfg]; [rewrite get_set_field; lia|].
      rewrite get_set_field_ne by done. by destruct g.
  - by rewrite lookup_insert_ne.
Qed.

Lemma update_daily_stats_grows now f loc date d d' k g :
  update_daily_stats now f loc date d = Some d' ->
  counter g d k <= counter g d' k /\
  (is_Some (daily_stats d !! k) -> is_Some (daily_stats d' !! k)).
Proof.
  unfold update_daily_stats, counter.
  destruct (daily_stats d !! (loc, date)) as [row|] eqn:Hrow; [|by intros [= <-]].
  destruct (int4 _); [|done]. intros [= <-]. simpl.
  destruct (decide (k = (loc, date))) as [->|Hk].
  - rewrite lookup_insert_eq, Hrow. simpl. split; [|eauto].
    rewrite get_field_updated_at.
    destruct (decide (f = g)) as [->|Hfg];
      [rewrite get_set_field; lia|by rewrite get_set_field_ne].
  - by rewrite lookup_insert_ne.
Qed.

(** X24. The handlers of alerts take no count back: however [postAlert]
    or [updateAlert] ends, every counter of every (location, date) row
    is at least what it was, and a row that exists keeps existing.
    (Reopening or dismissing an alert that was counted as reviewed or
    confirmed does not uncount it.) *)
Theorem alert_handlers_never_lower_a_counter Date_parse now w k g :
  (forall body,
     let w' := snd (postAlert Date_parse now body w) in
     counter g (db w) k <= counter g (db w') k /\
     (is_Some (daily_stats (db w) !! k) -> is_Some (daily_stats (db w') !! k))) /\
  (forall id body,
     let w' := snd (updateAlert now id body w) in
     counter g (db w) k <= counter g (db w') k /\
     (is_Some (daily_stats (db w) !! k) -> is_Some (daily_stats (db w') !! k))).
Proof.
  split; cbv zeta.
  - intros body.
    destruct (Js.nonempty (a_camera_id body)) as [camera_id|] eqn:H1;
      [|unfold postAlert; by rewrite H1].
    destruct (Js.nonempty (a_location_id body)) as [l|] eqn:H2;
      [|unfold postAlert; by rewrite H1, H2].
    destruct (Js.nonempty (a_timestamp body)) as [timestamp|] eqn:H3;
      [|unfold postAlert; by rewrite H1, H2, H3].
    rewrite (postAlert_eq _ _ _ _ _ _ _ H1 H2 H3). cbv zeta.
    destruct (insert_alert _ _ _ _ _ _ _ _ _ _ _) as [[alert d1]|] eqn:Hins;
      [|done].
    apply insert_alert_Some in Hins as (_ & _ & row & ->).
    destruct (Js.toISOString_date _) as [dateStr|]; [|done].
    destruct (upsert_daily_stats _ _ _ _ _ _) as [d2|] eqn:Hup; [|done].
    destruct (emit_alert _ _ _ _ _ _) as [o w2] eqn:Hemit.
    apply emit_alert_db in Hemit.
    apply (upsert_daily_stats_grows _ _ _ _ _ _ _ k g) in Hup; [|lia].
    destruct o as [[]|]; simpl; by rewrite Hemit.
  - intros id body.
    destruct (match Js.nonempty (u_status body) with
              | Some s => negb (Js.includes validStatuses s) | None => false end) eqn:Hs.
    { unfold updateAlert. by rewrite Hs. }
    assert (match Js.nonempty (u_status body) with
            | Some s => Js.includes validStatuses s = true
            | None => True
            end) as Hs'.
    { destruct (Js.nonempty (u_status body)); [|done]. by apply negb_false_iff. }
    destruct (alerts (db w) !! id) as [a|] eqn:Ha;
      [|by rewrite (updateAlert_no_row _ _ _ _ Ha Hs')].
    rewrite (updateAlert_run _ _ _ _ _ Hs' Ha). cbv zeta.
    destruct (match Js.nonempty (u_reviewed_by body) with
              | Some u => user_exists u (db w) | None => true end); [|done].
    destruct (_ || _); [|done].
    destruct (Js.toISOString_date _) as [date|]; [|done].
    destruct (update_daily_stats _ _ _ _ _) as [d2|] eqn:Hup; [|done].
    by apply (update_daily_stats_grows _ _ _ _ _ _ k g) in Hup.
Qed.

(** ** The dashboard *)

Lemma dashboard_on_other e s :
  event_of_backend e -> dash_alerts (dashboard_on e s) = dash_alerts s.
Proof.
  unfold event_of_backend, dashboard_on.
  intros [<-|[<-|[<-|[]]]]; reflexivity.
Qed.

Lemma dashboard_after_backend rooms l :
  Forall event_of_backend l -> dash_alerts (dashboard_after rooms l) = [].
Proof.
  induction 1 as [|e l He Hl IH]; [done|].
  unfold dashboard_after in *. simpl.
  destruct (receives rooms e); [|done]. by rewrite dashboard_on_other.
Qed.

(** X25. The page never lists an alert of the backend: it listens for
    the event [alert], the backend sends [alert:new] and
    [alert:count_update]. Whatever the requests served since the server
    started, whatever the store, the failing emissions and the rooms of
    the socket, the list of alerts of the page is empty. *)
Theorem dashboard_never_lists_backend_alerts
    Date_parse timestamptz_in rs d throws rooms :
  dash_alerts
    (dashboard_after rooms
       (sent (serve Date_parse timestamptz_in rs
                {| db := d;
                   io := Some {| io_throws := throws; io_sent := [] |} |}))) = [].
Proof.
  apply dashboard_after_backend.
  pose proof (serve_sent_all event_of_backend) as H.
  unfold sent_all, sent in *.
  match goal with |- context [serve ?a ?b ?c ?w] =>
    specialize (H ltac:(intros; unfold event_of_backend; simpl; tauto)
                  ltac:(intros; unfold event_of_backend; simpl; tauto)
                  ltac:(intros; unfold event_of_backend; simpl; tauto) a b c w);
    destruct (io (serve a b c w)) end; [|done].
  apply H. constructor.
Qed.

Lemma take_cons_take {A} n (x : A) l :
  take (S n) (x :: take (S n) l) = take (S n) (x :: l).
Proof.
  simpl. f_equal. rewrite take_take. f_equal. lia.
Qed.

Lemma dash_alerts_on e s :
  dash_alerts (dashboard_on e s) =
    if String.eqb (em_event e) "alert"
    then take 50 (em_payload e :: dash_alerts s) else dash_alerts s.
Proof.
  unfold dashboard_on.
  destruct (String.eqb (em_event e) "stats") eqn:Hs.
  - apply String.eqb_eq in Hs. by rewrite Hs.
  - destruct (String.eqb (em_event e) "alert"); [done|].
    by destruct (String.eqb (em_event e) "detection").
Qed.

(** X26. Whatever is sent to it, the page keeps the 50 latest payloads
    of the event [alert] that reached its socket, latest first, and
    never more than 50. *)
Theorem dashboard_keeps_latest_50_alerts rooms l :
  dash_alerts (dashboard_after rooms l) =
    take 50 (map em_payload
               (List.filter (fun e => receives rooms e && String.eqb (em_event e) "alert") l))
  /\ (length (dash_alerts (dashboard_after rooms l)) <= 50)%nat.
Proof.
  assert (dash_alerts (dashboard_after rooms l) =
    take 50 (map em_payload
               (List.filter (fun e => receives rooms e && String.eqb (em_event e) "alert") l)))
    as H.
  { induction l as [|e l IH]; [done|].
    unfold dashboard_after in *. cbn [fold_right List.filter].
    destruct (receives rooms e); cbn [andb]; [|done].
    rewrite dash_alerts_on, IH.
    destruct (String.eqb (em_event e) "alert"); [|done].
    cbn [map]. apply take_cons_take. }
  split; [done|]. rewrite H, length_take. lia.
Qed.

(** X27. With a server whose emissions go through, every connected
    page, whatever its rooms, shows a created detection: the payload of
    the request (its [camera_id], [timestamp] and objects, the resolved
    location, [fps] or 15.0) is the entry of [detections] under the
    [camera_id], and the page counts one camera, one active. *)
Theorem dashboard_shows_created_detection
    Date_parse timestamptz_in now body w r w' i rooms :
  postDetection Date_parse timestamptz_in now body w = (r, w') ->
  res_status r = 201 ->
  io w = Some i ->
  (forall e, io_throws i e = false) ->
  exists camera_id timestamp detections,
    Js.nonempty (d_camera_id body) = Some camera_id /\
    Js.nonempty (d_timestamp body) = Some timestamp /\
    d_detections body = Some detections /\
    dash_detections (dashboard_after rooms (sent w')) !! camera_id
    = Some (detection_payload camera_id (snd (resolved camera_id (db w))) timestamp
              detections (default c_15 (Js.nonzerof (d_fps body)))) /\
    dash_cameras (dashboard_after rooms (sent w')) = Some 1 /\
    dash_active (dashboard_after rooms (sent w')) = Some 1.
Proof.
  intros Hrun Hok Hio Hup.
  destruct (postDetection_created_world _ _ _ _ _ _ _ Hrun Hok)
    as (camera_id & timestamp & detections & d2 & H1 & H3 & H4 & ->).
  exists camera_id, timestamp, detections. repeat (split; [done|]).
  unfold emit_detection, try_catch, bind.
  change (io (set_db d2 w)) with (io w). rewrite Hio.
  rewrite (emit_sent _ _ _ _ i) by (done || apply Hup).
  rewrite (emit_sent _ _ _ _ {| io_throws := io_throws i; io_sent := _ |})
    by (done || apply Hup).
  unfold sent, dashboard_after. cbn [snd io io_sent fold_right receives em_target].
  unfold dashboard_on at 1. cbn [em_event em_payload]. simpl String.eqb.
  cbn [dash_detections dash_cameras dash_active payload_camera_id].
  by rewrite lookup_insert_eq.
Qed.

(** ** The migration runner *)

Section MigrationsFacts.

Context {Store : Type} (run_sql : string -> Store -> option Store).

Lemma apply_files_skips files (s : Migrated Store) :
  (forall f, In f files -> In (fst f) (m_applied s)) ->
  apply_files run_sql files s = all_applied s.
Proof.
  induction files as [|[file sql] rest IH]; intros H; [done|].
  simpl. assert (existsb (String.eqb file) (m_applied s) = true) as ->.
  { apply existsb_exists. exists file. split; [|apply String.eqb_refl].
    apply (H (file, sql)). by left. }
  apply IH. intros f Hf. apply H. by right.
Qed.

Lemma apply_files_all files (s s' : Migrated Store) :
  apply_files run_sql files s = all_applied s' ->
  (forall n, In n (m_applied s) -> In n (m_applied s')) /\
  (forall f, In f files -> In (fst f) (m_applied s')) /\
  (forall n, In n (m_applied s') ->
     In n (m_applied s) \/ exists sql, In (n, sql) files).
Proof.
  revert s. induction files as [|[file sql] rest IH]; intros s H.
  - injection H as <-. repeat split; auto. intros f [].
  - simpl in H. destruct (existsb (String.eqb file) (m_applied s)) eqn:He.
    + destruct (IH _ H) as (H1 & H2 & H3). repeat split; auto.
      * intros f [<-|Hf]; [|auto]. simpl.
        apply existsb_exists in He as (n & Hn & Heq).
        apply String.eqb_eq in Heq as ->. auto.
      * intros n Hn. destruct (H3 n Hn) as [?|[sql' ?]]; [by left|].
        right. exists sql'. by right.
    + destruct (run_sql sql (m_store s)) as [store'|]; [|done].
      destruct (IH _ H) as (H1 & H2 & H3). simpl in *. repeat split.
      * intros n Hn. apply H1. by right.
      * intros f [<-|Hf]; [|auto]. apply H1. by left.
      * intros n Hn. destruct (H3 n Hn) as [[<-|?]|[sql' ?]].
        -- right. exists sql. by left.
        -- by left.
        -- right. exists sql'. by right.
Qed.

Lemma apply_files_exit files (s s' : Migrated Store) file :
  apply_files run_sql files s = exited_1 file s' ->
  (forall n, In n (m_applied s) -> In n (m_applied s')) /\
  ~ In file (m_applied s') /\
  exists sql, In (file, sql) files /\ run_sql sql (m_store s') = None.
Proof.
  revert s. induction files as [|[f sql] rest IH]; intros s H; [done|].
  simpl in H. destruct (existsb (String.eqb f) (m_applied s)) eqn:He.
  - destruct (IH _ H) as (H1 & H2 & sql' & H3 & H4). repeat split; auto.
    exists sql'. split; [by right|done].
  - destruct (run_sql sql (m_store s)) as [store'|] eqn:Hr.
    + destruct (IH _ H) as (H1 & H2 & sql' & H3 & H4). simpl in *.
      repeat split; auto. exists sql'. split; [by right|done].
    + injection H as <- <-. repeat split; auto.
      * intros Hin. apply not_true_iff_false in He. apply He.
        apply existsb_exists. exists f. split; [done|apply String.eqb_refl].
      * exists sql. split; [by left|done].
Qed.

Lemma In_sorted_files dir (f : string * string) :
  In f (merge_sort file_le (List.filter (fun f => endsWith ".sql" (fst f)) dir)) <->
  In f dir /\ endsWith ".sql" (fst f) = true.
Proof.
  rewrite <- !list_elem_of_In, merge_sort_Permutation, !list_elem_of_In.
  apply filter_In.
Qed.

(** X28. A run of the migrations that ends normally has recorded every
    [.sql] file of the directory, has recorded nothing else beside what
    was recorded before, and a second run on its result applies nothing:
    it ends normally in the same state. *)
Theorem runMigrations_complete_and_idempotent dir (s s' : Migrated Store) :
  runMigrations run_sql dir s = all_applied s' ->
  (forall file sql, In (file, sql) dir -> endsWith ".sql" file = true ->
     In file (m_applied s')) /\
  (forall n, In n (m_applied s') ->
     In n (m_applied s) \/
     exists sql, In (n, sql) dir /\ endsWith ".sql" n = true) /\
  runMigrations run_sql dir s' = all_applied s'.
Proof.
  unfold runMigrations. intros H.
  destruct (apply_files_all _ _ _ H) as (H1 & H2 & H3). repeat split.
  - intros file sql Hin He. apply (H2 (file, sql)). by apply In_sorted_files.
  - intros n Hn. destruct (H3 n Hn) as [?|[sql Hs]]; [by left|].
    right. exists sql. by apply In_sorted_files in Hs.
  - by apply apply_files_skips.
Qed.

(** X29. A run of the migrations that exits with status 1 names a [.sql]
    file of the directory whose text the store refuses in the state the
    run leaves; the file is not recorded, and what was recorded before
    the run still is. *)
Theorem runMigrations_failure dir (s s' : Migrated Store) file :
  runMigrations run_sql dir s = exited_1 file s' ->
  ~ In file (m_applied s') /\
  (forall n, In n (m_applied s) -> In n (m_applied s')) /\
  exists sql, In (file, sql) dir /\ endsWith ".sql" file = true /\
              run_sql sql (m_store s') = None.
Proof.
  unfold runMigrations. intros H.
  destruct (apply_files_exit _ _ _ _ H) as (H1 & H2 & sql & H3 & H4).
  apply In_sorted_files in H3 as [H3 H5]. repeat split; auto.
  exists sql. auto.
Qed.

End MigrationsFacts.

(** ** The further properties on the example deployment *)

Lemma run_of_fst {A B} (p : A * B) (a : A) : fst p = a -> p = (a, snd p).
Proof. intros <-. apply surjective_pairing. Qed.

Lemma postDetection_400_iff_missing_field_witness :
  Js.nonempty (d_camera_id detection_without_camera) = None /\
  postDetection Js.parse_iso Js.parse_iso now_same_day detection_without_camera w0
  = (respond 400 (error_body "Missing required fields"), w0).
Proof.
  split; [reflexivity|].
  apply (proj1 (postDetection_400_iff_missing_field Js.parse_iso Js.parse_iso
                  now_same_day detection_without_camera w0)).
  left. reflexivity.
Defined.

Lemma postAlert_400_iff_missing_field_witness :
  Js.nonempty (a_timestamp alert_without_timestamp) = None /\
  postAlert Js.parse_iso now_same_day alert_without_timestamp w0
  = (respond 400 (error_body "Missing required fields"), w0).
Proof.
  split; [reflexivity|].
  apply (proj1 (postAlert_400_iff_missing_field Js.parse_iso now_same_day
                  alert_without_timestamp w0)).
  right. right. reflexivity.
Defined.

Lemma rejected_write_changes_nothing_witness :
  location_exists (snd (resolved "cam-99" (db w_no_fallback))) (db w_no_fallback) = false /\
  postDetection Js.parse_iso Js.parse_iso now_same_day detection_unknown w_no_fallback
  = (internal_error, w_no_fallback) /\
  postAlert Js.parse_iso now_same_day alert_unknown w_no_fallback
  = (internal_error, w_no_fallback).
Proof.
  assert (location_exists (snd (resolved "cam-99" (db w_no_fallback)))
            (db w_no_fallback) = false) as Hloc by (vm_compute; reflexivity).
  split; [exact Hloc|]. split.
  - apply (proj1 (rejected_write_changes_nothing Js.parse_iso Js.parse_iso
                    now_same_day w_no_fallback)
             detection_unknown "cam-99" "loc-01" t_before_midnight [person]);
      try reflexivity.
    right. exact Hloc.
  - apply (proj2 (rejected_write_changes_nothing Js.parse_iso Js.parse_iso
                    now_same_day w_no_fallback)
             alert_unknown "cam-99" "loc-01" t_before_midnight);
      reflexivity.
Defined.

Lemma invalid_date_is_never_counted_witness :
  Js.toISOString_date (Date_parse_strict t_before_midnight) = None /\
  fst (postDetection Date_parse_strict Js.parse_iso now_same_day detection_cam01 w0)
  = internal_error /\
  daily_stats (db (snd (postDetection Date_parse_strict Js.parse_iso now_same_day
                          detection_cam01 w0)))
  = daily_stats (db w0).
Proof.
  assert (Js.toISOString_date (Date_parse_strict t_before_midnight) = None) as Hdate
    by (vm_compute; reflexivity).
  split; [exact Hdate|].
  destruct (proj1 (invalid_date_is_never_counted Date_parse_strict Js.parse_iso
                     now_same_day w0)
              detection_cam01 "cam-01" "loc-01" t_before_midnight [person; bottle]
              eq_refl eq_refl eq_refl eq_refl Hdate)
    as (H1 & _ & H3 & _).
  split; [exact H1|exact H3].
Defined.

Lemma postAlert_counts_on_timestamp_date_witness :
  res_status (fst (postAlert Js.parse_iso now_after_midnight
                     (alert_cam01 (Some c_0_8)) w0)) = 201 /\
  exists dateStr,
    Js.toISOString_date (Js.parse_iso t_before_midnight) = Some dateStr /\
    counter f_total_alerts
      (db (snd (postAlert Js.parse_iso now_after_midnight
                  (alert_cam01 (Some c_0_8)) w0)))
      (snd (fst (resolved_tenant "cam-01" (db w0))), dateStr)
    = counter f_total_alerts (db w0)
        (snd (fst (resolved_tenant "cam-01" (db w0))), dateStr) + 1.
Proof.
  assert (res_status (fst (postAlert Js.parse_iso now_after_midnight
                             (alert_cam01 (Some c_0_8)) w0)) = 201) as Hok
    by (vm_compute; reflexivity).
  split; [exact Hok|].
  destruct (postAlert_counts_on_timestamp_date Js.parse_iso now_after_midnight
              (alert_cam01 (Some c_0_8)) w0 _ _ (surjective_pairing _) Hok)
    as (camera_id & timestamp & dateStr & H1 & H2 & H3 & H4 & _).
  injection H1 as <-. injection H2 as <-.
  exists dateStr. split; [exact H3|exact H4].
Defined.

Lemma postDetection_stored_record_witness :
  res_status (fst (postDetection Js.parse_iso Js.parse_iso now_same_day
                     detection_unknown w0)) = 201 /\
  exists row,
    cv_detections (db (snd (postDetection Js.parse_iso Js.parse_iso now_same_day
                              detection_unknown w0))) !! next_id (db w0) = Some row /\
    det_detection_count row = 1 /\
    det_camera_id row = None /\ det_location_id row = FALLBACK.
Proof.
  assert (res_status (fst (postDetection Js.parse_iso Js.parse_iso now_same_day
                             detection_unknown w0)) = 201) as Hok
    by (vm_compute; reflexivity).
  split; [exact Hok|].
  destruct (postDetection_stored_record Js.parse_iso Js.parse_iso now_same_day
              detection_unknown w0 _ _ (surjective_pairing _) Hok)
    as (camera_id & detections & row & H1 & H2 & _ & H4 & _ & H6 & _ & _ & H9).
  injection H1 as <-. injection H2 as <-.
  exists row. split; [exact H4|]. split; [exact H6|]. exact H9.
Defined.

Lemma postDetection_emits_room_then_all_witness :
  res_status (fst (postDetection Js.parse_iso Js.parse_iso now_same_day
                     detection_cam01 w0)) = 201 /\
  fanout_up w0 /\
  exists p,
    sent (snd (postDetection Js.parse_iso Js.parse_iso now_same_day detection_cam01 w0))
    = [ {| em_target := to_all; em_event := "detection"; em_payload := p |};
        {| em_target := to_room ("location:" ++ store_berlin);
           em_event := "detection"; em_payload := p |} ].
Proof.
  assert (res_status (fst (postDetection Js.parse_iso Js.parse_iso now_same_day
                             detection_cam01 w0)) = 201) as Hok
    by (vm_compute; reflexivity).
  assert (fanout_up w0) as Hup by (intros e; reflexivity).
  split; [exact Hok|]. split; [exact Hup|].
  destruct (postDetection_emits_room_then_all Js.parse_iso Js.parse_iso now_same_day
              detection_cam01 w0 _ _ (surjective_pairing _) Hok Hup)
    as (camera_id & timestamp & detections & H1 & H2 & H3 & H4).
  injection H1 as <-. injection H2 as <-. injection H3 as <-.
  cbv zeta in H4. unfold sent. cbn [io w0] in H4. rewrite H4.
  eexists. reflexivity.
Defined.

Lemma postAlert_emits_tenant_location_count_witness :
  res_status (fst (postAlert Js.parse_iso now_same_day (alert_cam01 (Some c_0_8)) w0))
  = 201 /\
  map (fun e => (em_target e, em_event e))
    (sent (snd (postAlert Js.parse_iso now_same_day (alert_cam01 (Some c_0_8)) w0)))
  = [ (to_all, "alert:count_update");
      (to_room ("location:" ++ store_berlin), "alert:new");
      (to_room ("tenant:" ++ tenant_acme), "alert:new") ].
Proof.
  assert (res_status (fst (postAlert Js.parse_iso now_same_day
                             (alert_cam01 (Some c_0_8)) w0)) = 201) as Hok
    by (vm_compute; reflexivity).
  split; [exact Hok|].
  destruct (postAlert_emits_tenant_location_count Js.parse_iso now_same_day
              (alert_cam01 (Some c_0_8)) w0 _ _ io_up (surjective_pairing _) Hok eq_refl)
    as (camera_id & H1 & H2).
  injection H1 as <-. cbv zeta in H2. unfold sent. rewrite H2. reflexivity.
Defined.

Lemma handlers_keep_snapshots_bounded_witness :
  snapshots_bounded w0 /\
  snapshots_bounded
    (snd (postAlert Js.parse_iso now_same_day (alert_cam01 (Some c_0_8)) w0)).
Proof.
  assert (snapshots_bounded w0) as H0 by constructor.
  split; [exact H0|].
  apply (proj1 (proj2 (handlers_keep_snapshots_bounded Js.parse_iso Js.parse_iso
                         now_same_day w0 H0))).
Defined.

Lemma ingestion_only_appends_witness :
  1%N <> next_id (db (w_alert now_same_day)) /\
  alerts (db (snd (postAlert Js.parse_iso now_after_midnight alert_unknown
                     (w_alert now_same_day)))) !! 1%N
  = alerts (db (w_alert now_same_day)) !! 1%N.
Proof.
  assert (1%N <> next_id (db (w_alert now_same_day))) as Hne
    by (vm_compute; discriminate).
  split; [exact Hne|].
  destruct (proj2 (ingestion_only_appends Js.parse_iso Js.parse_iso now_after_midnight
                     (w_alert now_same_day)) alert_unknown)
    as (_ & _ & _ & _ & H).
  exact (H 1%N Hne).
Defined.

Lemma alert_handlers_never_lower_a_counter_witness :
  let k := (store_berlin, "2024-01-15") in
  is_Some (daily_stats (db (w_alert now_same_day)) !! k) /\
  counter f_total_alerts (db (w_alert now_same_day)) k
  <= counter f_total_alerts
       (db (snd (updateAlert now_after_midnight 1 dismiss (w_alert now_same_day)))) k /\
  is_Some (daily_stats
             (db (snd (updateAlert now_after_midnight 1 dismiss (w_alert now_same_day))))
             !! k).
Proof.
  cbv zeta.
  assert (is_Some (daily_stats (db (w_alert now_same_day))
                     !! (store_berlin, "2024-01-15"))) as Hrow
    by (vm_compute; eexists; reflexivity).
  split; [exact Hrow|].
  destruct (proj2 (alert_handlers_never_lower_a_counter Js.parse_iso
                     now_after_midnight (w_alert now_same_day)
                     (store_berlin, "2024-01-15") f_total_alerts)
              1%N dismiss) as [H1 H2].
  split; [exact H1|exact (H2 Hrow)].
Defined.

Lemma updateAlert_404_iff_unknown_id_witness :
  is_uuid_text user_admin = true /\
  alerts (db w0) !! 5%N = None /\
  updateAlert now_same_day 5 resolve w0
  = (respond 404 (error_body "Alert not found"), w0).
Proof.
  assert (alerts (db w0) !! 5%N = None) as Ha by reflexivity.
  split; [reflexivity|]. split; [exact Ha|].
  apply (proj2 (updateAlert_404_iff_unknown_id now_same_day 5 resolve w0
                  ltac:(reflexivity) ltac:(reflexivity)) Ha).
Defined.

Lemma updateAlert_other_status_keeps_counters_witness :
  Js.nonempty (u_status dismiss) = Some "dismissed" /\
  daily_stats (db (snd (updateAlert now_after_midnight 1 dismiss (w_alert now_same_day))))
  = daily_stats (db (w_alert now_same_day)).
Proof.
  split; [reflexivity|].
  apply updateAlert_other_status_keeps_counters; discriminate.
Defined.

Lemma updateAlert_rewrites_review_columns_witness :
  res_status (fst (updateAlert now_after_midnight 1 resolve (w_alert now_same_day)))
  = 200 /\
  exists a',
    alerts (db (snd (updateAlert now_after_midnight 1 resolve (w_alert now_same_day))))
      !! 1%N = Some a' /\
    al_reviewed_by a' = Some user_admin /\
    al_reviewed_at a' = Some now_after_midnight.
Proof.
  assert (res_status (fst (updateAlert now_after_midnight 1 resolve
                             (w_alert now_same_day))) = 200) as Hok
    by (vm_compute; reflexivity).
  split; [exact Hok|].
  destruct (updateAlert_rewrites_review_columns now_after_midnight 1 resolve
              (w_alert now_same_day) _ _ (surjective_pairing _) Hok)
    as (a & a' & _ & Ha' & _ & _ & Hby & Hat & _).
  exists a'. split; [exact Ha'|]. split; [exact Hby|exact Hat].
Defined.

Lemma updateAlert_unknown_reviewer_changes_nothing_witness :
  is_uuid_text "e91b6c3a-58d2-4c07-b1f4-7a2d0c9e8b36" = true /\
  alerts (db (w_alert now_same_day)) !! 1%N = Some (alert_cam01_stored now_same_day) /\
  user_exists "e91b6c3a-58d2-4c07-b1f4-7a2d0c9e8b36" (db (w_alert now_same_day)) = false /\
  updateAlert now_after_midnight 1 review_by_stranger (w_alert now_same_day)
  = (internal_error, w_alert now_same_day).
Proof.
  assert (alerts (db (w_alert now_same_day)) !! 1%N
          = Some (alert_cam01_stored now_same_day)) as Ha
    by (vm_compute; reflexivity).
  assert (user_exists "e91b6c3a-58d2-4c07-b1f4-7a2d0c9e8b36"
            (db (w_alert now_same_day)) = false) as Hu
    by (vm_compute; reflexivity).
  split; [reflexivity|]. split; [exact Ha|]. split; [exact Hu|].
  exact (updateAlert_unknown_reviewer_changes_nothing now_after_midnight 1
           review_by_stranger (w_alert now_same_day) _ _ Ha
           ltac:(reflexivity) eq_refl eq_refl Hu).
Defined.

Lemma apiKeyAuth_accepts_listed_keys_witness :
  Js.trim " edge-key " = "edge-key" /\
  apiKeyAuth Js.trim (Some (String.concat "," example_keys)) (Some "edge-key") = next.
Proof.
  assert (Js.trim " edge-key " = "edge-key") as Ht by (vm_compute; reflexivity).
  split; [exact Ht|].
  apply (proj1 (apiKeyAuth_accepts_listed_keys Js.trim example_keys (Some "edge-key")
                  ltac:(discriminate)
                  ltac:(repeat constructor))).
  exists "edge-key", " edge-key ". split; [reflexivity|]. split; [discriminate|].
  split; [right; left; reflexivity|exact Ht].
Defined.

Lemma apiKeyAuth_accepted_key_shape_witness :
  apiKeyAuth Js.trim (Some "cv-engine-key, edge-key ") (Some "edge-key") = next /\
  exists k, Some "edge-key" = Some k /\ k <> "" /\ has_char "," k = false /\ Js.trim k = k.
Proof.
  assert (apiKeyAuth Js.trim (Some "cv-engine-key, edge-key ") (Some "edge-key") = next)
    as H by (vm_compute; reflexivity).
  split; [exact H|].
  exact (apiKeyAuth_accepted_key_shape Js.trim _ _ trim_idem (has_char_trim ",") H).
Defined.

Lemma getAlerts_page_size_witness :
  let w := w_alert now_same_day in
  let rows := [listed (db w) (1%N, alert_cam01_stored now_same_day)] in
  fst (getAlerts parseInt_digits uuid_text Js.parse_iso (no_filter (Some "10") None) w)
  = {| ares_status := 200; ares_json := alerts_page rows 1 10 0 |} /\
  Z.of_nat (length rows) = Z.min (Z.min 10 100) (Z.max 0 (1 - 0)).
Proof.
  cbv zeta.
  assert (fst (getAlerts parseInt_digits uuid_text Js.parse_iso
                 (no_filter (Some "10") None) (w_alert now_same_day))
          = {| ares_status := 200;
               ares_json :=
                 alerts_page [listed (db (w_alert now_same_day))
                                (1%N, alert_cam01_stored now_same_day)] 1 10 0 |})
    as Hfst by (vm_compute; reflexivity).
  split; [exact Hfst|].
  exact (proj1 (proj2 (proj2 (getAlerts_page_size _ _ _ _ _ _ _ _ _ _
                                (run_of_fst _ _ Hfst))))).
Defined.

Lemma getAlerts_rows_satisfy_filters_witness :
  let w := w_alert now_same_day in
  let rows := [listed (db w) (1%N, alert_cam01_stored now_same_day)] in
  fst (getAlerts parseInt_digits uuid_text Js.parse_iso (no_filter (Some "10") None) w)
  = {| ares_status := 200; ares_json := alerts_page rows 1 10 0 |} /\
  NoDup (map li_id rows).
Proof.
  cbv zeta.
  assert (fst (getAlerts parseInt_digits uuid_text Js.parse_iso
                 (no_filter (Some "10") None) (w_alert now_same_day))
          = {| ares_status := 200;
               ares_json :=
                 alerts_page [listed (db (w_alert now_same_day))
                                (1%N, alert_cam01_stored now_same_day)] 1 10 0 |})
    as Hfst by (vm_compute; reflexivity).
  split; [exact Hfst|].
  exact (proj1 (getAlerts_rows_satisfy_filters _ _ _ _ _ _ _ _ _ _
                  (run_of_fst _ _ Hfst))).
Defined.

Lemma getAlerts_latest_first_witness :
  let w := w_alert now_same_day in
  let rows := [listed (db w) (1%N, alert_cam01_stored now_same_day)] in
  fst (getAlerts parseInt_digits uuid_text Js.parse_iso (no_filter (Some "10") None) w)
  = {| ares_status := 200; ares_json := alerts_page rows 1 10 0 |} /\
  StronglySorted (fun x y => li_created_at y <= li_created_at x) rows.
Proof.
  cbv zeta.
  assert (fst (getAlerts parseInt_digits uuid_text Js.parse_iso
                 (no_filter (Some "10") None) (w_alert now_same_day))
          = {| ares_status := 200;
               ares_json :=
                 alerts_page [listed (db (w_alert now_same_day))
                                (1%N, alert_cam01_stored now_same_day)] 1 10 0 |})
    as Hfst by (vm_compute; reflexivity).
  split; [exact Hfst|].
  exact (getAlerts_latest_first _ _ _ _ _ _ _ _ _ _ (run_of_fst _ _ Hfst)).
Defined.

Lemma getAlerts_total_ignores_paging_witness :
  let w := w_alert now_same_day in
  let rows := [listed (db w) (1%N, alert_cam01_stored now_same_day)] in
  fst (getAlerts parseInt_digits uuid_text Js.parse_iso (no_filter (Some "10") None) w)
  = {| ares_status := 200; ares_json := alerts_page rows 1 10 0 |} /\
  fst (getAlerts parseInt_digits uuid_text Js.parse_iso
         (no_filter (Some "1") (Some "1")) w)
  = {| ares_status := 200; ares_json := alerts_page [] 1 1 1 |} /\
  1 = Z.of_nat (size (alerts (db w))).
Proof.
  cbv zeta.
  assert (fst (getAlerts parseInt_digits uuid_text Js.parse_iso
                 (no_filter (Some "10") None) (w_alert now_same_day))
          = {| ares_status := 200;
               ares_json :=
                 alerts_page [listed (db (w_alert now_same_day))
                                (1%N, alert_cam01_stored now_same_day)] 1 10 0 |})
    as Hfst by (vm_compute; reflexivity).
  assert (fst (getAlerts parseInt_digits uuid_text Js.parse_iso
                 (no_filter (Some "1") (Some "1")) (w_alert now_same_day))
          = {| ares_status := 200; ares_json := alerts_page [] 1 1 1 |})
    as Hsnd by (vm_compute; reflexivity).
  split; [exact Hfst|]. split; [exact Hsnd|].
  apply (proj2 (proj2 (getAlerts_total_ignores_paging parseInt_digits uuid_text
                         Js.parse_iso (w_alert now_same_day)
                         (no_filter (Some "10") None) (no_filter (Some "1") (Some "1"))
                         _ _ _ _ _ _ _ _ _ _ ltac:(repeat split)
                         (run_of_fst _ _ Hfst) (run_of_fst _ _ Hsnd))));
    reflexivity.
Defined.


Lemma getAlerts_first_page_complete_witness :
  let w := w_alert now_same_day in
  let rows := [listed (db w) (1%N, alert_cam01_stored now_same_day)] in
  fst (getAlerts parseInt_digits uuid_text Js.parse_iso (no_filter (Some "10") None) w)
  = {| ares_status := 200; ares_json := alerts_page rows 1 10 0 |} /\
  alerts (db w) !! 1%N = Some (alert_cam01_stored now_same_day) /\
  In (listed (db w) (1%N, alert_cam01_stored now_same_day)) rows.
Proof.
  cbv zeta.
  assert (fst (getAlerts parseInt_digits uuid_text Js.parse_iso
                 (no_filter (Some "10") None) (w_alert now_same_day))
          = {| ares_status := 200;
               ares_json :=
                 alerts_page [listed (db (w_alert now_same_day))
                                (1%N, alert_cam01_stored now_same_day)] 1 10 0 |})
    as Hfst by (vm_compute; reflexivity).
  assert (alerts (db (w_alert now_same_day)) !! 1%N
          = Some (alert_cam01_stored now_same_day)) as Ha
    by (vm_compute; reflexivity).
  split; [exact Hfst|]. split; [exact Ha|].
  exact (proj1 (getAlerts_first_page_complete parseInt_digits uuid_text Js.parse_iso
                  (no_filter (Some "10") None) (w_alert now_same_day) _ 1 10 _
                  (conditions None None None None None) 1%N
                  (alert_cam01_stored now_same_day)
                  (run_of_fst _ _ Hfst) ltac:(vm_compute; discriminate)
                  eq_refl Ha eq_refl)).
Defined.

Lemma dashboard_shows_created_detection_witness :
  res_status (fst (postDetection Js.parse_iso Js.parse_iso now_same_day
                     detection_cam01 w0)) = 201 /\
  dash_cameras
    (dashboard_after dashboard_rooms
       (sent (snd (postDetection Js.parse_iso Js.parse_iso now_same_day
                     detection_cam01 w0)))) = Some 1 /\
  is_Some
    (dash_detections
       (dashboard_after dashboard_rooms
          (sent (snd (postDetection Js.parse_iso Js.parse_iso now_same_day
                        detection_cam01 w0)))) !! "cam-01").
Proof.
  assert (res_status (fst (postDetection Js.parse_iso Js.parse_iso now_same_day
                             detection_cam01 w0)) = 201) as Hok
    by (vm_compute; reflexivity).
  split; [exact Hok|].
  destruct (dashboard_shows_created_detection Js.parse_iso Js.parse_iso now_same_day
              detection_cam01 w0 _ _ io_up dashboard_rooms
              (surjective_pairing _) Hok eq_refl (fun _ => eq_refl))
    as (camera_id & timestamp & detections & H1 & _ & _ & H4 & H5 & _).
  injection H1 as <-. split; [exact H5|]. rewrite H4. eexists. reflexivity.
Defined.

Lemma runMigrations_complete_and_idempotent_witness :
  runMigrations run_once example_dir migrated_none = all_applied migrated_all /\
  In "002_cameras.sql" (m_applied migrated_all) /\
  runMigrations run_once example_dir migrated_all = all_applied migrated_all.
Proof.
  assert (runMigrations run_once example_dir migrated_none = all_applied migrated_all)
    as Hrun by (vm_compute; reflexivity).
  split; [exact Hrun|].
  destruct (runMigrations_complete_and_idempotent run_once example_dir
              migrated_none migrated_all Hrun) as (H1 & _ & H3).
  split; [|exact H3].
  apply (H1 "002_cameras.sql" "CREATE INDEX idx_cameras ON cameras(camera_id)").
  - right. left. reflexivity.
  - vm_compute; reflexivity.
Defined.

Lemma runMigrations_failure_witness :
  runMigrations run_once example_dir migrated_unrecorded
  = exited_1 "001_initial_schema.sql" migrated_unrecorded /\
  ~ In "001_initial_schema.sql" (m_applied migrated_unrecorded).
Proof.
  assert (runMigrations run_once example_dir migrated_unrecorded
          = exited_1 "001_initial_schema.sql" migrated_unrecorded)
    as Hrun by (vm_compute; reflexivity).
  split; [exact Hrun|].
  exact (proj1 (runMigrations_failure run_once example_dir migrated_unrecorded
                  migrated_unrecorded "001_initial_schema.sql" Hrun)).
Defined.
